(** * analyze_log.py: a shallow embedding and its properties

    The script scans a node's debug log twice.  [find_block_range] looks for
    the blocks that carried real work, [parse_log_file] collects four series
    of durations, and [compute_statistics] reduces a series to its summary.
    [main] runs the two passes on the log named by its arguments, gathers
    the four summaries with [build_summary], prints them with
    [format_stats] and writes them as JSON when asked to.

    Python values are modelled as follows.
    - [str]: the list of its Unicode code points ([pystr]).
    - [float]: IEEE-754 binary64, Rocq's primitive [float]; conversions from
      decimal text and from integer ratios round to nearest, ties to even.
    - [int]: [Z].
    - an exception: the [Raise] case of [result].
    - [dict]: a [gmap].
    What the interpreter supplies and the repository does not contain (the
    Unicode table of decimal digits, [datetime], the limit on the length of
    integer literals) is gathered in the class [Runtime]; paths and the
    text of numbers in formatted strings are gathered in the class
    [Console].  The definitions and the general theorems are stated for
    arbitrary ones; the sample runs at the end use [reference_runtime] and
    [reference_console].

    [main] is a function of its arguments and of the content of the log,
    [None] when the file does not exist; a log that exists is taken to be
    readable text, the same in both passes.  Its effects, the calls of
    [print] and the JSON file written, are listed in order beside its
    result. *)

From Stdlib Require Import ZArith NArith List Ascii String Floats Lia Sorted.
From stdpp Require Import base option list gmap.

#[local] Open Scope Z_scope.

(** ** Text *)

(** A Python [str] is a sequence of code points. *)
Definition pystr : Type := list N.

(** Literals are written as Rocq strings, which hold UTF-8 bytes. *)
Fixpoint utf8_decode (bs : list N) : pystr :=
  match bs with
  | [] => []
  | b0 :: t0 =>
    if (b0 <? 128)%N then b0 :: utf8_decode t0
    else
      match t0 with
      | [] => []
      | b1 :: t1 =>
        if (b0 <? 224)%N then ((b0 mod 32) * 64 + b1 mod 64)%N :: utf8_decode t1
        else
          match t1 with
          | [] => []
          | b2 :: t2 =>
            if (b0 <? 240)%N
            then ((b0 mod 16) * 4096 + (b1 mod 64) * 64 + b2 mod 64)%N :: utf8_decode t2
            else
              match t2 with
              | [] => []
              | b3 :: t3 =>
                ((b0 mod 8) * 262144 + (b1 mod 64) * 4096
                 + (b2 mod 64) * 64 + b3 mod 64)%N :: utf8_decode t3
              end
          end
      end
  end.

Definition text (s : string) : pystr :=
  utf8_decode (map N_of_ascii (list_ascii_of_string s)).

Definition str_eqb (a b : pystr) : bool := bool_decide (a = b).

(** [a.startswith(b)] *)
Fixpoint starts_with (p s : pystr) : bool :=
  match p, s with
  | [], _ => true
  | x :: p', y :: s' => (x =? y)%N && starts_with p' s'
  | _ :: _, [] => false
  end.

(** [needle in haystack] *)
Fixpoint contains (needle haystack : pystr) : bool :=
  starts_with needle haystack
  || match haystack with
     | [] => false
     | _ :: rest => contains needle rest
     end.

(** [str.isspace] on one character, which is also what [\s] matches. *)
Definition isspace (c : N) : bool :=
  ((9 <=? c) && (c <=? 13) || (28 <=? c) && (c <=? 32)
   || (c =? 133) || (c =? 160) || (c =? 5760)
   || (8192 <=? c) && (c <=? 8202)
   || (c =? 8232) || (c =? 8233) || (c =? 8239) || (c =? 8287) || (c =? 12288))%N.

Fixpoint lstrip (s : pystr) : pystr :=
  match s with
  | c :: t => if isspace c then lstrip t else s
  | [] => []
  end.

(** [s.strip()] *)
Definition strip (s : pystr) : pystr := rev (lstrip (rev (lstrip s))).

(** [s.replace(c, by)] for a one-character [c]. *)
Definition replace_char (c : N) (by_ : pystr) (s : pystr) : pystr :=
  flat_map (fun x => if (x =? c)%N then by_ else [x]) s.

(** ** Exceptions *)

Inductive exn : Type :=
  ValueError | KeyError | StatisticsError | AttributeError | OverflowError.

Inductive result (A : Type) : Type :=
| Ok (a : A)
| Raise (e : exn).
Arguments Ok {A} a.
Arguments Raise {A} e.

Definition bind {A B : Type} (m : result A) (k : A -> result B) : result B :=
  match m with
  | Ok a => k a
  | Raise e => Raise e
  end.

Notation "'try!' x := m 'in' k" := (bind m (fun x => k))
  (at level 10, x name, m at level 100, k at level 200).

(** ** Floating point *)

(** The binary64 value nearest to [n / d] (for [0 < d]), ties to even: what
    [float] of a decimal literal and [int / int] return. *)
Definition float_of_ratio (n d : Z) : float :=
  match n with
  | Z0 => 0%float
  | _ =>
    let '(q, e, l) := SFdiv_core_binary prec emax (Z.abs n) 0 d 0 in
    SF2Prim (binary_round_aux prec emax (n <? 0) q e l)
  end.

(** The exact value of a finite float in units of [2^-1074], of which every
    finite binary64 is a multiple; [inf] and [nan] have none.  This is
    [x.as_integer_ratio()], which raises for [inf] and [nan]. *)
Definition exact_scaled (x : float) : option Z :=
  match Prim2SF x with
  | S754_finite s m e => Some (cond_Zopp s (Zpos m * 2 ^ (e + 1074)))
  | S754_zero _ => Some 0
  | _ => None
  end.

Definition float_is_nan (x : float) : bool :=
  match Prim2SF x with
  | S754_nan => true
  | _ => false
  end.

Definition float_is_inf (x : float) : bool :=
  match Prim2SF x with
  | S754_infinity _ => true
  | _ => false
  end.

(** [n / d] for integers ([0 < d]): the nearest float, ties to even, and
    [OverflowError] when that is not finite. *)
Definition true_divide (n d : Z) : result float :=
  let q := float_of_ratio n d in
  if float_is_inf q then Raise OverflowError else Ok q.

Fixpoint insert_sorted (x : float) (l : list float) : list float :=
  match l with
  | [] => [x]
  | y :: t => if (x <? y)%float then x :: l else y :: insert_sorted x t
  end.

(** The ascending stable sort: equal values keep their order. *)
Definition stable_sort (data : list float) : list float :=
  fold_left (fun acc x => insert_sorted x acc) data [].

(** ** The interpreter *)

Class Runtime : Type := {
  (** decimal value of the code points from 256 on that are decimal digits
      (Unicode category Nd); below 256 these are the ten ASCII digits. *)
  unicode_decimal : N -> option N;
  unicode_decimal_not_space :
    forall c d, unicode_decimal c = Some d -> isspace c = false;
  (** [datetime.datetime], [datetime.fromisoformat] and the difference of
      two instants in microseconds (a [timedelta]). *)
  datetime : Type;
  fromisoformat : pystr -> result datetime;
  timedelta_us : datetime -> datetime -> Z;
  (** [sys.get_int_max_str_digits()]: the longest digit string that [int]
      converts, 0 for no limit. *)
  int_max_str_digits : nat;
  (** [sorted] on a list of floats: the data in some order, and, when no
      datum is [nan], in ascending order, equal values in the order they
      had.  With [nan] among the data the order depends on the
      comparisons that the sort happens to make. *)
  sorted : list float -> list float;
  sorted_perm : forall data, Permutation (sorted data) data;
  sorted_stable :
    forall data, Forall (fun x => float_is_nan x = false) data ->
    sorted data = stable_sort data
}.

(** ** Regular expressions

    The patterns of the script use literals, character sets, greedy
    quantifiers on a single character set, concatenation, alternation and
    capturing groups.  [run] lists every way a pattern matches a prefix of
    the subject, in the order in which a backtracking matcher tries them;
    the first entry is the match that [re] reports. *)

Inductive citem : Type :=
| CChar (c : N)            (* a literal character *)
| CRange (lo hi : N)       (* lo-hi *)
| CDigit                   (* \d *)
| CSpace.                  (* \s *)

Inductive regex : Type :=
| Lit (s : pystr)
| Chars (cl : list citem)
| Rep (cl : list citem) (lo : nat) (hi : option nat)
| Seq (r1 r2 : regex)
| Alt (r1 r2 : regex)
| Group (r : regex).

Section Matching.
Context {RT : Runtime}.

(** Decimal value of a digit character. *)
Definition decimal (c : N) : option N :=
  if (c <? 256)%N
  then if ((48 <=? c) && (c <=? 57))%N then Some (c - 48)%N else None
  else unicode_decimal c.

Definition in_item (i : citem) (c : N) : bool :=
  match i with
  | CChar x => (c =? x)%N
  | CRange lo hi => ((lo <=? c) && (c <=? hi))%N
  | CDigit => bool_decide (is_Some (decimal c))
  | CSpace => isspace c
  end.

Definition in_class (cl : list citem) (c : N) : bool :=
  existsb (fun i => in_item i c) cl.

(** Number of leading characters of [s] in the set, at most [limit]. *)
Fixpoint span (cl : list citem) (limit : option nat) (s : pystr) : nat :=
  match s with
  | [] => O
  | c :: t =>
    if in_class cl c
    then match limit with
         | None => S (span cl None t)
         | Some O => O
         | Some (S k) => S (span cl (Some k) t)
         end
    else O
  end.

(** A match: the text of the groups closed so far, and what is left of the
    subject. *)
Definition outcome : Type := list pystr * pystr.

Fixpoint run (r : regex) (s : pystr) : list outcome :=
  match r with
  | Lit l => if starts_with l s then [([], drop (length l) s)] else []
  | Chars cl =>
    match s with
    | c :: t => if in_class cl c then [([], t)] else []
    | [] => []
    end
  | Rep cl lo hi =>
    (* greedy: the longest run first, then one character less, ... *)
    map (fun k => ([], drop k s)) (rev (seq lo (S (span cl hi s) - lo)))
  | Seq r1 r2 =>
    flat_map (fun o1 => map (fun o2 => (o1.1 ++ o2.1, o2.2)) (run r2 o1.2)) (run r1 s)
  | Alt r1 r2 => run r1 s ++ run r2 s
  | Group r1 =>
    map (fun o => (take (length s - length o.2) s :: o.1, o.2)) (run r1 s)
  end.

(** [re.match]: the groups of the first match at the start of [s]. *)
Definition re_match (r : regex) (s : pystr) : option (list pystr) :=
  match run r s with
  | o :: _ => Some o.1
  | [] => None
  end.

(** [re.search]: the first position at which the pattern matches. *)
Fixpoint re_search (r : regex) (s : pystr) : option (list pystr) :=
  match re_match r s with
  | Some g => Some g
  | None =>
    match s with
    | [] => None
    | _ :: t => re_search r t
    end
  end.

(** Length of the first match at the start of [s]. *)
Definition match_length (r : regex) (s : pystr) : option nat :=
  match run r s with
  | o :: _ => Some (length s - length o.2)%nat
  | [] => None
  end.

(** [pattern.sub('', s)] for a pattern that matches no empty string: scan
    from the left, drop each match and resume after it.  [skip] counts the
    characters of the current match still to drop. *)
Fixpoint delete_matches (r : regex) (skip : nat) (s : pystr) : pystr :=
  match s with
  | [] => []
  | c :: t =>
    match skip with
    | S k => delete_matches r k t
    | O =>
      match match_length r s with
      | Some (S k) => delete_matches r k t
      | _ => c :: delete_matches r O t
      end
    end
  end.

(** [m.group(i)], groups numbered from 1. *)
Definition group (g : list pystr) (i : nat) : pystr := nth (pred i) g [].

End Matching.

(** ** The patterns of the script *)

Definition ESC : N := 27.

(** [\x1B(?:[@-Z\\-_]|\[[0-?]*[ -/]*[@-~])] *)
Definition ansi_escape : regex :=
  Seq (Chars [CChar ESC])
      (Alt (Chars [CRange 64 90; CRange 92 95])
           (Seq (Chars [CChar 91])
                (Seq (Rep [CRange 48 63] 0 None)
                     (Seq (Rep [CRange 32 47] 0 None)
                          (Chars [CRange 64 126]))))).

(** [[\d.]+] *)
Definition number_chars : regex := Rep [CDigit; CChar 46] 1 None.

(** [ms|µs|s] *)
Definition unit_alt : regex :=
  Alt (Lit (text "ms")) (Alt (Lit (text "µs")) (Lit (text "s"))).

(** [([\d.]+)(ms|µs|s)] *)
Definition duration_re : regex := Seq (Group number_chars) (Group unit_alt).

(** [key\s*=\s*] *)
Definition key_eq (key : string) (r : regex) : regex :=
  Seq (Lit (text key)) (Seq (Rep [CSpace] 0 None)
    (Seq (Lit (text "=")) (Seq (Rep [CSpace] 0 None) r))).

Definition digits1 : regex := Rep [CDigit] 1 None.

(** [number\s*=\s*(\d+)] *)
Definition number_re : regex := key_eq "number" (Group digits1).

(** [parent_number\s*=\s*(\d+)] *)
Definition parent_number_re : regex := key_eq "parent_number" (Group digits1).

(** [gas_used\s*=\s*([\d.]+)([KMG]?)gas] *)
Definition gas_used_re : regex :=
  key_eq "gas_used"
    (Seq (Group number_chars)
         (Seq (Group (Rep [CChar 75; CChar 77; CChar 71] 0 (Some 1%nat)))
              (Lit (text "gas")))).

(** [elapsed\s*=\s*([\d.]+(?:ms|µs|s))] *)
Definition elapsed_re : regex :=
  key_eq "elapsed" (Group (Seq number_chars unit_alt)).

Definition digitsN (n : nat) : regex := Rep [CDigit] n (Some n).

(** [(\d{4}-\d{2}-\d{2}T\d{2}:\d{2}:\d{2}\.\d+Z)] *)
Definition timestamp_re : regex :=
  Group
    (Seq (digitsN 4) (Seq (Lit (text "-")) (Seq (digitsN 2) (Seq (Lit (text "-"))
    (Seq (digitsN 2) (Seq (Lit (text "T")) (Seq (digitsN 2) (Seq (Lit (text ":"))
    (Seq (digitsN 2) (Seq (Lit (text ":")) (Seq (digitsN 2) (Seq (Lit (text "."))
    (Seq digits1 (Lit (text "Z"))))))))))))))).

(** ** Conversions *)

Section Conversions.
Context {RT : Runtime}.

Definition digit_values (s : pystr) : list N := omap decimal s.

Definition Z_of_digits (ds : list N) : Z :=
  fold_left (fun acc d => acc * 10 + Z.of_N d) ds 0.

(** [int(s)] on a run of digits, the only strings [(\d+)] captures.  Past
    640 digits the interpreter checks the length against its limit. *)
Definition py_int (s : pystr) : result Z :=
  if forallb (in_class [CDigit]) s && negb (Nat.eqb (length s) 0)
  then
    if (640 <? length s)%nat && (0 <? int_max_str_digits)%nat
       && (int_max_str_digits <? length s)%nat
    then Raise ValueError
    else Ok (Z_of_digits (digit_values s))
  else Raise ValueError.

Definition is_dot (c : N) : bool := (c =? 46)%N.

Fixpoint after_dot (s : pystr) : pystr :=
  match s with
  | [] => []
  | c :: t => if is_dot c then t else after_dot t
  end.

(** The strings made of digits and dots that [float] accepts: at most one
    dot and at least one digit. *)
Definition float_literal_ok (s : pystr) : bool :=
  forallb (in_class [CDigit; CChar 46]) s
  && (length (filter (fun c => is_dot c = true) s) <=? 1)%nat
  && (1 <=? length (digit_values s))%nat.

(** [float(s)] on a string of digits and dots, the only strings [([\d.]+)]
    captures: the correctly rounded value, or [ValueError]. *)
Definition py_float (s : pystr) : result float :=
  if float_literal_ok s
  then Ok (float_of_ratio (Z_of_digits (digit_values s))
                          (10 ^ Z.of_nat (length (digit_values (after_dot s)))))
  else Raise ValueError.

End Conversions.

(** ** The script *)

Section Script.
Context {RT : Runtime}.

Definition parse_time_to_ms (time_str : pystr) : result (option float) :=
  let time_str := strip time_str in
  match re_match duration_re time_str with
  | None => Ok None
  | Some m =>
    let value := group m 1 in
    let unit := group m 2 in
    try! value := py_float value in
    if str_eqb unit (text "ms") then Ok (Some value)
    else if str_eqb unit (text "µs") then Ok (Some (value / 1000)%float)
    else if str_eqb unit (text "s") then Ok (Some (value * 1000)%float)
    else Ok None
  end.

Definition strip_ansi_codes (text : pystr) : pystr :=
  delete_matches ansi_escape 0 text.

Definition parse_timestamp (line : pystr) : result (option datetime) :=
  let clean_line := strip_ansi_codes line in
  match re_match timestamp_re clean_line with
  | Some m =>
    try! t := fromisoformat (replace_char 90 (text "+00:00") (group m 1)) in
    Ok (Some t)
  | None => Ok None
  end.

(** *** find_block_range *)

Definition block_added_marker : pystr := text "Block added to canonical chain".

(** The body of the loop: one line, and the list of non-empty blocks so far. *)
Definition note_block (min_gas : float) (line : pystr) (non_empty_blocks : list Z)
  : result (list Z) :=
  let clean_line := strip_ansi_codes line in
  if contains block_added_marker clean_line then
    match re_search number_re clean_line, re_search gas_used_re clean_line with
    | Some num_match, Some gas_match =>
      try! block_num := py_int (group num_match 1) in
      try! gas_val := py_float (group gas_match 1) in
      let gas_unit := group gas_match 2 in
      let gas_used :=
        if str_eqb gas_unit (text "K") then (gas_val * 1000)%float
        else if str_eqb gas_unit (text "M") then (gas_val * 1000000)%float
        else if str_eqb gas_unit (text "G") then (gas_val * 1000000000)%float
        else gas_val in
      if (min_gas <? gas_used)%float
      then Ok (non_empty_blocks ++ [block_num])
      else Ok non_empty_blocks
    | _, _ => Ok non_empty_blocks
    end
  else Ok non_empty_blocks.

Fixpoint collect_blocks (min_gas : float) (log_file : list pystr)
    (non_empty_blocks : list Z) : result (list Z) :=
  match log_file with
  | [] => Ok non_empty_blocks
  | line :: rest =>
    try! non_empty_blocks := note_block min_gas line non_empty_blocks in
    collect_blocks min_gas rest non_empty_blocks
  end.

(** The three [return]s that close the function. *)
Definition block_range_of (non_empty_blocks : list Z) : option Z * option Z :=
  if (3 <=? length non_empty_blocks)%nat then
    (Some (default 0 (head non_empty_blocks) + 1),
     Some (default 0 (last non_empty_blocks) - 1))
  else if negb (Nat.eqb (length non_empty_blocks) 0) then
    (Some (default 0 (head non_empty_blocks)),
     Some (default 0 (last non_empty_blocks)))
  else (None, None).

(** The log file is the list of its lines. *)
Definition find_block_range_from (min_gas : float) (log_file : list pystr)
  : result (option Z * option Z) :=
  try! non_empty_blocks := collect_blocks min_gas log_file [] in
  Ok (block_range_of non_empty_blocks).

(** [min_gas=1000] *)
Definition find_block_range (log_file : list pystr) : result (option Z * option Z) :=
  find_block_range_from 1000%float log_file.

(** [main]: [block_range] stays [None] unless a first block was found. *)
Definition main_block_range (found : option Z * option Z) : option (Z * Z) :=
  match found with
  | (Some first_block, Some last_block) => Some (first_block, last_block)
  | _ => None
  end.

End Script.

(** Milliseconds for a value in [s], [ms] or [µs]: the [if]/[elif] chain
    that closes [parse_time_to_ms]. *)
Definition unit_scale (unit : pystr) (value : float) : float :=
  if str_eqb unit (text "ms") then value
  else if str_eqb unit (text "µs") then (value / 1000)%float
  else (value * 1000)%float.

(** *** parse_log_file *)

Section Extraction.
Context {RT : Runtime}.

(** The local variables of [parse_log_file]. *)
Record scan : Type := {
  build_times : list float;
  explicit_state_root_times : list float;
  block_added_times : list float;
  payload_to_received_times : list float;
  built_payload_times : gmap Z datetime
}.

Definition scan_start : scan :=
  {| build_times := []; explicit_state_root_times := [];
     block_added_times := []; payload_to_received_times := [];
     built_payload_times := ∅ |}.

(** [block_range is None or block_range[0] <= n <= block_range[1]] *)
Definition in_range (block_range : option (Z * Z)) (n : Z) : bool :=
  match block_range with
  | None => true
  | Some (first_block, last_block) => (first_block <=? n) && (n <=? last_block)
  end.

(** [(timestamp - start_time).total_seconds() * 1000] *)
Definition elapsed_ms_between (timestamp start_time : datetime) : float :=
  (float_of_ratio (timedelta_us timestamp start_time) 1000000 * 1000)%float.

Definition built_marker : pystr := text "Built payload".
Definition received_marker : pystr := text "Received block from consensus engine".
Definition state_root_marker : pystr := text "State root task finished".

(** The branch of a "Built payload" line. *)
Definition on_built_payload (block_range : option (Z * Z))
    (timestamp : option datetime) (clean_line : pystr) (st : scan) : result scan :=
  let parent_match := re_search parent_number_re clean_line in
  try! st :=
    match parent_match, timestamp with
    | Some pm, Some ts =>
      try! parent_number := py_int (group pm 1) in
      let block_number := parent_number + 1 in
      if negb (block_number =? 1)
      then Ok {| build_times := build_times st;
                 explicit_state_root_times := explicit_state_root_times st;
                 block_added_times := block_added_times st;
                 payload_to_received_times := payload_to_received_times st;
                 built_payload_times := <[block_number := ts]> (built_payload_times st) |}
      else Ok st
    | _, _ => Ok st
    end in
  match re_search elapsed_re clean_line, parent_match with
  | Some m, Some pm =>
    try! parent_number := py_int (group pm 1) in
    let block_number := parent_number + 1 in
    if in_range block_range block_number then
      try! time_ms := parse_time_to_ms (group m 1) in
      match time_ms with
      | Some t =>
        Ok {| build_times := build_times st ++ [t];
              explicit_state_root_times := explicit_state_root_times st;
              block_added_times := block_added_times st;
              payload_to_received_times := payload_to_received_times st;
              built_payload_times := built_payload_times st |}
      | None => Ok st
      end
    else Ok st
  | _, _ => Ok st
  end.

(** The branch of a "Received block from consensus engine" line. *)
Definition on_received_block (block_range : option (Z * Z))
    (timestamp : option datetime) (clean_line : pystr) (st : scan) : result scan :=
  match re_search number_re clean_line, timestamp with
  | Some number_match, Some ts =>
    try! block_number := py_int (group number_match 1) in
    if negb (block_number =? 1)
       && bool_decide (is_Some (built_payload_times st !! block_number))
       && in_range block_range block_number
    then
      match built_payload_times st !! block_number with
      | Some start_time =>
        let elapsed_ms := elapsed_ms_between ts start_time in
        Ok {| build_times := build_times st;
              explicit_state_root_times := explicit_state_root_times st;
              block_added_times := block_added_times st;
              payload_to_received_times := payload_to_received_times st ++ [elapsed_ms];
              built_payload_times := delete block_number (built_payload_times st) |}
      | None => Raise KeyError
      end
    else Ok st
  | _, _ => Ok st
  end.

(** The branch of a "State root task finished" line. *)
Definition on_state_root (clean_line : pystr) (st : scan) : result scan :=
  match re_search elapsed_re clean_line with
  | Some m =>
    try! time_ms := parse_time_to_ms (group m 1) in
    match time_ms with
    | Some t =>
      Ok {| build_times := build_times st;
            explicit_state_root_times := explicit_state_root_times st ++ [t];
            block_added_times := block_added_times st;
            payload_to_received_times := payload_to_received_times st;
            built_payload_times := built_payload_times st |}
    | None => Ok st
    end
  | None => Ok st
  end.

(** The branch of a "Block added to canonical chain" line. *)
Definition on_block_added (block_range : option (Z * Z))
    (clean_line : pystr) (st : scan) : result scan :=
  match re_search elapsed_re clean_line, re_search number_re clean_line with
  | Some m, Some number_match =>
    try! block_number := py_int (group number_match 1) in
    if in_range block_range block_number then
      try! time_ms := parse_time_to_ms (group m 1) in
      match time_ms with
      | Some t =>
        Ok {| build_times := build_times st;
              explicit_state_root_times := explicit_state_root_times st;
              block_added_times := block_added_times st ++ [t];
              payload_to_received_times := payload_to_received_times st;
              built_payload_times := built_payload_times st |}
      | None => Ok st
      end
    else Ok st
  | _, _ => Ok st
  end.

(** The body of the loop over the lines. *)
Definition process_line (block_range : option (Z * Z)) (line : pystr) (st : scan)
  : result scan :=
  try! timestamp := parse_timestamp line in
  let clean_line := strip_ansi_codes line in
  if contains built_marker clean_line then
    on_built_payload block_range timestamp clean_line st
  else if contains received_marker clean_line then
    on_received_block block_range timestamp clean_line st
  else if contains state_root_marker clean_line then
    on_state_root clean_line st
  else if contains block_added_marker clean_line then
    on_block_added block_range clean_line st
  else Ok st.

Fixpoint process_lines (block_range : option (Z * Z)) (log_file : list pystr)
    (st : scan) : result scan :=
  match log_file with
  | [] => Ok st
  | line :: rest =>
    try! st := process_line block_range line st in
    process_lines block_range rest st
  end.

(** Returns [(build_times, explicit_state_root_times,
    payload_to_received_times, block_added_times)]. *)
Definition parse_log_file (log_file : list pystr) (block_range : option (Z * Z))
  : result (list float * list float * list float * list float) :=
  try! st := process_lines block_range log_file scan_start in
  Ok (build_times st, explicit_state_root_times st,
      payload_to_received_times st, block_added_times st).

End Extraction.

(** *** Lines and their markers *)

Section Markers.
Context {RT : Runtime}.

(** 1 when the line, once its escape sequences are stripped, holds the
    marker, 0 otherwise. *)
Definition marked (marker line : pystr) : nat :=
  if contains marker (strip_ansi_codes line) then 1%nat else 0%nat.

(** Number of lines of the log that hold the marker. *)
Definition lines_with (marker : pystr) (log_file : list pystr) : nat :=
  length (filter (fun line => contains marker (strip_ansi_codes line) = true) log_file).

(** The line holds one of the four markers that [parse_log_file] tests. *)
Definition has_marker (line : pystr) : bool :=
  let clean_line := strip_ansi_codes line in
  contains built_marker clean_line || contains received_marker clean_line
  || contains state_root_marker clean_line || contains block_added_marker clean_line.

End Markers.

(** ** The [statistics] module of Python 3.11 and the built-ins [min], [max]

    The library works on the exact values of the floats and rounds once at
    the end; values without an exact ratio, [inf] and [nan], are summed as
    floats beside the others. *)

Definition sum_Z (l : list Z) : Z := fold_left Z.add l 0.

(** [min(data)] and [max(data)] keep the first of equal candidates. *)
Definition py_min (data : list float) : result float :=
  match data with
  | [] => Raise ValueError
  | x :: t => Ok (fold_left (fun m y => if (y <? m)%float then y else m) t x)
  end.

Definition py_max (data : list float) : result float :=
  match data with
  | [] => Raise ValueError
  | x :: t => Ok (fold_left (fun m y => if (m <? y)%float then y else m) t x)
  end.

Module statistics.

(** The float sum of the values without an exact ratio, in the order of the
    data: the partial sum that [_sum] and [_ss] keep under the key [None]. *)
Definition special_total (data : list float) : float :=
  fold_left (fun acc x => match exact_scaled x with
                          | None => (acc + x)%float
                          | Some _ => acc
                          end) data 0%float.

(** [mean(data)]: the exact sum divided by the count and rounded once, which
    cannot overflow since the quotient lies between the least and the
    greatest datum; with [inf] or [nan] among the data, their float sum
    divided by the count. *)
Definition mean (data : list float) : result float :=
  match data with
  | [] => Raise StatisticsError
  | _ =>
    let n := Z.of_nat (length data) in
    match mapM exact_scaled data with
    | Some exact => Ok (float_of_ratio (sum_Z exact) (n * 2 ^ 1074))
    | None => Ok (special_total data / float_of_ratio n 1)%float
    end
  end.

(** [median(data)]: the middle value of the sorted data, or the average of
    the two middle values of an even number of data. *)
Definition median {RT : Runtime} (data : list float) : result float :=
  let data := sorted data in
  let n := length data in
  if Nat.eqb n 0 then Raise StatisticsError
  else if Nat.eqb (n mod 2) 1 then Ok (nth (n / 2) data 0%float)
  else
    let i := (n / 2)%nat in
    Ok ((nth (i - 1) data 0%float + nth i data 0%float) / 2)%float.

Definition bit_length (n : Z) : Z := if n =? 0 then 0 else Z.log2 (Z.abs n) + 1.

(** Square root of [n/m] rounded to an integer, to odd when inexact. *)
Definition integer_sqrt_of_frac_rto (n m : Z) : Z :=
  let a := Z.sqrt (n / m) in
  Z.lor a (if a * a * m =? n then 0 else 1).

(** Square root of [n/m] as a float, correctly rounded; the division that
    converts to float raises when the root is too large. *)
Definition float_sqrt_of_frac (n m : Z) : result float :=
  let q := (bit_length n - bit_length m - (2 * 53 + 3)) / 2 in
  if 0 <=? q
  then true_divide (Z.shiftl (integer_sqrt_of_frac_rto n (Z.shiftl m (2 * q))) q) 1
  else true_divide (integer_sqrt_of_frac_rto (Z.shiftl n (- 2 * q)) m)
                   (Z.shiftl 1 (- q)).

(** The square root of the sample variance of [n] exact values, at least
    two: the sum of the squared deviations from the mean, which is
    [(n * sxx - sx * sx) / n], divided by [n - 1]; the values are in units
    of [2^-1074], and the fraction is reduced. *)
Definition sample_deviation (exact : list Z) : result float :=
  let n := Z.of_nat (length exact) in
  let sx := sum_Z exact in
  let sxx := sum_Z (map (fun v => v * v) exact) in
  let num := n * sxx - sx * sx in
  let den := n * (n - 1) * 2 ^ 2148 in
  let g := Z.gcd num den in
  float_sqrt_of_frac (num / g) (den / g).

(** [stdev(data)]: it needs two data; with [inf] or [nan] among them the
    sum of squares is a float, and asking for its numerator raises. *)
Definition stdev (data : list float) : result float :=
  if (length data <? 2)%nat then Raise StatisticsError
  else
    match mapM exact_scaled data with
    | Some exact => sample_deviation exact
    | None => Raise AttributeError
    end.

End statistics.

(** ** compute_statistics *)

(** The dictionary that [compute_statistics] returns, by key. *)
Record stats : Type := {
  count : nat;
  mean : float;
  median : float;
  min : float;
  max : float;
  std_dev : float
}.

Definition compute_statistics {RT : Runtime} (times : list float)
  : result (option stats) :=
  match times with
  | [] => Ok None
  | _ =>
    try! mean_ := statistics.mean times in
    try! median_ := statistics.median times in
    try! min_ := py_min times in
    try! max_ := py_max times in
    try! std_dev_ := if (1 <? length times)%nat then statistics.stdev times
                     else Ok 0%float in
    Ok (Some {| count := length times; mean := mean_; median := median_;
                min := min_; max := max_; std_dev := std_dev_ |})
  end.

(** ** The summary and the report *)

(** The dictionary that [build_summary] returns, by key; [metrics] in the
    order of its keys. *)
Record summary : Type := {
  summary_label : option pystr;
  summary_log_file : pystr;
  summary_block_range : option (Z * Z);
  summary_metrics : list (pystr * option stats)
}.

(** [log_file] is the string that [main] passes, [str(args.log)]; the
    metrics are computed in the order of the keys. *)
Definition build_summary {RT : Runtime} (log_file : pystr)
    (block_range : option (Z * Z))
    (build_times explicit_state_root_times payload_to_received_times
       block_added_times : list float)
    (label : option pystr) : result summary :=
  try! build := compute_statistics build_times in
  try! received := compute_statistics payload_to_received_times in
  try! explicit := compute_statistics explicit_state_root_times in
  try! added := compute_statistics block_added_times in
  Ok {| summary_label := label;
        summary_log_file := log_file;
        summary_block_range := block_range;
        summary_metrics :=
          [ (text "Build Payload Time", build);
            (text "State Root Computation", received);
            (text "Explicit State Root Task", explicit);
            (text "Block Added to Canonical Chain", added) ] |}.

(** The integers of a summary, in the order in which [json.dumps] meets
    them: the bounds of the block range, then the count of each metric
    that is present. *)
Definition summary_ints (s : summary) : list Z :=
  match summary_block_range s with
  | Some (first_block, last_block) => [first_block; last_block]
  | None => []
  end
  ++ omap (fun metric => (fun st => Z.of_nat (count st)) <$> metric.2)
          (summary_metrics s).

(** [metrics[name]] *)
Fixpoint getitem (metrics : list (pystr * option stats)) (name : pystr)
  : result (option stats) :=
  match metrics with
  | [] => Raise KeyError
  | (key, value) :: rest => if str_eqb key name then Ok value else getitem rest name
  end.

(** What the interpreter supplies to the report: paths, and the text of
    integers and floats in formatted strings. *)
Class Console : Type := {
  path : Type;
  (** [str(p)] *)
  str_path : path -> pystr;
  (** [p.parent] *)
  parent : path -> path;
  (** [f"{n}"] for an integer; it raises past the limit on digit strings *)
  str_int : Z -> result pystr;
  (** [f"{x:.3f}"] *)
  format_3f : float -> pystr
}.

Section Report.
Context {RT : Runtime} {CO : Console}.

(** What [main] does to the outside, in order: [print(line)],
    [directory.mkdir(parents=True, exist_ok=True)] and
    [file.write_text(text)], where [text] is [json.dumps(s, indent=2)].
    The file system is taken to accept both operations; what can raise
    between them is [json.dumps]. *)
Inductive effect : Type :=
| Printed (line : pystr)
| MadeDirs (directory : path)
| WroteJson (file : path) (s : summary).

(** A computation with its effects so far, and its result or exception. *)
Definition io (A : Type) : Type := list effect * result A.

Definition io_bind {A B : Type} (m : io A) (k : A -> io B) : io B :=
  match m with
  | (done, Ok a) => let (more, r) := k a in (done ++ more, r)
  | (done, Raise e) => (done, Raise e)
  end.

(** A computation without effects. *)
Definition lift {A : Type} (r : result A) : io A := ([], r).

Definition print (line : pystr) : io unit := ([Printed line], Ok tt).

(** [if not args.quiet: ...] *)
Definition unless (quiet : bool) (m : io unit) : io unit :=
  if quiet then ([], Ok tt) else m.

Notation "'do!' x := m 'in' k" := (io_bind m (fun x => k))
  (at level 10, x name, m at level 100, k at level 200).
Notation "m ;;; k" := (io_bind m (fun _ => k))
  (at level 100, k at level 200, right associativity).

Definition newline : pystr := [10%N].

Fixpoint write_ints (ns : list Z) : result unit :=
  match ns with
  | [] => Ok tt
  | n :: rest => try! _ := str_int n in write_ints rest
  end.

(** [json.dumps(s, indent=2)] writes the integers of the summary as [str]
    does, and raises when one of them cannot be written; strings, floats
    ([inf] and [nan] too) and [None] can always be written.  The text
    itself is not modelled. *)
Definition json_dumps (s : summary) : result unit := write_ints (summary_ints s).

(** A summary is a dictionary that is not empty, so [not stats] holds for
    [None] only. *)
Definition format_stats (name : pystr) (stats_ : option stats) : io unit :=
  match stats_ with
  | None => print (newline ++ name ++ text ": No data found")
  | Some s =>
    print (newline ++ name ++ text ":") ;;;
    do! n := lift (str_int (Z.of_nat (count s))) in
    print (text "  Count:   " ++ n) ;;;
    print (text "  Mean:    " ++ format_3f (mean s) ++ text " ms") ;;;
    print (text "  Median:  " ++ format_3f (median s) ++ text " ms") ;;;
    print (text "  Min:     " ++ format_3f (min s) ++ text " ms") ;;;
    print (text "  Max:     " ++ format_3f (max s) ++ text " ms") ;;;
    print (text "  Std Dev: " ++ format_3f (std_dev s) ++ text " ms")
  end.

(** The values of [parse_args()]. *)
Record args : Type := {
  log : path;
  json : option path;
  label : option pystr;
  quiet : bool
}.

(** ["=" * 60] *)
Definition rule : pystr := repeat 61%N 60.

(** [main]; [file] is the content of [args.log], [None] when it does not
    exist.  A formatted string is evaluated before it is printed, so a
    number that cannot be written raises with nothing printed for its
    line; in the same way the directory of the JSON file is created before
    [json.dumps] runs.  [find_block_range] returns both bounds or neither, which is why
    [block_range] can be read off [main_block_range]. *)
Definition main (a : args) (file : option (list pystr)) : io (option summary) :=
  let log_file := log a in
  match file with
  | None =>
    print (text "Error: " ++ str_path log_file ++ text " not found") ;;;
    lift (Ok None)
  | Some lines =>
    unless (quiet a) (print (text "Analyzing " ++ str_path log_file ++ text "...")) ;;;
    do! found := lift (find_block_range lines) in
    let block_range := main_block_range found in
    match block_range with
    | Some (first_block, last_block) =>
      unless (quiet a)
        (do! first_ := lift (str_int first_block) in
         do! last_ := lift (str_int last_block) in
         do! blocks := lift (str_int (last_block - first_block + 1)) in
         print (text "Analyzing blocks: " ++ first_ ++ text " to " ++ last_
                ++ text " (" ++ blocks ++ text " blocks)") ;;;
         print (text "(Excluding first/last non-empty blocks for ramp-up/down)"
                ++ newline))
    | None =>
      unless (quiet a)
        (print (text "No non-empty blocks found, analyzing all blocks..." ++ newline))
    end ;;;
    do! series := lift (parse_log_file lines block_range) in
    let '(build_times, explicit_state_root_times, payload_to_received_times,
          block_added_times) := series in
    do! summary_ := lift (build_summary (str_path log_file) block_range build_times
                            explicit_state_root_times payload_to_received_times
                            block_added_times (label a)) in
    unless (quiet a)
      (print (newline ++ rule) ;;;
       print (text "LOG ANALYSIS RESULTS") ;;;
       print rule ;;;
       do! m := lift (getitem (summary_metrics summary_) (text "Build Payload Time")) in
       format_stats (text "Build Payload Time") m ;;;
       do! m := lift (getitem (summary_metrics summary_) (text "State Root Computation")) in
       format_stats (text "State Root Computation") m ;;;
       do! m := lift (getitem (summary_metrics summary_) (text "Explicit State Root Task")) in
       format_stats (text "Explicit State Root Task") m ;;;
       do! m := lift (getitem (summary_metrics summary_)
                        (text "Block Added to Canonical Chain")) in
       format_stats (text "Block Added to Canonical Chain") m ;;;
       print (newline ++ rule)) ;;;
    match json a with
    | Some file_ =>
      ([MadeDirs (parent file_)], Ok tt) ;;;
      lift (json_dumps summary_) ;;;
      ([WroteJson file_ summary_], Ok tt)
    | None => ([], Ok tt)
    end ;;;
    lift (Ok (Some summary_))
  end.

(** [--quiet] added to the arguments. *)
Definition quietly (a : args) : args :=
  {| log := log a; json := json a; label := label a; quiet := true |}.

Definition is_print (e : effect) : bool :=
  match e with Printed _ => true | _ => false end.

(** A computation whose effects are all calls of [print]. *)
Definition prints_only {A : Type} (m : io A) : Prop :=
  Forall (fun e => is_print e = true) m.1.

(** A computation that prints, and then at most creates the directory and
    writes the summary it returns; it may raise once the directory is
    there. *)
Definition writes_last (a : args) (x : io (option summary)) : Prop :=
  exists prints, Forall (fun e => is_print e = true) prints
    /\ ((x.1 = prints /\ (json a = None \/ exists e, x.2 = Raise e))
        \/ (exists file s e, json a = Some file /\ json_dumps s = Raise e
              /\ x.2 = Raise e /\ x.1 = prints ++ [MadeDirs (parent file)])
        \/ (exists file s, json a = Some file /\ x.2 = Ok (Some s)
              /\ json_dumps s = Ok tt
              /\ x.1 = prints ++ [MadeDirs (parent file); WroteJson file s])).

End Report.

(** ** A reference interpreter

    An instance of [Runtime] on which the script can be run: its only
    decimal digits are the ASCII ones, an instant is its number of
    microseconds since 0001-01-01T00:00:00, [fromisoformat] reads the
    strings the script hands it, [YYYY-MM-DDTHH:MM:SS.f+00:00], keeping six
    digits of the fraction, and [int] converts up to 4300 digits. *)

Definition ascii_digit (c : N) : option Z :=
  if ((48 <=? c) && (c <=? 57))%N then Some (Z.of_N c - 48) else None.

Fixpoint ascii_number (s : pystr) (acc : Z) : option Z :=
  match s with
  | [] => Some acc
  | c :: t =>
    match ascii_digit c with
    | Some d => ascii_number t (acc * 10 + d)
    | None => None
    end
  end.

Definition field (s : pystr) (from len : nat) : option Z :=
  let f := take len (drop from s) in
  if Nat.eqb (length f) len then ascii_number f 0 else None.

Definition is_leap (y : Z) : bool :=
  (y mod 4 =? 0) && (negb (y mod 100 =? 0) || (y mod 400 =? 0)).

Definition days_in_month (y m : Z) : Z :=
  if m =? 2 then (if is_leap y then 29 else 28)
  else if (m =? 4) || (m =? 6) || (m =? 9) || (m =? 11) then 30 else 31.

Definition days_before_year (y : Z) : Z :=
  let p := y - 1 in p * 365 + p / 4 - p / 100 + p / 400.

Definition days_before_month (y m : Z) : Z :=
  sum_Z (map (days_in_month y) (map Z.of_nat (seq 1 (Z.to_nat (m - 1))))).

Definition reference_fromisoformat (s : pystr) : result Z :=
  let frac := take (length s - 26) (drop 20 s) in
  match field s 0 4, field s 5 2, field s 8 2, field s 11 2, field s 14 2,
        field s 17 2, ascii_number (take 6 frac) 0, ascii_number (drop 6 frac) 0 with
  | Some y, Some mo, Some d, Some h, Some mi, Some sec, Some f, Some _ =>
    if str_eqb (take 1 (drop 4 s)) (text "-") && str_eqb (take 1 (drop 7 s)) (text "-")
       && str_eqb (take 1 (drop 10 s)) (text "T") && str_eqb (take 1 (drop 13 s)) (text ":")
       && str_eqb (take 1 (drop 16 s)) (text ":") && str_eqb (take 1 (drop 19 s)) (text ".")
       && str_eqb (drop (20 + length frac) s) (text "+00:00")
       && (1 <=? length frac)%nat
       && (1 <=? y) && (1 <=? mo) && (mo <=? 12) && (1 <=? d) && (d <=? days_in_month y mo)
       && (h <=? 23) && (mi <=? 59) && (sec <=? 59)
    then
      let days := days_before_year y + days_before_month y mo + (d - 1) in
      let us := f * 10 ^ (6 - Z.of_nat (length (take 6 frac))) in
      Ok ((((days * 24 + h) * 60 + mi) * 60 + sec) * 1000000 + us)
    else Raise ValueError
  | _, _, _, _, _, _, _, _ => Raise ValueError
  end.

Definition ascii_only_not_space (c d : N) (H : @None N = Some d) : isspace c = false :=
  match H in _ = o return match o with Some _ => isspace c = false | None => True end with
  | eq_refl => I
  end.

Definition insert_sorted_perm (x : float) (l : list float) :
  Permutation (insert_sorted x l) (x :: l).
Proof.
  induction l as [|y t IH]; cbn; [reflexivity|].
  destruct (x <? y)%float; [reflexivity|].
  rewrite IH. apply Permutation_swap.
Qed.

Definition stable_sort_perm (data : list float) : Permutation (stable_sort data) data.
Proof.
  unfold stable_sort.
  assert (H : forall acc,
            Permutation (fold_left (fun acc x => insert_sorted x acc) data acc)
                        (data ++ acc)).
  { induction data as [|x t IH]; intros acc; cbn; [reflexivity|].
    rewrite IH, insert_sorted_perm. symmetry. apply Permutation_middle. }
  rewrite H, app_nil_r. reflexivity.
Qed.

#[export] Instance reference_runtime : Runtime := {|
  unicode_decimal := fun _ => None;
  unicode_decimal_not_space := ascii_only_not_space;
  datetime := Z;
  fromisoformat := reference_fromisoformat;
  timedelta_us := fun a b => a - b;
  int_max_str_digits := 4300;
  sorted := stable_sort;
  sorted_perm := stable_sort_perm;
  sorted_stable := fun _ _ => eq_refl
|}.

(** *** The reference console *)

Fixpoint uint_chars (u : Decimal.uint) : pystr :=
  match u with
  | Decimal.Nil => []
  | Decimal.D0 u => 48%N :: uint_chars u
  | Decimal.D1 u => 49%N :: uint_chars u
  | Decimal.D2 u => 50%N :: uint_chars u
  | Decimal.D3 u => 51%N :: uint_chars u
  | Decimal.D4 u => 52%N :: uint_chars u
  | Decimal.D5 u => 53%N :: uint_chars u
  | Decimal.D6 u => 54%N :: uint_chars u
  | Decimal.D7 u => 55%N :: uint_chars u
  | Decimal.D8 u => 56%N :: uint_chars u
  | Decimal.D9 u => 57%N :: uint_chars u
  end.

(** The decimal digits of a natural number. *)
Definition digits_of (n : Z) : pystr := uint_chars (N.to_uint (Z.to_N n)).

(** [str(n)]: refused past 4300 digits. *)
Definition reference_str_int (n : Z) : result pystr :=
  let ds := digits_of (Z.abs n) in
  if (4300 <? length ds)%nat then Raise ValueError
  else Ok ((if n <? 0 then [45%N] else []) ++ ds).

(** [n / d] rounded to the nearest integer, to even on a tie. *)
Definition round_half_even (n d : Z) : Z :=
  let q := n / d in
  let r := n mod d in
  if 2 * r <? d then q
  else if d <? 2 * r then q + 1
  else if Z.even q then q else q + 1.

Definition pad3 (s : pystr) : pystr := repeat 48%N (3 - length s) ++ s.

(** [format(x, '.3f')]: the exact value of the float, rounded to three
    decimals. *)
Definition reference_format_3f (x : float) : pystr :=
  let sign (s : bool) : pystr := if s then [45%N] else [] in
  match Prim2SF x with
  | S754_nan => text "nan"
  | S754_infinity s => sign s ++ text "inf"
  | S754_zero s => sign s ++ text "0.000"
  | S754_finite s m e =>
    let thousandths :=
      if 0 <=? e then Zpos m * 2 ^ e * 1000
      else round_half_even (Zpos m * 1000) (2 ^ (- e)) in
    sign s ++ digits_of (thousandths / 1000) ++ [46%N]
    ++ pad3 (digits_of (thousandths mod 1000))
  end.

Fixpoint drop_last_component (s : pystr) : option pystr :=
  match s with
  | [] => None
  | c :: t =>
    match drop_last_component t with
    | Some d => Some (c :: d)
    | None => if (c =? 47)%N then Some [] else None
    end
  end.

(** Paths are relative, written with single slashes; the parent of a bare
    name is ".". *)
Definition reference_parent (p : pystr) : pystr :=
  match drop_last_component p with
  | Some d => d
  | None => [46%N]
  end.

#[export] Instance reference_console : Console := {|
  path := pystr;
  str_path := fun p => p;
  parent := reference_parent;
  str_int := reference_str_int;
  format_3f := reference_format_3f
|}.

(** ** Sample logs *)

Definition steady_log : list pystr :=
  [ text "2025-09-29T22:22:37.100000Z Block added to canonical chain number=10 gas_used=21.5Kgas elapsed=1.5ms";
    text "2025-09-29T22:22:38.100000Z Block added to canonical chain number=11 gas_used=1.2Mgas elapsed=2.5ms";
    text "2025-09-29T22:22:39.100000Z Block added to canonical chain number=12 gas_used=30000gas elapsed=2ms";
    text "2025-09-29T22:22:40.100000Z Block added to canonical chain number=13 gas_used=2Ggas elapsed=750µs" ].

Definition block_one_line : pystr :=
  text "2025-09-29T22:22:37.100000Z Built payload parent_number=0 elapsed=12.5ms".

Definition coloured : pystr :=
  ESC :: text "[32m INFO" ++ ESC :: text "[0m Built payload".

Definition mixed_log : list pystr :=
  [ text "2025-09-29T22:22:37.100000Z State root task finished elapsed=5ms";
    text "2025-09-29T22:22:37.200000Z Block added to canonical chain number=3 gas_used=2Kgas elapsed=1ms";
    text "State root task finished elapsed=250µs" ].

(** A block outside the range (10, 20) whose elapsed token is not a
    number. *)
Definition skewed_log : list pystr :=
  [ text "State root task finished elapsed=5ms";
    text "Block added to canonical chain number=5 gas_used=2Kgas elapsed=1.2.3ms" ].

Definition repeated_log : list pystr :=
  [ text "Block added to canonical chain number=7 gas_used=21.5Kgas elapsed=1ms";
    text "Block added to canonical chain number=7 gas_used=21.5Kgas elapsed=1ms";
    text "Block added to canonical chain number=7 gas_used=21.5Kgas elapsed=1ms" ].

(** A state of the second pass in which block 6 awaits its receipt. *)
Definition pending_six : @scan reference_runtime :=
  {| build_times := [12.5%float]; explicit_state_root_times := [];
     block_added_times := []; payload_to_received_times := [];
     built_payload_times := {[ 6 := 63894781357100000 ]} |}.

(** A short session: a payload built, an unrelated line, the payload
    received, a state root task, and the block added. *)
Definition session_log : list pystr :=
  [ text "2025-09-29T22:22:37.100000Z Built payload{parent_number=5} elapsed=12.5ms";
    text "2025-09-29T22:22:37.150000Z Forkchoice updated";
    text "2025-09-29T22:22:37.200000Z Received block from consensus engine number=6";
    text "2025-09-29T22:22:37.250000Z State root task finished elapsed=5ms";
    text "2025-09-29T22:22:37.300000Z Block added to canonical chain number=6 gas_used=21.5Kgas elapsed=1ms" ].

(** The statistics of a single datum. *)
Definition one_datum (x : float) : option stats :=
  Some {| count := 1; mean := x; median := x; min := x; max := x; std_dev := 0 |}.

(** The summary of the session. *)
Definition session_summary : summary :=
  {| summary_label := None;
     summary_log_file := text "debug.log";
     summary_block_range := Some (6, 6);
     summary_metrics :=
       [ (text "Build Payload Time", one_datum 12.5);
         (text "State Root Computation", one_datum 100);
         (text "Explicit State Root Task", one_datum 5);
         (text "Block Added to Canonical Chain", one_datum 1) ] |}.

Definition loud_args : @args reference_console :=
  {| log := text "debug.log"; json := Some (text "out/summary.json");
     label := None; quiet := false |}.

(** ** Proof tools *)

(** Case analysis on the next test of a computation that returned [Ok]. *)
Ltac split_run :=
  repeat (cbn [bind] in *;
          match goal with
          | H : Raise _ = Ok _ |- _ => discriminate H
          | H : Ok _ = Ok _ |- _ => injection H as H; try subst
          | H : context [bind ?m _] |- _ => destruct m eqn:?
          | H : context [match ?x with _ => _ end] |- _ => destruct x eqn:?
          end).

(** The projections of a state written as a record. *)
Ltac fields :=
  cbn [build_times explicit_state_root_times block_added_times
       payload_to_received_times built_payload_times length app Nat.add] in *.

(** Closing steps of the case analyses on the loop body. *)
Ltac grow_done :=
  eexists _, _, _, _; cbn;
  repeat (split; [first [reflexivity | symmetry; apply app_nil_r]|]); cbn; lia.

Ltac same_done :=
  eexists; split; [reflexivity|]; eexists _, _, _; cbn;
  repeat split; first [reflexivity | symmetry; apply app_nil_r].

Ltac range_inv :=
  let k := fresh "k" in let Hk := fresh "Hk" in
  intros k Hk; fields;
  try match goal with
      | |- <[?n := _]> _ !! _ = <[?n := _]> _ !! _ =>
        destruct (decide (n = k)) as [->|];
        [rewrite !lookup_insert_eq|rewrite !lookup_insert_ne by assumption]
      end;
  auto.

Ltac range_done :=
  eexists; split; [reflexivity|]; split; [range_inv|];
  eexists _, _, _, _, _, _; fields;
  repeat (split; [first [reflexivity | symmetry; apply app_nil_r]|]);
  repeat split; first [reflexivity | apply sublist_nil_l].

(** * Properties *)

(** ** Facts about text and matching *)

Lemma isspace_printable (c : N) : (33 <= c <= 132)%N -> isspace c = false.
Proof.
  intros Hc. unfold isspace.
  assert ((c <=? 13) = false)%N as -> by (apply N.leb_gt; lia).
  assert ((c <=? 32) = false)%N as -> by (apply N.leb_gt; lia).
  assert ((c =? 133) = false)%N as -> by (apply N.eqb_neq; lia).
  assert ((c =? 160) = false)%N as -> by (apply N.eqb_neq; lia).
  assert ((c =? 5760) = false)%N as -> by (apply N.eqb_neq; lia).
  assert ((8192 <=? c) = false)%N as -> by (apply N.leb_gt; lia).
  assert ((c =? 8232) = false)%N as -> by (apply N.eqb_neq; lia).
  assert ((c =? 8233) = false)%N as -> by (apply N.eqb_neq; lia).
  assert ((c =? 8239) = false)%N as -> by (apply N.eqb_neq; lia).
  assert ((c =? 8287) = false)%N as -> by (apply N.eqb_neq; lia).
  assert ((c =? 12288) = false)%N as -> by (apply N.eqb_neq; lia).
  rewrite !andb_false_r. reflexivity.
Qed.

Lemma lstrip_keeps (c : N) (t : pystr) : isspace c = false -> lstrip (c :: t) = c :: t.
Proof. intros H. cbn. rewrite H. reflexivity. Qed.

Lemma strip_keeps (c z : N) (mid : pystr) :
  isspace c = false -> isspace z = false ->
  strip (c :: mid ++ [z]) = c :: mid ++ [z].
Proof.
  intros Hc Hz. unfold strip. rewrite lstrip_keeps by exact Hc.
  change (c :: mid ++ [z]) with ((c :: mid) ++ [z]).
  rewrite rev_app_distr. cbn [rev app]. rewrite lstrip_keeps by exact Hz.
  change (z :: rev mid ++ [c]) with ([z] ++ (rev mid ++ [c])).
  rewrite rev_app_distr, rev_app_distr, rev_involutive. reflexivity.
Qed.

Section MatchingFacts.
Context {RT : Runtime}.

Lemma decimal_not_space (c d : N) : decimal c = Some d -> isspace c = false.
Proof.
  unfold decimal. destruct (c <? 256)%N eqn:Hlow.
  - destruct ((48 <=? c) && (c <=? 57))%N eqn:Hd; [|discriminate].
    intros _. apply andb_prop in Hd as [H1 H2].
    apply N.leb_le in H1. apply N.leb_le in H2.
    apply isspace_printable. lia.
  - apply unicode_decimal_not_space.
Qed.

Lemma number_char_not_space (c : N) :
  in_class [CDigit; CChar 46] c = true -> isspace c = false.
Proof.
  cbn. rewrite orb_false_r. intros H. apply orb_prop in H as [H|H].
  - apply bool_decide_eq_true in H as [d Hd]. eapply decimal_not_space; eauto.
  - apply N.eqb_eq in H as ->. reflexivity.
Qed.

(** A run of characters of the set, followed by one outside it, is taken whole. *)
Lemma span_run (cl : list citem) (run_ rest : pystr) :
  Forall (fun c => in_class cl c = true) run_ ->
  match rest with [] => True | c :: _ => in_class cl c = false end ->
  span cl None (run_ ++ rest) = length run_.
Proof.
  intros Hrun Hrest. induction Hrun as [|c t Hc _ IH]; cbn.
  - destruct rest as [|c t]; [reflexivity|]. cbn. rewrite Hrest. reflexivity.
  - rewrite Hc, IH. reflexivity.
Qed.

(** The first way [cl+] (more generally [cl{lo,}]) matches is the whole run. *)
Lemma run_rep_greedy (cl : list citem) (lo : nat) (run_ rest : pystr) :
  Forall (fun c => in_class cl c = true) run_ ->
  match rest with [] => True | c :: _ => in_class cl c = false end ->
  (lo <= length run_)%nat ->
  exists more, run (Rep cl lo None) (run_ ++ rest) = ([], rest) :: more.
Proof.
  intros Hrun Hrest Hlo. cbn [run]. rewrite span_run by assumption.
  replace (S (length run_) - lo)%nat with (S (length run_ - lo)) by lia.
  rewrite seq_S, rev_app_distr. cbn [rev app map].
  replace (lo + (length run_ - lo))%nat with (length run_) by lia.
  rewrite drop_app_length. eexists. reflexivity.
Qed.

Lemma run_group_first (r : regex) (s : pystr) (o : outcome) (more : list outcome) :
  run r s = o :: more ->
  exists more', run (Group r) s = (take (length s - length o.2) s :: o.1, o.2) :: more'.
Proof. intros H. cbn [run]. rewrite H. cbn [map]. eexists. reflexivity. Qed.

Lemma re_match_seq (r1 r2 : regex) (s : pystr) (o1 o2 : outcome) (m1 m2 : list outcome) :
  run r1 s = o1 :: m1 -> run r2 o1.2 = o2 :: m2 ->
  re_match (Seq r1 r2) s = Some (o1.1 ++ o2.1).
Proof.
  intros H1 H2. unfold re_match. cbn [run]. rewrite H1. cbn [flat_map].
  rewrite H2. reflexivity.
Qed.

Lemma py_float_chars (s : pystr) (v : float) :
  py_float s = Ok v ->
  Forall (fun c => in_class [CDigit; CChar 46] c = true) s /\ s <> [].
Proof.
  unfold py_float. destruct (float_literal_ok s) eqn:Hok; [|discriminate].
  intros _. unfold float_literal_ok in Hok.
  apply andb_prop in Hok as [Hok Hdigits]. apply andb_prop in Hok as [Hall _].
  split.
  - apply Stdlib.Lists.List.Forall_forall. intros c Hc.
    rewrite forallb_forall in Hall. auto.
  - intros ->. discriminate.
Qed.

(** The duration pattern on a number followed by a unit. *)
Lemma duration_re_number_unit (num unit : pystr) :
  Forall (fun c => in_class [CDigit; CChar 46] c = true) num -> num <> [] ->
  unit = text "s" \/ unit = text "ms" \/ unit = text "µs" ->
  re_match duration_re (num ++ unit) = Some [num; unit].
Proof.
  intros Hnum Hne Hunit.
  assert (Hrest : match unit with [] => True
                  | c :: _ => in_class [CDigit; CChar 46] c = false end).
  { destruct Hunit as [->|[->| ->]]; vm_compute; reflexivity. }
  assert (Hlo : (1 <= length num)%nat) by (destruct num; [congruence|cbn; lia]).
  destruct (run_rep_greedy _ 1 num unit Hnum Hrest Hlo) as [more Hrep].
  destruct (run_group_first _ _ _ _ Hrep) as [more' Hgrp].
  assert (Hu : exists more2, run (Group unit_alt) unit = ([unit], []) :: more2).
  { destruct Hunit as [->|[->| ->]]; eexists; vm_compute; reflexivity. }
  destruct Hu as [more2 Hu].
  unfold duration_re. fold number_chars in Hgrp.
  rewrite (re_match_seq _ _ _ _ _ _ _ Hgrp Hu). cbn [fst snd app].
  rewrite length_app. replace (length num + length unit - length unit)%nat
    with (length num) by lia.
  rewrite take_app_length. reflexivity.
Qed.

End MatchingFacts.

Section GroupFacts.
Context {RT : Runtime}.

Lemma re_search_found (r : regex) (s : pystr) (g : list pystr) :
  re_search r s = Some g -> exists s' o, In o (run r s') /\ o.1 = g.
Proof.
  induction s as [|c t IH]; cbn [re_search]; unfold re_match.
  - destruct (run r []) as [|o more] eqn:E; [discriminate|].
    intros [= <-]. exists [], o. rewrite E. split; [left|]; reflexivity.
  - destruct (run r (c :: t)) as [|o more] eqn:E; [exact IH|].
    intros [= <-]. exists (c :: t), o. rewrite E. split; [left|]; reflexivity.
Qed.

Lemma in_run_seq (r1 r2 : regex) (s : pystr) (o : outcome) :
  In o (run (Seq r1 r2) s) ->
  exists o1 o2, In o1 (run r1 s) /\ In o2 (run r2 o1.2) /\ o = (o1.1 ++ o2.1, o2.2).
Proof.
  cbn [run]. rewrite in_flat_map. intros (o1 & H1 & H).
  apply in_map_iff in H as (o2 & <- & H2). eauto.
Qed.

Lemma in_run_lit (l s : pystr) (o : outcome) : In o (run (Lit l) s) -> o.1 = [].
Proof.
  cbn [run]. destruct (starts_with l s); [|intros []].
  intros [<-|[]]. reflexivity.
Qed.

Lemma in_run_rep (cl : list citem) (lo : nat) (hi : option nat) (s : pystr) (o : outcome) :
  In o (run (Rep cl lo hi) s) ->
  exists k, (lo <= k <= span cl hi s)%nat /\ o = ([], drop k s).
Proof.
  cbn [run]. rewrite in_map_iff. intros (k & <- & Hk).
  apply in_rev, in_seq in Hk. exists k. split; [lia|reflexivity].
Qed.

Lemma in_run_group (r : regex) (s : pystr) (o : outcome) :
  In o (run (Group r) s) ->
  exists o', In o' (run r s) /\ o = (take (length s - length o'.2) s :: o'.1, o'.2).
Proof.
  cbn [run]. rewrite in_map_iff. intros (o' & <- & H). eauto.
Qed.

Lemma in_run_key_eq (key : string) (r : regex) (s : pystr) (o : outcome) :
  In o (run (key_eq key r) s) -> exists s' o', In o' (run r s') /\ o.1 = o'.1.
Proof.
  unfold key_eq. intros H.
  apply in_run_seq in H as (a & o1 & Ha & H & ->). apply in_run_lit in Ha.
  apply in_run_seq in H as (b & o2 & Hb & H & ->).
  apply in_run_rep in Hb as (kb & _ & ->).
  apply in_run_seq in H as (c & o3 & Hc & H & ->). apply in_run_lit in Hc.
  apply in_run_seq in H as (d & o4 & Hd & H & ->).
  apply in_run_rep in Hd as (kd & _ & ->).
  cbn [fst snd] in *. rewrite Ha, Hc. cbn [app]. eauto.
Qed.

Lemma span_at_most (cl : list citem) (n : nat) (s : pystr) :
  (span cl (Some n) s <= n)%nat.
Proof.
  revert s. induction n as [|n IH]; intros [|c t]; cbn; try lia.
  - destruct (in_class cl c); lia.
  - destruct (in_class cl c); [|lia]. specialize (IH t). lia.
Qed.

Lemma span_within (cl : list citem) (hi : option nat) (s : pystr) :
  (span cl hi s <= length s)%nat.
Proof.
  revert hi. induction s as [|c t IH]; intros hi; cbn; [lia|].
  destruct (in_class cl c); [|lia].
  destruct hi as [[|k]|]; [lia| |]; (etrans; [apply le_n_S, IH|lia]).
Qed.

(** The groups of the gas pattern: the number, and a suffix that is empty
    or one of K, M, G. *)
Lemma gas_used_groups (s : pystr) (g : list pystr) :
  re_search gas_used_re s = Some g ->
  exists number suffix, g = [number; suffix]
    /\ (suffix = [] \/ suffix = text "K" \/ suffix = text "M" \/ suffix = text "G").
Proof.
  intros H. apply re_search_found in H as (s' & o & H & <-).
  unfold gas_used_re in H. apply in_run_key_eq in H as (s1 & o1 & H & ->).
  apply in_run_seq in H as (a & o2 & Ha & H & ->).
  apply in_run_group in Ha as (a' & Ha & ->).
  apply in_run_rep in Ha as (ka & _ & ->).
  apply in_run_seq in H as (b & o3 & Hb & H & ->).
  apply in_run_group in Hb as (b' & Hb & ->).
  apply in_run_rep in Hb as (kb & Hkb & ->).
  apply in_run_lit in H. cbn [fst snd] in *. rewrite H. cbn [app].
  eexists _, _. split; [reflexivity|].
  set (rest := drop ka s1) in *.
  pose proof (span_at_most [CChar 75; CChar 77; CChar 71] 1 rest) as Hone.
  pose proof (span_within [CChar 75; CChar 77; CChar 71] (Some 1%nat) rest) as Hlen.
  rewrite length_drop.
  replace (length rest - (length rest - kb))%nat with kb by lia.
  destruct kb as [|[|kb]]; [left; reflexivity| |lia].
  right. destruct rest as [|c t]; [cbn in Hkb; lia|].
  cbn in Hkb |- *.
  destruct (c =? 75)%N eqn:E1; [apply N.eqb_eq in E1 as ->; tauto|].
  destruct (c =? 77)%N eqn:E2; [apply N.eqb_eq in E2 as ->; tauto|].
  destruct (c =? 71)%N eqn:E3; [apply N.eqb_eq in E3 as ->; tauto|].
  cbn in Hkb. lia.
Qed.

Lemma span_take (cl : list citem) (s : pystr) : forall (hi : option nat) (k : nat),
  (k <= span cl hi s)%nat ->
  Forall (fun c => in_class cl c = true) (take k s) /\ (k <= length s)%nat.
Proof.
  induction s as [|c t IH]; intros hi k Hk.
  - cbn in Hk. assert (k = 0%nat) as -> by lia. split; [constructor|cbn; lia].
  - destruct k as [|k]; [split; [constructor|cbn; lia]|].
    cbn in Hk. destruct (in_class cl c) eqn:Hc; [|lia].
    destruct hi as [[|n]|]; [lia| |].
    + destruct (IH (Some n) k) as [Hall Hlen]; [lia|].
      split; [constructor; assumption|cbn; lia].
    + destruct (IH None k) as [Hall Hlen]; [lia|].
      split; [constructor; assumption|cbn; lia].
Qed.

(** [int] converts a run of at most 640 digits. *)
Lemma py_int_digits (ds : pystr) :
  Forall (fun c => in_class [CDigit] c = true) ds -> ds <> [] ->
  (length ds <= 640)%nat ->
  py_int ds = Ok (Z_of_digits (digit_values ds)).
Proof.
  intros Hall Hne Hlen. unfold py_int.
  assert (forallb (in_class [CDigit]) ds = true) as ->.
  { apply forallb_forall. intros c Hc.
    rewrite Stdlib.Lists.List.Forall_forall in Hall. auto. }
  assert ((640 <? length ds)%nat = false) as -> by (apply Nat.ltb_ge; exact Hlen).
  destruct ds; [congruence|reflexivity].
Qed.

(** What [key\s*=\s*(\d+)] captures is one run of digits. *)
Lemma digits_group_is_int (key : string) (s : pystr) (g : list pystr) :
  re_search (key_eq key (Group digits1)) s = Some g ->
  exists ds, g = [ds]
    /\ ((length ds <= 640)%nat -> py_int ds = Ok (Z_of_digits (digit_values ds))).
Proof.
  intros H. apply re_search_found in H as (s' & o & H & <-).
  apply in_run_key_eq in H as (s1 & o1 & H & ->).
  apply in_run_group in H as (o2 & H & ->).
  apply in_run_rep in H as (k & [Hlo Hhi] & ->). cbn [fst snd].
  destruct (span_take _ _ _ _ Hhi) as [Hall Hlen].
  rewrite length_drop.
  replace (length s1 - (length s1 - k))%nat with k by lia.
  eexists. split; [reflexivity|].
  intros Hshort. apply py_int_digits; [exact Hall| |exact Hshort].
  intros E. apply (f_equal length) in E. rewrite length_take in E. cbn in E. lia.
Qed.

Lemma run_rest_le (r : regex) : forall (s : pystr) (o : outcome),
  In o (run r s) -> (length o.2 <= length s)%nat.
Proof.
  induction r as [l|cl|cl lo hi|r1 IH1 r2 IH2|r1 IH1 r2 IH2|r IH]; intros s o H.
  - cbn [run] in H. destruct (starts_with l s); [|destruct H].
    destruct H as [<-|[]]. cbn. rewrite length_drop. lia.
  - cbn [run] in H. destruct s as [|c t]; [destruct H|].
    destruct (in_class cl c); [|destruct H]. destruct H as [<-|[]]. cbn. lia.
  - apply in_run_rep in H as (k & _ & ->). cbn. rewrite length_drop. lia.
  - apply in_run_seq in H as (o1 & o2 & H1 & H2 & ->). cbn.
    apply IH1 in H1. apply IH2 in H2. lia.
  - cbn [run] in H. apply in_app_or in H as [H|H]; auto.
  - apply in_run_group in H as (o' & H & ->). cbn. auto.
Qed.


Lemma Z_of_digits_nonneg (ds : list N) : 0 <= Z_of_digits ds.
Proof.
  unfold Z_of_digits.
  assert (H : forall acc, 0 <= acc ->
            0 <= fold_left (fun acc d => acc * 10 + Z.of_N d) ds acc).
  { induction ds as [|d t IH]; intros acc Hacc; cbn; [exact Hacc|].
    apply IH. lia. }
  apply H. lia.
Qed.

(** [int] of a run of digits is not negative. *)
Lemma py_int_nonneg (s : pystr) (n : Z) : py_int s = Ok n -> 0 <= n.
Proof.
  unfold py_int. intros H. split_run. apply Z_of_digits_nonneg.
Qed.

Lemma starts_with_app (p s : pystr) :
  starts_with p s = true -> s = p ++ drop (length p) s.
Proof.
  revert s. induction p as [|c p IH]; intros s H; [reflexivity|].
  destruct s as [|d t]; [discriminate|]. cbn in H.
  apply andb_prop in H as [Hc Ht]. apply N.eqb_eq in Hc as ->.
  cbn. f_equal. apply IH. exact Ht.
Qed.

Lemma in_run_unit_alt (s : pystr) (o : outcome) :
  In o (run unit_alt s) ->
  exists unit, (unit = text "s" \/ unit = text "ms" \/ unit = text "µs")
    /\ s = unit ++ o.2 /\ o.1 = [].
Proof.
  unfold unit_alt. cbn [run]. intros H.
  assert (Hlit : forall u, In o (if starts_with u s then [([], drop (length u) s)] else []) ->
                  s = u ++ o.2 /\ o.1 = []).
  { intros u Hu. destruct (starts_with u s) eqn:E; [|destruct Hu].
    destruct Hu as [<-|[]]. split; [apply starts_with_app; exact E|reflexivity]. }
  apply in_app_or in H as [H|H]; [|apply in_app_or in H as [H|H]];
    apply Hlit in H as [H1 H2]; eexists; (split; [|split; [exact H1|exact H2]]); tauto.
Qed.

(** What the elapsed pattern captures: a run of digits and dots, and a unit. *)
Lemma elapsed_group (s : pystr) (g : list pystr) :
  re_search elapsed_re s = Some g ->
  exists num unit, g = [num ++ unit]
    /\ Forall (fun c => in_class [CDigit; CChar 46] c = true) num /\ num <> []
    /\ (unit = text "s" \/ unit = text "ms" \/ unit = text "µs").
Proof.
  intros H. apply re_search_found in H as (s' & o & H & <-).
  unfold elapsed_re in H. apply in_run_key_eq in H as (s1 & o1 & H & ->).
  apply in_run_group in H as (o2 & H & ->).
  apply in_run_seq in H as (a & b & Ha & Hb & ->).
  apply in_run_rep in Ha as (k & [Hlo Hhi] & ->). cbn [fst snd] in *.
  apply in_run_unit_alt in Hb as (unit & Hunit & Hs & ->).
  destruct (span_take _ _ _ _ Hhi) as [Hall Hlen].
  assert (Hs1 : s1 = take k s1 ++ unit ++ b.2).
  { rewrite <- Hs. symmetry. apply take_drop. }
  assert (Hk : length (take k s1) = k) by (rewrite length_take; lia).
  exists (take k s1), unit. cbn [app]. split; [|split; [exact Hall|split; [|exact Hunit]]].
  - f_equal. remember (take k s1) as n eqn:Hn. clear Hn Hs Hhi Hall.
    subst s1. rewrite !length_app.
    replace (length n + (length unit + length b.2) - length b.2)%nat
      with (length (n ++ unit)) by (rewrite length_app; lia).
    rewrite app_assoc. apply take_app_length.
  - intros E. rewrite E in Hk. cbn in Hk. lia.
Qed.

Lemma run_seq_first (r1 r2 : regex) (s : pystr) (o1 o2 : outcome) (m1 m2 : list outcome) :
  run r1 s = o1 :: m1 -> run r2 o1.2 = o2 :: m2 ->
  exists more, run (Seq r1 r2) s = (o1.1 ++ o2.1, o2.2) :: more.
Proof.
  intros H1 H2. cbn [run]. rewrite H1. cbn [flat_map]. rewrite H2. cbn [map app].
  eexists. reflexivity.
Qed.

Lemma rep_digit_consumes (lo : nat) (hi : option nat) (s : pystr) (o : outcome) :
  In o (run (Rep [CDigit] lo hi) s) ->
  exists pre, s = pre ++ o.2 /\ Forall (fun c => c <> 90%N) pre.
Proof.
  intros H. apply in_run_rep in H as (k & [_ Hk] & ->). cbn [snd].
  exists (take k s). split; [symmetry; apply take_drop|].
  destruct (span_take _ _ _ _ Hk) as [Hall _].
  eapply Forall_impl; [exact Hall|]. intros c Hc ->. vm_compute in Hc. discriminate.
Qed.

Lemma lit_consumes (l s : pystr) (o : outcome) :
  In o (run (Lit l) s) -> s = l ++ o.2.
Proof.
  cbn [run]. destruct (starts_with l s) eqn:E; [|intros []].
  intros [<-|[]]. apply starts_with_app. exact E.
Qed.

Lemma lit_consumes_no_z (l : pystr) :
  Forall (fun c => c <> 90%N) l ->
  forall s o, In o (run (Lit l) s) ->
  exists pre, s = pre ++ o.2 /\ Forall (fun c => c <> 90%N) pre.
Proof. intros Hl s o H. exists l. split; [apply lit_consumes; exact H|exact Hl]. Qed.

(** A sequence of pieces that each consume characters other than Z. *)
Lemma chain_consumes (rs : list regex) (last : regex) :
  Forall (fun r => forall s o, In o (run r s) ->
            exists pre, s = pre ++ o.2 /\ Forall (fun c => c <> 90%N) pre) rs ->
  forall s o, In o (run (fold_right Seq last rs) s) ->
  exists pre s' o', s = pre ++ s' /\ Forall (fun c => c <> 90%N) pre
    /\ In o' (run last s') /\ o.2 = o'.2.
Proof.
  induction 1 as [|r rs Hr _ IH]; intros s o H; cbn [fold_right] in H.
  - exists [], s, o. repeat split; [constructor|exact H].
  - apply in_run_seq in H as (o1 & o2 & H1 & H2 & ->). cbn [snd].
    apply Hr in H1 as (p1 & Hs & Hp1).
    apply IH in H2 as (pre & s' & o' & Hs' & Hpre & Hlast & Ho).
    exists (p1 ++ pre), s', o'. rewrite <- app_assoc, <- Hs', <- Hs.
    repeat split; [apply Forall_app; auto|exact Hlast|exact Ho].
Qed.

Lemma replace_char_absent (c : N) (by_ s : pystr) :
  Forall (fun x => x <> c) s -> replace_char c by_ s = s.
Proof.
  unfold replace_char. induction 1 as [|x t Hx _ IH]; [reflexivity|].
  cbn [flat_map]. apply N.eqb_neq in Hx. rewrite Hx, IH. reflexivity.
Qed.

(** What the timestamp pattern captures: a text without Z, and the Z. *)
Lemma timestamp_group (s : pystr) (m : list pystr) :
  re_match timestamp_re s = Some m ->
  exists stamp rest, s = stamp ++ 90%N :: rest
    /\ Forall (fun c => c <> 90%N) stamp
    /\ group m 1 = stamp ++ [90%N].
Proof.
  unfold re_match. destruct (run timestamp_re s) as [|o more] eqn:E; [discriminate|].
  intros [= <-].
  assert (H : In o (run timestamp_re s)) by (rewrite E; left; reflexivity).
  unfold timestamp_re in H. apply in_run_group in H as (o' & H & ->).
  change (Seq (digitsN 4) _) with
    (fold_right Seq (Lit (text "Z"))
       [digitsN 4; Lit (text "-"); digitsN 2; Lit (text "-"); digitsN 2;
        Lit (text "T"); digitsN 2; Lit (text ":"); digitsN 2; Lit (text ":");
        digitsN 2; Lit (text "."); digits1]) in H.
  apply chain_consumes in H as (stamp & s' & z & Hs & Hstamp & Hz & Ho).
  2:{ repeat constructor;
        first [ apply rep_digit_consumes
              | apply lit_consumes_no_z; repeat constructor; discriminate ]. }
  apply lit_consumes in Hz. change (text "Z") with [90%N] in Hz.
  exists stamp, z.2. rewrite Hs, Hz. cbn [app]. split; [reflexivity|].
  split; [exact Hstamp|]. cbn [group pred nth fst snd]. rewrite Ho.
  rewrite length_app. cbn [length].
  replace (length stamp + S (length z.2) - length z.2)%nat
    with (length (stamp ++ [90%N])) by (rewrite length_app; cbn; lia).
  change (stamp ++ 90%N :: z.2) with (stamp ++ [90%N] ++ z.2).
  rewrite app_assoc. apply take_app_length.
Qed.

End GroupFacts.

Section DurationFacts.
Context {RT : Runtime}.

(** The duration pattern on a number, a unit and any text behind them. *)
Lemma duration_re_tail (num unit tail : pystr) :
  Forall (fun c => in_class [CDigit; CChar 46] c = true) num -> num <> [] ->
  unit = text "s" \/ unit = text "ms" \/ unit = text "µs" ->
  re_match duration_re (num ++ unit ++ tail) = Some [num; unit].
Proof.
  intros Hnum Hne Hunit.
  assert (Hrest : match unit ++ tail with [] => True
                  | c :: _ => in_class [CDigit; CChar 46] c = false end).
  { destruct Hunit as [->|[->| ->]]; vm_compute; reflexivity. }
  assert (Hlo : (1 <= length num)%nat) by (destruct num; [congruence|cbn; lia]).
  destruct (run_rep_greedy _ 1 num (unit ++ tail) Hnum Hrest Hlo) as [more Hrep].
  destruct (run_group_first _ _ _ _ Hrep) as [more' Hgrp].
  assert (Hu : exists more2, run unit_alt (unit ++ tail) = ([], tail) :: more2).
  { destruct Hunit as [->|[->| ->]]; eexists; vm_compute; reflexivity. }
  destruct Hu as [more2 Hu].
  destruct (run_group_first _ _ _ _ Hu) as [more3 Hgu].
  unfold duration_re. fold number_chars in Hgrp.
  rewrite (re_match_seq _ _ _ _ _ _ _ Hgrp Hgu). cbn [fst snd app].
  rewrite !length_app.
  replace (length num + (length unit + length tail) - (length unit + length tail))%nat
    with (length num) by lia.
  replace (length unit + length tail - length tail)%nat with (length unit) by lia.
  rewrite !take_app_length. reflexivity.
Qed.

Lemma parse_time_to_ms_tail (num unit tail : pystr) :
  Forall (fun c => in_class [CDigit; CChar 46] c = true) num -> num <> [] ->
  unit = text "s" \/ unit = text "ms" \/ unit = text "µs" ->
  strip (num ++ unit ++ tail) = num ++ unit ++ tail ->
  parse_time_to_ms (num ++ unit ++ tail)
  = try! value := py_float num in Ok (Some (unit_scale unit value)).
Proof.
  intros Hnum Hne Hunit Hstrip. unfold parse_time_to_ms. cbv zeta.
  rewrite Hstrip, (duration_re_tail _ _ _ Hnum Hne Hunit). cbn [group pred nth].
  destruct (py_float num) as [v|e]; cbn [bind]; [|reflexivity].
  unfold unit_scale. destruct Hunit as [->|[->| ->]]; reflexivity.
Qed.

Lemma strip_number_unit (num unit tail : pystr) (z : N) :
  Forall (fun c => in_class [CDigit; CChar 46] c = true) num -> num <> [] ->
  isspace z = false ->
  strip (num ++ unit ++ tail ++ [z]) = num ++ unit ++ tail ++ [z].
Proof.
  intros Hnum Hne Hz. destruct num as [|c num']; [congruence|].
  change ((c :: num') ++ unit ++ tail ++ [z]) with (c :: (num' ++ unit ++ tail ++ [z])).
  rewrite !app_assoc. apply strip_keeps; [|exact Hz].
  apply number_char_not_space. inversion Hnum; assumption.
Qed.

Lemma lstrip_spaces (lead s : pystr) :
  Forall (fun c => isspace c = true) lead -> lstrip (lead ++ s) = lstrip s.
Proof.
  induction 1 as [|c t Hc _ IH]; [reflexivity|]. cbn. rewrite Hc. exact IH.
Qed.

Lemma lstrip_app (s t : pystr) :
  lstrip s <> [] -> lstrip (s ++ t) = lstrip s ++ t.
Proof.
  induction s as [|c s IH]; cbn; [congruence|].
  destruct (isspace c); [exact IH|reflexivity].
Qed.

Lemma lstrip_all_spaces (s : pystr) :
  lstrip s = [] -> Forall (fun c => isspace c = true) s.
Proof.
  induction s as [|c s IH]; cbn; [constructor|].
  destruct (isspace c) eqn:E; [|discriminate]. constructor; auto.
Qed.

(** [strip] removes the white space on both sides. *)
Lemma strip_spaces (lead s trail : pystr) :
  Forall (fun c => isspace c = true) lead ->
  Forall (fun c => isspace c = true) trail ->
  strip (lead ++ s ++ trail) = strip s.
Proof.
  intros Hlead Htrail. unfold strip. rewrite lstrip_spaces by exact Hlead.
  destruct (lstrip s) as [|c r] eqn:E.
  - apply lstrip_all_spaces in E.
    rewrite <- (app_nil_r (s ++ trail)), lstrip_spaces; [reflexivity|].
    apply Forall_app. auto.
  - rewrite lstrip_app by congruence. rewrite E, rev_app_distr.
    rewrite lstrip_spaces; [reflexivity|].
    apply Forall_rev. exact Htrail.
Qed.

End DurationFacts.

Section Durations.
Context {RT : Runtime}.

(** C3. A number that [float] accepts, followed by a unit, is converted to
    milliseconds: the float times 1000 for [s], the float itself for [ms],
    the float divided by 1000 for [µs]; "1.5s" gives 1500.0, "2.5ms" gives
    2.5 and "750µs" gives 0.75. *)
Theorem parse_time_to_ms_units :
  (forall num value,
     py_float num = Ok value ->
     parse_time_to_ms (num ++ text "s") = Ok (Some (value * 1000)%float)
     /\ parse_time_to_ms (num ++ text "ms") = Ok (Some value)
     /\ parse_time_to_ms (num ++ text "µs") = Ok (Some (value / 1000)%float))
  /\ parse_time_to_ms (text "1.5s") = Ok (Some 1500%float)
  /\ parse_time_to_ms (text "2.5ms") = Ok (Some 2.5%float)
  /\ parse_time_to_ms (text "750µs") = Ok (Some 0.75%float).
Proof.
  split; [|repeat split; vm_compute; reflexivity].
  intros num value Hvalue.
  destruct (py_float_chars _ _ Hvalue) as [Hchars Hne].
  assert (Hstrip : forall u, strip (num ++ u ++ [115%N]) = num ++ u ++ [115%N]).
  { intros u. destruct num as [|c num']; [congruence|].
    change ((c :: num') ++ u ++ [115%N]) with (c :: (num' ++ u ++ [115%N])).
    rewrite app_assoc. apply strip_keeps; [|reflexivity].
    apply number_char_not_space. inversion Hchars; assumption. }
  assert (Hunit : forall unit,
            unit = text "s" \/ unit = text "ms" \/ unit = text "µs" ->
            strip (num ++ unit) = num ++ unit ->
            parse_time_to_ms (num ++ unit) =
              if str_eqb unit (text "ms") then Ok (Some value)
              else if str_eqb unit (text "µs") then Ok (Some (value / 1000)%float)
              else if str_eqb unit (text "s") then Ok (Some (value * 1000)%float)
              else Ok None).
  { intros unit Hu Hs. unfold parse_time_to_ms. cbv zeta. rewrite Hs.
    rewrite (duration_re_number_unit num unit Hchars Hne Hu).
    cbn [group pred nth]. rewrite Hvalue. reflexivity. }
  split; [|split].
  - rewrite (Hunit (text "s")); [reflexivity|tauto|exact (Hstrip [])].
  - rewrite (Hunit (text "ms")); [reflexivity|tauto|exact (Hstrip [109%N])].
  - rewrite (Hunit (text "µs")); [reflexivity|tauto|exact (Hstrip [181%N])].
Qed.

(** C4. On "1.2.3ms" the pattern matches, with "1.2.3" as the number, and
    [float] raises; "abc" and "5xy" do not match and give nothing. *)
Theorem parse_time_to_ms_two_dots :
  parse_time_to_ms (text "1.2.3ms") = Raise ValueError
  /\ re_match duration_re (text "1.2.3ms") = Some [text "1.2.3"; text "ms"]
  /\ parse_time_to_ms (text "abc") = Ok None
  /\ parse_time_to_ms (text "5xy") = Ok None.
Proof. repeat split; vm_compute; reflexivity. Qed.


(** X10. What the [elapsed] pattern captures is always a duration: a run of
    digits and dots followed by [s], [ms] or [µs].  On it
    [parse_time_to_ms] returns the value scaled by the unit, or raises when
    [float] rejects the number; it never returns [None], so the guard
    [if time_ms is not None] of [parse_log_file] never fails. *)
Theorem elapsed_token_is_a_duration (s : pystr) (m : list pystr) :
  re_search elapsed_re s = Some m ->
  exists num unit,
    group m 1 = num ++ unit
    /\ (unit = text "s" \/ unit = text "ms" \/ unit = text "µs")
    /\ parse_time_to_ms (group m 1)
       = (try! value := py_float num in Ok (Some (unit_scale unit value)))
    /\ parse_time_to_ms (group m 1) <> Ok None.
Proof.
  intros H. apply elapsed_group in H as (num & unit & -> & Hnum & Hne & Hunit).
  exists num, unit. cbn [group pred nth].
  assert (Hparse : parse_time_to_ms (num ++ unit)
                   = try! value := py_float num in Ok (Some (unit_scale unit value))).
  { rewrite <- (app_nil_r unit) at 1. apply parse_time_to_ms_tail; try assumption.
    rewrite app_nil_r.
    assert (Hu : exists u, unit = u ++ [115%N]).
    { destruct Hunit as [->|[->| ->]];
        [exists []|exists [109%N]|exists [181%N]]; reflexivity. }
    destruct Hu as [u ->].
    pose proof (strip_number_unit num [] u 115%N Hnum Hne eq_refl) as Hs.
    exact Hs. }
  split; [reflexivity|]. split; [exact Hunit|]. split; [exact Hparse|].
  rewrite Hparse. destruct (py_float num); cbn [bind]; discriminate.
Qed.

(** X11. [parse_time_to_ms] reads the start of the stripped text only:
    white space on both sides is ignored, and so is whatever follows the
    unit, since the pattern is tried with [re.match]: "5sec" is 5000.0. *)
Theorem parse_time_to_ms_reads_a_prefix :
  (forall lead s trail,
     Forall (fun c => isspace c = true) lead ->
     Forall (fun c => isspace c = true) trail ->
     parse_time_to_ms (lead ++ s ++ trail) = parse_time_to_ms s)
  /\ (forall num unit tail z value,
        py_float num = Ok value ->
        unit = text "s" \/ unit = text "ms" \/ unit = text "µs" ->
        isspace z = false ->
        parse_time_to_ms (num ++ unit ++ tail ++ [z])
        = Ok (Some (unit_scale unit value))).
Proof.
  split.
  - intros lead s trail Hlead Htrail. unfold parse_time_to_ms. cbv zeta.
    rewrite strip_spaces by assumption. reflexivity.
  - intros num unit tail z value Hvalue Hunit Hz.
    destruct (py_float_chars _ _ Hvalue) as [Hnum Hne].
    rewrite parse_time_to_ms_tail; try assumption.
    + rewrite Hvalue. reflexivity.
    + apply strip_number_unit; assumption.
Qed.

End Durations.

(** ** Timestamps *)

Section Timestamps.
Context {RT : Runtime}.

(** X22. The timestamp handed to [fromisoformat]: when the pattern matches
    at the start of the stripped line, the line starts with a stamp that
    holds no Z, followed by Z, and [fromisoformat] receives the stamp
    followed by "+00:00": [replace('Z', '+00:00')] hits the final Z only.
    When the pattern does not match there is no timestamp, and nothing
    is raised. *)
Theorem parse_timestamp_normalises (line : pystr) :
  (re_match timestamp_re (strip_ansi_codes line) = None -> parse_timestamp line = Ok None)
  /\ (forall m, re_match timestamp_re (strip_ansi_codes line) = Some m ->
        exists stamp rest,
          strip_ansi_codes line = stamp ++ 90%N :: rest
          /\ (90%N ∉ stamp)
          /\ parse_timestamp line
             = (try! t := fromisoformat (stamp ++ text "+00:00") in Ok (Some t))).
Proof.
  unfold parse_timestamp. cbv zeta. split; [intros ->; reflexivity|].
  intros m Hm. rewrite Hm.
  destruct (timestamp_group _ _ Hm) as (stamp & rest & Hs & Hstamp & Hg).
  exists stamp, rest. split; [exact Hs|]. split.
  - intros Hin. rewrite Forall_forall in Hstamp. exact (Hstamp _ Hin eq_refl).
  - rewrite Hg. unfold replace_char. rewrite flat_map_app.
    fold (replace_char 90 (text "+00:00") stamp).
    rewrite replace_char_absent by exact Hstamp. reflexivity.
Qed.

End Timestamps.

(** ** Escape sequences *)

Section EscapeSequences.
Context {RT : Runtime}.

(** Every escape sequence starts with ESC. *)
Lemma ansi_escape_needs_esc (c : N) (t : pystr) :
  c <> ESC -> match_length ansi_escape (c :: t) = None.
Proof.
  intros Hc. unfold match_length, ansi_escape. cbn [run in_class existsb in_item].
  apply N.eqb_neq in Hc. rewrite Hc. reflexivity.
Qed.

(** Text without ESC is left as it is. *)
Lemma strip_ansi_codes_plain (y : pystr) : ESC ∉ y -> strip_ansi_codes y = y.
Proof.
  unfold strip_ansi_codes. induction y as [|c t IH]; intros Hy; [reflexivity|].
  apply not_elem_of_cons in Hy as [Hc Ht].
  cbn [delete_matches]. rewrite ansi_escape_needs_esc by congruence.
  rewrite IH by exact Ht. reflexivity.
Qed.

(** An escape sequence is never empty. *)
Lemma ansi_escape_not_empty (s : pystr) (n : nat) :
  match_length ansi_escape s = Some n -> (1 <= n)%nat.
Proof.
  unfold match_length. destruct (run ansi_escape s) as [|o more] eqn:E; [discriminate|].
  intros [= <-]. assert (H : In o (run ansi_escape s)) by (rewrite E; left; reflexivity).
  unfold ansi_escape in H. apply in_run_seq in H as (o1 & o2 & H1 & H2 & ->).
  cbn [run] in H1. destruct s as [|c t]; [destruct H1|].
  destruct (in_class _ c); [|destruct H1]. destruct H1 as [<-|[]].
  cbn [fst snd] in *. apply run_rest_le in H2. cbn [length]. lia.
Qed.

(** When every ESC of the text starts an escape sequence, none is left. *)
Lemma strip_ansi_codes_clears (x : pystr) :
  (forall before after, x = before ++ ESC :: after ->
     match_length ansi_escape (ESC :: after) <> None) ->
  ESC ∉ strip_ansi_codes x.
Proof.
  unfold strip_ansi_codes. generalize 0%nat as skip.
  induction x as [|c t IH]; intros skip Hx; cbn [delete_matches].
  - apply not_elem_of_nil.
  - assert (Ht : forall before after, t = before ++ ESC :: after ->
                   match_length ansi_escape (ESC :: after) <> None).
    { intros before after ->. apply (Hx (c :: before)). reflexivity. }
    destruct skip as [|k]; [|apply IH; exact Ht].
    destruct (N.eq_dec c ESC) as [->|Hc].
    + specialize (Hx [] t eq_refl).
      destruct (match_length ansi_escape (ESC :: t)) as [n|] eqn:E; [|congruence].
      apply ansi_escape_not_empty in E as Hn. destruct n as [|n]; [lia|].
      apply IH. exact Ht.
    + rewrite ansi_escape_needs_esc by exact Hc.
      apply not_elem_of_cons. split; [congruence|]. apply IH. exact Ht.
Qed.

(** C8 (amended). Stripping twice is the same as stripping once whenever
    the first pass leaves no ESC character behind; and it leaves none
    behind when every ESC of the text starts an escape sequence. *)
Theorem strip_ansi_codes_twice :
  (forall x, ESC ∉ strip_ansi_codes x ->
     strip_ansi_codes (strip_ansi_codes x) = strip_ansi_codes x)
  /\ (forall x,
        (forall before after, x = before ++ ESC :: after ->
           match_length ansi_escape (ESC :: after) <> None) ->
        ESC ∉ strip_ansi_codes x).
Proof.
  split.
  - intros x. apply strip_ansi_codes_plain.
  - exact strip_ansi_codes_clears.
Qed.


Lemma delete_matches_skip (r : regex) (a rest : pystr) :
  delete_matches r (length a) (a ++ rest) = delete_matches r 0 rest.
Proof. induction a as [|c a IH]; [reflexivity|exact IH]. Qed.

Lemma delete_matches_plain (plain s : pystr) :
  ESC ∉ plain ->
  delete_matches ansi_escape 0 (plain ++ s) = plain ++ delete_matches ansi_escape 0 s.
Proof.
  induction plain as [|c t IH]; intros Hp; [reflexivity|].
  apply not_elem_of_cons in Hp as [Hc Ht].
  cbn [app delete_matches]. rewrite ansi_escape_needs_esc by congruence.
  rewrite IH by exact Ht. reflexivity.
Qed.

Lemma delete_matches_first (seq_ rest : pystr) :
  seq_ <> [] ->
  match_length ansi_escape (seq_ ++ rest) = Some (length seq_) ->
  delete_matches ansi_escape 0 (seq_ ++ rest) = delete_matches ansi_escape 0 rest.
Proof.
  destruct seq_ as [|c t]; [congruence|]. intros _ H.
  cbn [app delete_matches length] in *. rewrite H. apply delete_matches_skip.
Qed.

Lemma in_range_class (lo hi c : N) :
  (lo <= c <= hi)%N -> in_class [CRange lo hi] c = true.
Proof.
  intros [H1 H2]. cbn. apply N.leb_le in H1. apply N.leb_le in H2.
  rewrite H1, H2. reflexivity.
Qed.

Lemma out_of_range_class (lo hi c : N) :
  (c < lo \/ hi < c)%N -> in_class [CRange lo hi] c = false.
Proof.
  intros H. cbn. rewrite orb_false_r. apply andb_false_iff.
  destruct H as [H|H]; [left|right]; apply N.leb_gt; exact H.
Qed.

(** A control sequence [ESC [ parameters intermediates final] is matched whole. *)
Lemma ansi_escape_csi (params inter : pystr) (final : N) (rest : pystr) :
  Forall (fun c => (48 <= c <= 63)%N) params ->
  Forall (fun c => (32 <= c <= 47)%N) inter ->
  (64 <= final <= 126)%N ->
  match_length ansi_escape (ESC :: 91%N :: params ++ inter ++ final :: rest)
  = Some (length (ESC :: 91%N :: params ++ inter ++ [final])).
Proof.
  intros Hp Hi Hf.
  assert (Hfinal : exists m, run (Chars [CRange 64 126]) (final :: rest) = ([], rest) :: m).
  { cbn [run]. rewrite in_range_class by exact Hf. eexists. reflexivity. }
  destruct Hfinal as [m3 Hfinal].
  assert (Hinter : exists m, run (Rep [CRange 32 47] 0 None) (inter ++ final :: rest)
                             = ([], final :: rest) :: m).
  { apply run_rep_greedy; [|apply out_of_range_class; lia|lia].
    eapply Forall_impl; [exact Hi|]. intros c Hc. apply in_range_class. exact Hc. }
  destruct Hinter as [m2 Hinter].
  assert (Hparams : exists m, run (Rep [CRange 48 63] 0 None)
                                (params ++ inter ++ final :: rest)
                              = ([], inter ++ final :: rest) :: m).
  { apply run_rep_greedy; [| |lia].
    - eapply Forall_impl; [exact Hp|]. intros c Hc. apply in_range_class. exact Hc.
    - destruct inter as [|c t]; cbn [app].
      + apply out_of_range_class. lia.
      + apply out_of_range_class. inversion Hi; subst. lia. }
  destruct Hparams as [m1 Hparams].
  destruct (run_seq_first _ _ _ _ _ _ _ Hinter Hfinal) as [m4 H4].
  destruct (run_seq_first _ _ _ _ _ _ _ Hparams H4) as [m5 H5].
  cbn [fst snd app] in H5.
  set (body := params ++ inter ++ final :: rest) in *.
  assert (Hopen : run (Chars [CChar 91]) (91%N :: body) = [([], body)]) by reflexivity.
  destruct (run_seq_first _ _ _ _ _ _ _ Hopen H5) as [m6 H6].
  assert (Halt : run (Alt (Chars [CRange 64 90; CRange 92 95])
                          (Seq (Chars [CChar 91])
                               (Seq (Rep [CRange 48 63] 0 None)
                                    (Seq (Rep [CRange 32 47] 0 None)
                                         (Chars [CRange 64 126])))))
                     (91%N :: body) = ([], rest) :: m6).
  { change (run (Alt ?a ?b) ?s) with (run a s ++ run b s). rewrite H6. reflexivity. }
  assert (Hesc : run (Chars [CChar ESC]) (ESC :: 91%N :: body) = [([], 91%N :: body)])
    by reflexivity.
  destruct (run_seq_first _ _ _ _ _ _ _ Hesc Halt) as [m7 H7].
  unfold match_length. fold ansi_escape in H7. rewrite H7. cbn [snd].
  f_equal. subst body. cbn [length]. rewrite ?length_app. cbn [length].
  rewrite ?length_app. cbn [length]. lia.
Qed.

Lemma ansi_escape_two (c : N) (rest : pystr) :
  (64 <= c <= 90 \/ 92 <= c <= 95)%N ->
  match_length ansi_escape (ESC :: c :: rest) = Some 2%nat.
Proof.
  intros Hc.
  assert (Hin : in_class [CRange 64 90; CRange 92 95] c = true).
  { cbn. destruct Hc as [[H1 H2]|[H1 H2]]; apply N.leb_le in H1; apply N.leb_le in H2;
      rewrite H1, H2; cbn; rewrite ?orb_true_r; reflexivity. }
  assert (Hone : run (Chars [CRange 64 90; CRange 92 95]) (c :: rest) = [([], rest)]).
  { cbn [run]. rewrite Hin. reflexivity. }
  assert (Halt : exists m,
            run (Alt (Chars [CRange 64 90; CRange 92 95])
                     (Seq (Chars [CChar 91])
                          (Seq (Rep [CRange 48 63] 0 None)
                               (Seq (Rep [CRange 32 47] 0 None)
                                    (Chars [CRange 64 126])))))
                (c :: rest) = ([], rest) :: m).
  { change (run (Alt ?a ?b) ?s) with (run a s ++ run b s). rewrite Hone.
    eexists. reflexivity. }
  destruct Halt as [m Halt].
  assert (Hesc : run (Chars [CChar ESC]) (ESC :: c :: rest) = [([], c :: rest)])
    by reflexivity.
  destruct (run_seq_first _ _ _ _ _ _ _ Hesc Halt) as [m' H].
  unfold match_length. fold ansi_escape in H. rewrite H. cbn [snd length].
  f_equal. lia.
Qed.

Lemma ansi_escape_stray (c : N) (rest : pystr) :
  (c < 64 \/ 95 < c)%N -> match_length ansi_escape (ESC :: c :: rest) = None.
Proof.
  intros Hc.
  assert (HA : run (Chars [CRange 64 90; CRange 92 95]) (c :: rest) = []).
  { cbn [run].
    assert (in_class [CRange 64 90; CRange 92 95] c = false) as ->; [|reflexivity].
    cbn. rewrite orb_false_r. apply orb_false_iff. split; apply andb_false_iff.
    - destruct Hc; [left|right]; apply N.leb_gt; lia.
    - destruct Hc; [left|right]; apply N.leb_gt; lia. }
  assert (HB : forall r, run (Seq (Chars [CChar 91]) r) (c :: rest) = []).
  { intros r. change (run (Seq ?a ?b) ?s)
      with (flat_map (fun o1 => map (fun o2 => (o1.1 ++ o2.1, o2.2)) (run b o1.2)) (run a s)).
    cbn [run].
    assert (in_class [CChar 91] c = false) as ->; [|reflexivity].
    cbn. rewrite orb_false_r. apply N.eqb_neq. lia. }
  unfold match_length, ansi_escape.
  change (run (Seq ?a ?b) (ESC :: c :: rest))
    with (flat_map (fun o1 => map (fun o2 => (o1.1 ++ o2.1, o2.2)) (run b o1.2))
            (run a (ESC :: c :: rest))).
  change (run (Chars [CChar ESC]) (ESC :: c :: rest)) with [(@nil pystr, c :: rest)].
  cbn [flat_map fst snd].
  change (run (Alt ?a ?b) ?s) with (run a s ++ run b s).
  rewrite HA, HB. reflexivity.
Qed.

(** X15. After text without ESC, [strip_ansi_codes] removes a control
    sequence (ESC, "[", parameter bytes 0-?, intermediate bytes space-/,
    one final byte @-~) and a two-character escape (ESC and one of @-Z or
    \-_) whole, and goes on with what follows; an ESC that is followed by
    another character, or by nothing, is kept. *)
Theorem strip_ansi_codes_removes_sequences (plain rest : pystr) :
  ESC ∉ plain ->
  (forall params inter final,
     Forall (fun c => (48 <= c <= 63)%N) params ->
     Forall (fun c => (32 <= c <= 47)%N) inter ->
     (64 <= final <= 126)%N ->
     strip_ansi_codes (plain ++ ESC :: 91%N :: params ++ inter ++ final :: rest)
     = plain ++ strip_ansi_codes rest)
  /\ (forall c,
        (64 <= c <= 90 \/ 92 <= c <= 95)%N ->
        strip_ansi_codes (plain ++ ESC :: c :: rest) = plain ++ strip_ansi_codes rest)
  /\ (forall c,
        (c < 64 \/ 95 < c)%N ->
        strip_ansi_codes (plain ++ ESC :: c :: rest)
        = plain ++ ESC :: strip_ansi_codes (c :: rest))
  /\ strip_ansi_codes (plain ++ [ESC]) = plain ++ [ESC].
Proof.
  intros Hplain. unfold strip_ansi_codes. split; [|split; [|split]].
  - intros params inter final Hp Hi Hf.
    rewrite delete_matches_plain by exact Hplain. f_equal.
    pose proof (ansi_escape_csi params inter final rest Hp Hi Hf) as Hm.
    replace (ESC :: 91%N :: params ++ inter ++ final :: rest)
      with ((ESC :: 91%N :: params ++ inter ++ [final]) ++ rest) in *
      by (cbn [app]; rewrite <- !app_assoc; reflexivity).
    apply delete_matches_first; [discriminate|exact Hm].
  - intros c Hc. rewrite delete_matches_plain by exact Hplain. f_equal.
    apply (delete_matches_first [ESC; c] rest); [discriminate|].
    apply ansi_escape_two. exact Hc.
  - intros c Hc. rewrite delete_matches_plain by exact Hplain. f_equal.
    change (delete_matches ansi_escape 0 (ESC :: c :: rest))
      with (match match_length ansi_escape (ESC :: c :: rest) with
            | Some (S k) => delete_matches ansi_escape k (c :: rest)
            | _ => ESC :: delete_matches ansi_escape 0 (c :: rest)
            end).
    rewrite ansi_escape_stray by exact Hc. reflexivity.
  - rewrite delete_matches_plain by exact Hplain. reflexivity.
Qed.

Lemma delete_matches_sublist (r : regex) (s : pystr) : forall skip,
  sublist (delete_matches r skip s) s.
Proof.
  induction s as [|c t IH]; intros skip; cbn [delete_matches]; [constructor|].
  destruct skip as [|k]; [|apply sublist_cons, IH].
  destruct (match_length r (c :: t)) as [[|k]|].
  - apply sublist_skip, IH.
  - apply sublist_cons, IH.
  - apply sublist_skip, IH.
Qed.

Lemma sublist_same_length {A : Type} (l1 l2 : list A) :
  sublist l1 l2 -> length l1 = length l2 -> l1 = l2.
Proof.
  induction 1 as [|x l1 l2 H IH|x l1 l2 H IH]; cbn; intros Hlen; [reflexivity| |].
  - f_equal. apply IH. lia.
  - apply sublist_length in H. lia.
Qed.

(** X16. [strip_ansi_codes] only deletes: its result is the text with some
    characters left out, in the same order, so it is never longer, and it
    is the text itself when it is as long. *)
Theorem strip_ansi_codes_only_deletes (x : pystr) :
  sublist (strip_ansi_codes x) x
  /\ (length (strip_ansi_codes x) <= length x)%nat
  /\ (length (strip_ansi_codes x) = length x -> strip_ansi_codes x = x).
Proof.
  pose proof (delete_matches_sublist ansi_escape x 0) as H.
  fold (strip_ansi_codes x) in H. split; [exact H|]. split.
  - apply sublist_length. exact H.
  - apply sublist_same_length. exact H.
Qed.

Lemma process_line_clean r l1 l2 st :
  strip_ansi_codes l1 = strip_ansi_codes l2 ->
  process_line r l1 st = process_line r l2 st.
Proof.
  intros H. unfold process_line, parse_timestamp. cbv zeta. rewrite H. reflexivity.
Qed.

Lemma note_block_clean min_gas l1 l2 blocks :
  strip_ansi_codes l1 = strip_ansi_codes l2 ->
  note_block min_gas l1 blocks = note_block min_gas l2 blocks.
Proof.
  intros H. unfold note_block. cbv zeta. rewrite H. reflexivity.
Qed.

(** X17. Colour does not change what a line contributes: with a control
    sequence inserted after text without ESC, a line has the same
    timestamp, and the loop bodies of both passes return the same result,
    as the line without it. *)
Theorem colour_is_invisible (plain params inter : pystr) (final : N) (rest : pystr) :
  ESC ∉ plain ->
  Forall (fun c => (48 <= c <= 63)%N) params ->
  Forall (fun c => (32 <= c <= 47)%N) inter ->
  (64 <= final <= 126)%N ->
  let coloured_line := plain ++ ESC :: 91%N :: params ++ inter ++ final :: rest in
  parse_timestamp coloured_line = parse_timestamp (plain ++ rest)
  /\ (forall min_gas blocks,
        note_block min_gas coloured_line blocks = note_block min_gas (plain ++ rest) blocks)
  /\ (forall block_range st,
        process_line block_range coloured_line st
        = process_line block_range (plain ++ rest) st).
Proof.
  intros Hplain Hp Hi Hf coloured_line.
  assert (H : strip_ansi_codes coloured_line = strip_ansi_codes (plain ++ rest)).
  { unfold coloured_line, strip_ansi_codes at 2.
    rewrite delete_matches_plain by exact Hplain.
    unfold strip_ansi_codes.
    rewrite delete_matches_plain by exact Hplain. f_equal.
    pose proof (ansi_escape_csi params inter final rest Hp Hi Hf) as Hm.
    replace (ESC :: 91%N :: params ++ inter ++ final :: rest)
      with ((ESC :: 91%N :: params ++ inter ++ [final]) ++ rest) in *
      by (cbn [app]; rewrite <- !app_assoc; reflexivity).
    apply delete_matches_first; [discriminate|exact Hm]. }
  split; [|split].
  - unfold parse_timestamp. cbv zeta. rewrite H. reflexivity.
  - intros. apply note_block_clean. exact H.
  - intros. apply process_line_clean. exact H.
Qed.

End EscapeSequences.

(** ** The first pass *)


Section GasThreshold.
Context {RT : Runtime}.

(** C5. In the first pass a "Block added" line whose number and gas fields
    are read counts as non-empty exactly when its gas value, taken as it is
    without suffix and times 10^3, 10^6 or 10^9 for K, M or G, is strictly
    above 1000: 1000gas is not non-empty, 1001gas and 1.001Kgas are. *)
Theorem gas_threshold :
  (forall line blocks num_match gas_match block_num gas_val,
     contains block_added_marker (strip_ansi_codes line) = true ->
     re_search number_re (strip_ansi_codes line) = Some num_match ->
     re_search gas_used_re (strip_ansi_codes line) = Some gas_match ->
     py_int (group num_match 1) = Ok block_num ->
     py_float (group gas_match 1) = Ok gas_val ->
     exists gas_used,
       (group gas_match 2 = [] /\ gas_used = gas_val
        \/ group gas_match 2 = text "K" /\ gas_used = (gas_val * 1000)%float
        \/ group gas_match 2 = text "M" /\ gas_used = (gas_val * 1000000)%float
        \/ group gas_match 2 = text "G" /\ gas_used = (gas_val * 1000000000)%float)
       /\ note_block 1000 line blocks
          = Ok (if (1000 <? gas_used)%float then blocks ++ [block_num] else blocks))
  /\ note_block 1000
       (text "Block added to canonical chain number=7 gas_used=1000gas") [] = Ok []
  /\ note_block 1000
       (text "Block added to canonical chain number=7 gas_used=1001gas") [] = Ok [7]
  /\ note_block 1000
       (text "Block added to canonical chain number=7 gas_used=1.001Kgas") [] = Ok [7].
Proof.
  split; [|repeat split; vm_compute; reflexivity].
  intros line blocks num_match gas_match block_num gas_val Hmark Hnum Hgas Hint Hfloat.
  destruct (gas_used_groups _ _ Hgas) as (number & suffix & -> & Hsuffix).
  cbn [group pred nth] in *.
  assert (Hrun : note_block 1000 line blocks =
            let gas_used :=
              if str_eqb suffix (text "K") then (gas_val * 1000)%float
              else if str_eqb suffix (text "M") then (gas_val * 1000000)%float
              else if str_eqb suffix (text "G") then (gas_val * 1000000000)%float
              else gas_val in
            Ok (if (1000 <? gas_used)%float then blocks ++ [block_num] else blocks)).
  { unfold note_block. cbv zeta. rewrite Hmark, Hnum, Hgas. cbn [group pred nth].
    rewrite Hint, Hfloat. cbn [bind].
    destruct (1000 <? _)%float; reflexivity. }
  rewrite Hrun. cbv zeta.
  destruct Hsuffix as [->|[->|[->| ->]]].
  - exists gas_val. split; [tauto|reflexivity].
  - exists (gas_val * 1000)%float. split; [tauto|reflexivity].
  - exists (gas_val * 1000000)%float. split; [tauto|reflexivity].
  - exists (gas_val * 1000000000)%float. split; [tauto|reflexivity].
Qed.

End GasThreshold.

Section FirstPass.
Context {RT : Runtime}.

(** C1. On the list of non-empty block numbers gathered from the log, in
    log order, [find_block_range] returns (first entry + 1, last entry - 1)
    when the list has at least three entries, (first entry, last entry)
    when it has one or two, and no range when it is empty, which [main]
    turns into an absent block range; [10; 11; 12; 13] gives (11, 12),
    [10] gives (10, 10), the empty list gives none. *)
Theorem find_block_range_policy :
  (forall log_file blocks,
     collect_blocks 1000 log_file [] = Ok blocks ->
     find_block_range log_file = Ok (block_range_of blocks))
  /\ (forall blocks first_entry last_entry,
        head blocks = Some first_entry ->
        last blocks = Some last_entry ->
        ((3 <= length blocks)%nat ->
           block_range_of blocks = (Some (first_entry + 1), Some (last_entry - 1)))
        /\ ((length blocks < 3)%nat ->
           block_range_of blocks = (Some first_entry, Some last_entry)))
  /\ (forall blocks,
        blocks = [] ->
        block_range_of blocks = (None, None)
        /\ main_block_range (block_range_of blocks) = None)
  /\ block_range_of [10; 11; 12; 13] = (Some 11, Some 12)
  /\ block_range_of [10] = (Some 10, Some 10)
  /\ block_range_of [] = (None, None).
Proof.
  split; [|split; [|split]].
  - intros log_file blocks H. unfold find_block_range, find_block_range_from.
    rewrite H. reflexivity.
  - intros blocks first_entry last_entry Hfirst Hlast. unfold block_range_of.
    rewrite Hfirst, Hlast. cbn [default].
    split; intros Hlen.
    + apply Nat.leb_le in Hlen. rewrite Hlen. reflexivity.
    + apply Nat.leb_gt in Hlen. rewrite Hlen.
      destruct blocks; [discriminate|reflexivity].
  - intros blocks ->. split; reflexivity.
  - repeat split.
Qed.


Lemma lines_with_cons marker line rest :
  lines_with marker (line :: rest) = (marked marker line + lines_with marker rest)%nat.
Proof.
  unfold lines_with, marked. rewrite filter_cons.
  destruct (decide _) as [->|Hn]; [reflexivity|].
  destruct (contains marker _); [congruence|reflexivity].
Qed.

(** What one line adds to the list does not depend on the list. *)
Lemma note_block_delta min_gas line blocks blocks' :
  note_block min_gas line blocks = Ok blocks' ->
  exists d, blocks' = blocks ++ d
    /\ (length d <= marked block_added_marker line)%nat
    /\ Forall (fun n => 0 <= n) d
    /\ forall other, note_block min_gas line other = Ok (other ++ d).
Proof.
  unfold note_block, marked. cbv zeta.
  assert (Hnone : forall k : nat, blocks = blocks ++ []
            /\ (length (@nil Z) <= k)%nat
            /\ Forall (fun n => 0 <= n) []
            /\ forall other : list Z, Ok other = Ok (other ++ [])).
  { intros k. rewrite app_nil_r.
    repeat split; [cbn; lia|constructor|intros; rewrite app_nil_r; reflexivity]. }
  destruct (contains block_added_marker _); [|intros [= <-]; exists []; apply Hnone].
  destruct (re_search number_re _) as [nm|]; [|intros [= <-]; exists []; apply Hnone].
  destruct (re_search gas_used_re _) as [gm|]; [|intros [= <-]; exists []; apply Hnone].
  destruct (py_int (group nm 1)) as [n|] eqn:Hn; cbn [bind]; [|discriminate].
  destruct (py_float (group gm 1)) as [v|]; cbn [bind]; [|discriminate].
  destruct (min_gas <? _)%float; intros [= <-]; [|exists []; apply Hnone].
  exists [n]. repeat split; [cbn; lia|].
  constructor; [eapply py_int_nonneg; exact Hn|constructor].
Qed.

Lemma collect_blocks_delta min_gas log_file : forall blocks blocks',
  collect_blocks min_gas log_file blocks = Ok blocks' ->
  exists d, blocks' = blocks ++ d
    /\ (length d <= lines_with block_added_marker log_file)%nat
    /\ Forall (fun n => 0 <= n) d
    /\ forall other, collect_blocks min_gas log_file other = Ok (other ++ d).
Proof.
  induction log_file as [|line rest IH]; intros blocks blocks' H; cbn in H.
  - injection H as <-. exists []. rewrite app_nil_r.
    repeat split; [cbn; lia|constructor|intros; cbn; rewrite app_nil_r; reflexivity].
  - destruct (note_block min_gas line blocks) as [m|] eqn:L; cbn [bind] in H; [|discriminate].
    apply note_block_delta in L as (d1 & -> & N1 & P1 & O1).
    apply IH in H as (d2 & -> & N2 & P2 & O2).
    exists (d1 ++ d2). rewrite <- app_assoc, length_app, lines_with_cons.
    repeat split; [lia|apply Forall_app; auto|].
    intros other. cbn [collect_blocks]. rewrite O1. cbn [bind].
    rewrite O2, <- app_assoc. reflexivity.
Qed.

Lemma collect_blocks_app min_gas l1 : forall l2 blocks,
  collect_blocks min_gas (l1 ++ l2) blocks
  = try! m := collect_blocks min_gas l1 blocks in collect_blocks min_gas l2 m.
Proof.
  induction l1 as [|line rest IH]; intros l2 blocks; cbn; [reflexivity|].
  destruct (note_block min_gas line blocks); cbn [bind]; [apply IH|reflexivity].
Qed.

Lemma note_block_unmarked min_gas line blocks :
  contains block_added_marker (strip_ansi_codes line) = false ->
  note_block min_gas line blocks = Ok blocks.
Proof. intros H. unfold note_block. cbv zeta. rewrite H. reflexivity. Qed.

Lemma collect_blocks_filter min_gas log_file : forall blocks,
  collect_blocks min_gas
    (filter (fun line => contains block_added_marker (strip_ansi_codes line) = true)
            log_file) blocks
  = collect_blocks min_gas log_file blocks.
Proof.
  induction log_file as [|line rest IH]; intros blocks; [reflexivity|].
  rewrite filter_cons. destruct (decide _) as [Hm|Hm].
  - cbn [collect_blocks]. destruct (note_block min_gas line blocks); cbn [bind];
      [apply IH|reflexivity].
  - apply not_true_is_false in Hm. cbn [collect_blocks].
    rewrite (note_block_unmarked _ _ _ Hm). cbn [bind]. apply IH.
Qed.

(** X12. [find_block_range] reads the "Block added to canonical chain"
    lines only: on the log without the other lines it returns, or raises,
    the same; a log without such a line has no range. *)
Theorem find_block_range_reads_block_added_lines log_file :
  find_block_range
    (filter (fun line => contains block_added_marker (strip_ansi_codes line) = true)
            log_file)
  = find_block_range log_file
  /\ (lines_with block_added_marker log_file = 0%nat ->
      find_block_range log_file = Ok (None, None)).
Proof.
  unfold find_block_range, find_block_range_from. split.
  - rewrite collect_blocks_filter. reflexivity.
  - intros Hnone. rewrite <- collect_blocks_filter.
    unfold lines_with in Hnone. apply nil_length_inv in Hnone. rewrite Hnone.
    reflexivity.
Qed.

(** X13. The non-empty blocks of a log in two parts are those of the first
    part followed by those of the second, and the loop returns on the
    whole exactly when it returns on both parts. *)
Theorem collect_blocks_of_two_parts min_gas l1 l2 blocks :
  collect_blocks min_gas (l1 ++ l2) [] = Ok blocks <->
  exists blocks1 blocks2,
    collect_blocks min_gas l1 [] = Ok blocks1
    /\ collect_blocks min_gas l2 [] = Ok blocks2
    /\ blocks = blocks1 ++ blocks2.
Proof.
  rewrite collect_blocks_app. split.
  - intros H.
    destruct (collect_blocks min_gas l1 []) as [b1|] eqn:E1; cbn [bind] in H; [|discriminate].
    apply collect_blocks_delta in H as (d & -> & _ & _ & Hother).
    exists b1, d. rewrite (Hother []). auto.
  - intros (b1 & b2 & -> & H2 & ->). cbn [bind].
    apply collect_blocks_delta in H2 as (d & -> & _ & _ & Hother).
    rewrite Hother. reflexivity.
Qed.

(** X14. [find_block_range] returns both bounds or neither, so [main] never
    computes with a missing bound; a first bound is at least 0 and a last
    bound at least -1. *)
Theorem find_block_range_shape log_file found :
  find_block_range log_file = Ok found ->
  (found = (None, None) /\ main_block_range found = None)
  \/ (exists first_block last_block,
        found = (Some first_block, Some last_block)
        /\ main_block_range found = Some (first_block, last_block)
        /\ 0 <= first_block /\ -1 <= last_block).
Proof.
  unfold find_block_range, find_block_range_from. intros H.
  destruct (collect_blocks 1000 log_file []) as [blocks|] eqn:E; cbn [bind] in H;
    [|discriminate].
  injection H as <-.
  apply collect_blocks_delta in E as (d & -> & _ & Hpos & _). cbn [app].
  unfold block_range_of.
  destruct d as [|x t]; [left; split; reflexivity|right].
  assert (Hhead : 0 <= default 0 (head (x :: t))).
  { cbn. inversion Hpos; assumption. }
  assert (Hlast : 0 <= default 0 (last (x :: t))).
  { destruct (last (x :: t)) as [y|] eqn:El; [|cbn; lia].
    apply last_Some_elem_of in El. rewrite Forall_forall in Hpos.
    cbn. apply Hpos. exact El. }
  destruct (3 <=? length (x :: t))%nat.
  - eexists _, _. split; [reflexivity|]. split; [reflexivity|]. lia.
  - cbn [length Nat.eqb negb]. eexists _, _. split; [reflexivity|].
    split; [reflexivity|]. lia.
Qed.

End FirstPass.

(** ** Statistics *)

(** *** The order of the finite floats *)

Lemma digits2_pos_bounds (m : positive) :
  2 ^ (Zpos (digits2_pos m) - 1) <= Zpos m < 2 ^ Zpos (digits2_pos m).
Proof.
  induction m as [m IH|m IH|]; cbn [digits2_pos].
  - rewrite Pos2Z.inj_succ.
    replace (Z.succ (Zpos (digits2_pos m)) - 1) with (Z.succ (Zpos (digits2_pos m) - 1)) by lia.
    rewrite !Z.pow_succ_r by lia. lia.
  - rewrite Pos2Z.inj_succ.
    replace (Z.succ (Zpos (digits2_pos m)) - 1) with (Z.succ (Zpos (digits2_pos m) - 1)) by lia.
    rewrite !Z.pow_succ_r by lia. lia.
  - cbn. lia.
Qed.

(** The mantissa and exponent of a finite binary64. *)
Lemma finite_shape (x : float) (s : bool) (m : positive) (e : Z) :
  Prim2SF x = S754_finite s m e ->
  -1074 <= e /\ Zpos m < 2 ^ 53 /\ (-1074 < e -> 2 ^ 52 <= Zpos m).
Proof.
  intros H. pose proof (Prim2SF_valid x) as V. rewrite H in V.
  cbn [SpecFloat.valid_binary] in V. unfold bounded, canonical_mantissa, fexp in V.
  apply andb_prop in V as [V _]. apply Z.eqb_eq in V.
  change (SpecFloat.emin prec emax) with (-1074) in V. change prec with 53 in V.
  pose proof (digits2_pos_bounds m) as [Hlo Hhi].
  set (d := Zpos (digits2_pos m)) in *.
  assert (Hd : d <= 53) by lia.
  split; [lia|]. split.
  - eapply Z.lt_le_trans; [exact Hhi|]. apply Z.pow_le_mono_r; lia.
  - intros He. assert (d = 53) as Hd53 by lia. rewrite Hd53 in Hlo. exact Hlo.
Qed.

Lemma scaled_lt (m1 m2 : positive) (e1 e2 : Z) :
  -1074 <= e1 -> Zpos m1 < 2 ^ 53 -> 2 ^ 52 <= Zpos m2 -> e1 < e2 ->
  Zpos m1 * 2 ^ (e1 + 1074) < Zpos m2 * 2 ^ (e2 + 1074).
Proof.
  intros He1 Hm1 Hm2 Hlt.
  assert (Hp1 : 0 < 2 ^ (e1 + 1074)) by (apply Z.pow_pos_nonneg; lia).
  assert (Hstep : 2 * 2 ^ (e1 + 1074) <= 2 ^ (e2 + 1074)).
  { rewrite <- Z.pow_succ_r by lia. apply Z.pow_le_mono_r; lia. }
  assert (H53 : 2 ^ 53 = 2 * 2 ^ 52) by reflexivity.
  nia.
Qed.

Lemma compare_cont_eq (m1 m2 : positive) :
  Pos.compare_cont Eq m1 m2 = (Zpos m1 ?= Zpos m2).
Proof. reflexivity. Qed.

(** On finite floats [<] is the order of the exact values. *)
Lemma ltb_exact (x y : float) (a b : Z) :
  exact_scaled x = Some a -> exact_scaled y = Some b ->
  (x <? y)%float = (a <? b).
Proof.
  unfold exact_scaled. rewrite ltb_spec. unfold SFltb.
  destruct (Prim2SF x) as [sx| | |sx mx ex] eqn:Ex; try discriminate;
    destruct (Prim2SF y) as [sy| | |sy my ey] eqn:Ey; try discriminate;
    intros [= <-] [= <-]; cbn [SFcompare].
  - reflexivity.
  - apply finite_shape in Ey as (He & _ & _).
    assert (0 < Zpos my * 2 ^ (ey + 1074)) by (apply Z.mul_pos_pos; [lia|apply Z.pow_pos_nonneg; lia]).
    destruct sy; cbn [cond_Zopp]; symmetry; [apply Z.ltb_ge|apply Z.ltb_lt]; lia.
  - apply finite_shape in Ex as (He & _ & _).
    assert (0 < Zpos mx * 2 ^ (ex + 1074)) by (apply Z.mul_pos_pos; [lia|apply Z.pow_pos_nonneg; lia]).
    destruct sx; cbn [cond_Zopp]; symmetry; [apply Z.ltb_lt|apply Z.ltb_ge]; lia.
  - apply finite_shape in Ex as (Hex & Hmx & Hnx).
    apply finite_shape in Ey as (Hey & Hmy & Hny).
    assert (Px : 0 < Zpos mx * 2 ^ (ex + 1074))
      by (apply Z.mul_pos_pos; [lia|apply Z.pow_pos_nonneg; lia]).
    assert (Py : 0 < Zpos my * 2 ^ (ey + 1074))
      by (apply Z.mul_pos_pos; [lia|apply Z.pow_pos_nonneg; lia]).
    assert (Hcmp : forall m1 m2 e1 e2,
              -1074 <= e1 -> -1074 <= e2 ->
              Zpos m1 < 2 ^ 53 -> Zpos m2 < 2 ^ 53 ->
              (-1074 < e1 -> 2 ^ 52 <= Zpos m1) -> (-1074 < e2 -> 2 ^ 52 <= Zpos m2) ->
              match e1 ?= e2 with
              | Eq => Pos.compare_cont Eq m1 m2
              | Lt => Lt
              | Gt => Gt
              end = (Zpos m1 * 2 ^ (e1 + 1074) ?= Zpos m2 * 2 ^ (e2 + 1074))).
    { intros m1 m2 e1 e2 H1 H2 B1 B2 N1 N2.
      destruct (Z.compare_spec e1 e2) as [->|Hlt|Hgt].
      - rewrite compare_cont_eq. symmetry.
        assert (0 < 2 ^ (e2 + 1074)) by (apply Z.pow_pos_nonneg; lia).
        destruct (Z.compare_spec (Zpos m1) (Zpos m2)) as [Heq|Hl|Hg].
        + rewrite Heq. apply Z.compare_refl.
        + apply Z.compare_lt_iff. nia.
        + apply Z.compare_gt_iff. nia.
      - symmetry. apply Z.compare_lt_iff. apply scaled_lt; auto. apply N2. lia.
      - symmetry. apply Z.compare_gt_iff. apply scaled_lt; auto. apply N1. lia. }
    specialize (Hcmp mx my ex ey Hex Hey Hmx Hmy Hnx Hny).
    set (X := Zpos mx * 2 ^ (ex + 1074)) in *.
    set (Y := Zpos my * 2 ^ (ey + 1074)) in *.
    destruct sx, sy; cbn [cond_Zopp].
    + replace (match ex ?= ey with
               | Eq => CompOpp (Pos.compare_cont Eq mx my)
               | Lt => Gt
               | Gt => Lt
               end)
        with (CompOpp (match ex ?= ey with
                       | Eq => Pos.compare_cont Eq mx my
                       | Lt => Lt
                       | Gt => Gt
                       end)) by (destruct (ex ?= ey); reflexivity).
      rewrite Hcmp.
      destruct (Z.compare_spec X Y); cbn [CompOpp]; symmetry;
        [apply Z.ltb_ge|apply Z.ltb_ge|apply Z.ltb_lt]; lia.
    + symmetry. apply Z.ltb_lt. lia.
    + symmetry. apply Z.ltb_ge. lia.
    + rewrite Hcmp.
      destruct (Z.compare_spec X Y); symmetry;
        [apply Z.ltb_ge|apply Z.ltb_lt|apply Z.ltb_ge]; lia.
Qed.

Lemma exact_not_nan (x : float) (k : Z) :
  exact_scaled x = Some k -> float_is_nan x = false.
Proof.
  unfold exact_scaled, float_is_nan. destruct (Prim2SF x); intros H; congruence.
Qed.

Lemma mapM_exact_Forall (data : list float) (exact : list Z) :
  mapM exact_scaled data = Some exact ->
  Forall (fun x => is_Some (exact_scaled x)) data
  /\ Forall (fun x => float_is_nan x = false) data
  /\ length exact = length data.
Proof.
  intros H. apply mapM_Some in H.
  split; [|split].
  - induction H as [|x k l ks Hx _ IH]; constructor; eauto.
  - induction H as [|x k l ks Hx _ IH]; constructor; eauto using exact_not_nan.
  - symmetry. eapply Forall2_length. exact H.
Qed.

Lemma not_less (x y : float) (kx ky : Z) :
  exact_scaled x = Some kx -> exact_scaled y = Some ky ->
  (y <? x)%float = false <-> kx <= ky.
Proof.
  intros Hx Hy. rewrite (ltb_exact y x ky kx Hy Hx). rewrite Z.ltb_ge. reflexivity.
Qed.

(** *** [sorted] *)

Lemma insert_sorted_ascending (x : float) (l : list float) :
  Forall (fun z => is_Some (exact_scaled z)) (x :: l) ->
  StronglySorted (fun a b => (b <? a)%float = false) l ->
  StronglySorted (fun a b => (b <? a)%float = false) (insert_sorted x l).
Proof.
  intros Hfin Hl. apply Forall_cons in Hfin as [[kx Hx] Hfin].
  induction Hl as [|y t Ht IH Hy]; cbn.
  - repeat constructor.
  - apply Forall_cons in Hfin as [[ky Hky] Hfin].
    destruct (x <? y)%float eqn:E.
    + constructor; [constructor; assumption|].
      rewrite (ltb_exact x y kx ky Hx Hky) in E. apply Z.ltb_lt in E.
      constructor.
      * apply (not_less x y kx ky Hx Hky). lia.
      * rewrite Forall_forall in Hy, Hfin |- *. intros z Hz.
        destruct (Hfin z Hz) as [kz Hkz].
        apply (not_less x z kx kz Hx Hkz).
        pose proof (proj1 (not_less y z ky kz Hky Hkz) (Hy z Hz)). lia.
    + constructor; [apply IH; exact Hfin|].
      rewrite Forall_forall in Hy |- *. intros z Hz.
      rewrite insert_sorted_perm in Hz. apply elem_of_cons in Hz as [->|Hz].
      * exact E.
      * apply Hy. exact Hz.
Qed.

Lemma stable_sort_ascending (data : list float) :
  Forall (fun z => is_Some (exact_scaled z)) data ->
  StronglySorted (fun a b => (b <? a)%float = false) (stable_sort data).
Proof.
  unfold stable_sort. intros Hfin.
  assert (H : forall acc,
            Forall (fun z => is_Some (exact_scaled z)) acc ->
            StronglySorted (fun a b => (b <? a)%float = false) acc ->
            StronglySorted (fun a b => (b <? a)%float = false)
              (fold_left (fun acc x => insert_sorted x acc) data acc)).
  { induction Hfin as [|x t Hx Ht IH]; intros acc Hacc Hs; cbn; [exact Hs|].
    apply IH.
    - eapply Forall_forall. intros z Hz. rewrite insert_sorted_perm in Hz.
      apply elem_of_cons in Hz as [->|Hz]; [exact Hx|].
      rewrite Forall_forall in Hacc. auto.
    - apply insert_sorted_ascending; [constructor; assumption|exact Hs]. }
  apply H; constructor.
Qed.

(** *** [min] and [max] *)

Lemma fold_pick (f : float -> float -> bool) (t : list float) : forall x,
  In (fold_left (fun m y => if f y m then y else m) t x) (x :: t).
Proof.
  induction t as [|y t IH]; intros x; cbn [fold_left]; [left; reflexivity|].
  destruct (f y x).
  - right. apply IH.
  - destruct (IH x) as [H|H]; [left; exact H|right; right; exact H].
Qed.

Lemma fold_least (t : list float) : forall (x : float) (kx : Z),
  exact_scaled x = Some kx ->
  Forall (fun z => is_Some (exact_scaled z)) t ->
  exists kr,
    exact_scaled (fold_left (fun m y => if (y <? m)%float then y else m) t x) = Some kr
    /\ kr <= kx
    /\ Forall (fun z => forall kz, exact_scaled z = Some kz -> kr <= kz) t.
Proof.
  induction t as [|y t IH]; intros x kx Hx Hfin; cbn [fold_left].
  - exists kx. split; [exact Hx|]. split; [lia|constructor].
  - apply Forall_cons in Hfin as [[ky Hy] Hfin].
    destruct (y <? x)%float eqn:E.
    + rewrite (ltb_exact y x ky kx Hy Hx) in E. apply Z.ltb_lt in E.
      destruct (IH y ky Hy Hfin) as (kr & Hr & Hle & Hall).
      exists kr. split; [exact Hr|]. split; [lia|].
      constructor; [|exact Hall]. intros kz Hz. rewrite Hy in Hz. injection Hz as <-. lia.
    + rewrite (ltb_exact y x ky kx Hy Hx) in E. apply Z.ltb_ge in E.
      destruct (IH x kx Hx Hfin) as (kr & Hr & Hle & Hall).
      exists kr. split; [exact Hr|]. split; [lia|].
      constructor; [|exact Hall]. intros kz Hz. rewrite Hy in Hz. injection Hz as <-. lia.
Qed.

Lemma fold_greatest (t : list float) : forall (x : float) (kx : Z),
  exact_scaled x = Some kx ->
  Forall (fun z => is_Some (exact_scaled z)) t ->
  exists kr,
    exact_scaled (fold_left (fun m y => if (m <? y)%float then y else m) t x) = Some kr
    /\ kx <= kr
    /\ Forall (fun z => forall kz, exact_scaled z = Some kz -> kz <= kr) t.
Proof.
  induction t as [|y t IH]; intros x kx Hx Hfin; cbn [fold_left].
  - exists kx. split; [exact Hx|]. split; [lia|constructor].
  - apply Forall_cons in Hfin as [[ky Hy] Hfin].
    destruct (x <? y)%float eqn:E.
    + rewrite (ltb_exact x y kx ky Hx Hy) in E. apply Z.ltb_lt in E.
      destruct (IH y ky Hy Hfin) as (kr & Hr & Hle & Hall).
      exists kr. split; [exact Hr|]. split; [lia|].
      constructor; [|exact Hall]. intros kz Hz. rewrite Hy in Hz. injection Hz as <-. lia.
    + rewrite (ltb_exact x y kx ky Hx Hy) in E. apply Z.ltb_ge in E.
      destruct (IH x kx Hx Hfin) as (kr & Hr & Hle & Hall).
      exists kr. split; [exact Hr|]. split; [lia|].
      constructor; [|exact Hall]. intros kz Hz. rewrite Hy in Hz. injection Hz as <-. lia.
Qed.

(** No datum is below the minimum, none above the maximum. *)
Lemma py_min_least (times : list float) (m : float) :
  Forall (fun z => is_Some (exact_scaled z)) times ->
  py_min times = Ok m ->
  In m times /\ Forall (fun x => (x <? m)%float = false) times.
Proof.
  destruct times as [|x t]; [discriminate|]. intros Hfin [= <-].
  split; [apply (fold_pick (fun y m => (y <? m)%float))|].
  apply Forall_cons in Hfin as [[kx Hx] Hfin].
  destruct (fold_least t x kx Hx Hfin) as (kr & Hr & Hle & Hall).
  constructor.
  - apply (not_less _ _ kr kx Hr Hx). exact Hle.
  - rewrite Forall_forall in Hall, Hfin |- *. intros z Hz.
    destruct (Hfin z Hz) as [kz Hkz].
    apply (not_less _ _ kr kz Hr Hkz). exact (Hall z Hz kz Hkz).
Qed.

Lemma py_max_greatest (times : list float) (m : float) :
  Forall (fun z => is_Some (exact_scaled z)) times ->
  py_max times = Ok m ->
  In m times /\ Forall (fun x => (m <? x)%float = false) times.
Proof.
  destruct times as [|x t]; [discriminate|]. intros Hfin [= <-].
  split; [apply (fold_pick (fun y m => (m <? y)%float))|].
  apply Forall_cons in Hfin as [[kx Hx] Hfin].
  destruct (fold_greatest t x kx Hx Hfin) as (kr & Hr & Hle & Hall).
  constructor.
  - apply (not_less _ _ kx kr Hx Hr). exact Hle.
  - rewrite Forall_forall in Hall, Hfin |- *. intros z Hz.
    destruct (Hfin z Hz) as [kz Hkz].
    apply (not_less _ _ kz kr Hkz Hr). exact (Hall z Hz kz Hkz).
Qed.

(** *** The summary *)

Section Summaries.
Context {RT : Runtime}.

Lemma sorted_exact (data : list float) (exact : list Z) :
  mapM exact_scaled data = Some exact -> sorted data = stable_sort data.
Proof.
  intros H. apply sorted_stable. apply mapM_exact_Forall in H. tauto.
Qed.

Lemma median_returns (times : list float) :
  times <> [] ->
  statistics.median times
  = Ok (if Nat.eqb (length times mod 2) 1
        then nth (length times / 2) (sorted times) 0%float
        else (nth (length times / 2 - 1) (sorted times) 0
              + nth (length times / 2) (sorted times) 0) / 2)%float.
Proof.
  intros Hne. unfold statistics.median. cbv zeta. rewrite (Permutation_length (sorted_perm times)).
  destruct times as [|x t]; [congruence|]. cbn [length Nat.eqb].
  destruct (Nat.eqb _ 1); reflexivity.
Qed.

(** A summary that is returned counts the data, and there is none for the
    empty series only. *)
Lemma compute_statistics_count (times : list float) (m : option stats) :
  compute_statistics times = Ok m ->
  (m = None <-> times = []) /\ (forall s, m = Some s -> count s = length times).
Proof.
  unfold compute_statistics. destruct times as [|x t].
  - intros [= <-]. split; [tauto|discriminate].
  - intros H.
    destruct (statistics.mean (x :: t)); cbn [bind] in H; [|discriminate].
    destruct (statistics.median (x :: t)); cbn [bind] in H; [|discriminate].
    destruct (py_min (x :: t)); cbn [bind] in H; [|discriminate].
    destruct (py_max (x :: t)); cbn [bind] in H; [|discriminate].
    destruct (if (1 <? length (x :: t))%nat then _ else _); cbn [bind] in H;
      [|discriminate].
    injection H as <-. split; [split; discriminate|].
    intros s [= <-]. reflexivity.
Qed.

(** C6 (amended). [compute_statistics] returns nothing exactly for the
    empty series.  For a series of finite values that is not empty, and
    whose sample standard deviation can be written as a float when there
    are two data or more, it returns the count, the exact sum divided by
    the count and rounded once, the median of the data in ascending order
    (the middle value, or the average of the two middle values of an even
    number), the least and the greatest datum, and the square root of the
    sample variance (divisor n - 1), 0.0 for a single datum.  With two
    data or more it raises when the standard deviation is too large for
    a float, and when [inf] or [nan] is among the data.  [5.0] gives count
    1, mean, median, min and max 5.0, and standard deviation 0.0;
    [1.0, 2.0, 3.0, 4.0] gives mean and median 2.5 and standard deviation
    1.2909944487358056; [3.0, 1.0, 2.0] gives median 2.0. *)
Theorem compute_statistics_summary :
  (forall times, compute_statistics times = Ok None <-> times = [])
  /\ (forall times exact,
        times <> [] ->
        mapM exact_scaled times = Some exact ->
        (length times = 1%nat
         \/ exists deviation, statistics.sample_deviation exact = Ok deviation) ->
        exists s,
          compute_statistics times = Ok (Some s)
          /\ count s = length times
          /\ mean s = float_of_ratio (sum_Z exact) (Z.of_nat (length times) * 2 ^ 1074)
          /\ sorted times ≡ₚ times
          /\ StronglySorted (fun x y => (y <? x)%float = false) (sorted times)
          /\ median s
             = (if Nat.eqb (length times mod 2) 1
                then nth (length times / 2) (sorted times) 0%float
                else (nth (length times / 2 - 1) (sorted times) 0
                      + nth (length times / 2) (sorted times) 0) / 2)%float
          /\ (In (min s) times /\ Forall (fun x => (x <? min s)%float = false) times)
          /\ (In (max s) times /\ Forall (fun x => (max s <? x)%float = false) times)
          /\ (length times = 1%nat -> std_dev s = 0%float)
          /\ ((1 < length times)%nat ->
              statistics.sample_deviation exact = Ok (std_dev s)))
  /\ (forall exact,
        statistics.sample_deviation exact
        = let n := Z.of_nat (length exact) in
          let sx := sum_Z exact in
          let sxx := sum_Z (map (fun v => v * v) exact) in
          let g := Z.gcd (n * sxx - sx * sx) (n * (n - 1) * 2 ^ 2148) in
          statistics.float_sqrt_of_frac ((n * sxx - sx * sx) / g)
                                        (n * (n - 1) * 2 ^ 2148 / g))
  /\ (forall times exact e,
        (1 < length times)%nat ->
        mapM exact_scaled times = Some exact ->
        statistics.sample_deviation exact = Raise e ->
        compute_statistics times = Raise e)
  /\ (forall times,
        (1 < length times)%nat ->
        mapM exact_scaled times = None ->
        compute_statistics times = Raise AttributeError)
  /\ compute_statistics [5%float]
     = Ok (Some {| count := 1; mean := 5; median := 5; min := 5; max := 5;
                   std_dev := 0 |})
  /\ compute_statistics [1%float; 2%float; 3%float; 4%float]
     = Ok (Some {| count := 4; mean := 2.5; median := 2.5; min := 1; max := 4;
                   std_dev := 0x1.4a7e9cb8a3491p+0 |})
  /\ compute_statistics [3%float; 1%float; 2%float]
     = Ok (Some {| count := 3; mean := 2; median := 2; min := 1; max := 3;
                   std_dev := 1 |}).
Proof.
  assert (Hmean : forall times exact,
            times <> [] -> mapM exact_scaled times = Some exact ->
            statistics.mean times
            = Ok (float_of_ratio (sum_Z exact) (Z.of_nat (length times) * 2 ^ 1074))).
  { intros times exact Hne Hexact. unfold statistics.mean.
    destruct times as [|x t]; [congruence|]. cbv zeta. rewrite Hexact. reflexivity. }
  assert (Hmean' : forall times, times <> [] -> exists m, statistics.mean times = Ok m).
  { intros times Hne. unfold statistics.mean.
    destruct times as [|x t]; [congruence|]. cbv zeta.
    destruct (mapM exact_scaled (x :: t)); eauto. }
  assert (Hstdev : forall times exact,
            (1 < length times)%nat -> mapM exact_scaled times = Some exact ->
            statistics.stdev times = statistics.sample_deviation exact).
  { intros times exact Hlen Hexact. unfold statistics.stdev.
    assert ((length times <? 2)%nat = false) as -> by (apply Nat.ltb_ge; lia).
    rewrite Hexact. reflexivity. }
  assert (Hexample : forall data,
            Forall (fun x => float_is_nan x = false) data ->
            compute_statistics data
            = match data with
              | [] => Ok None
              | _ =>
                try! mean_ := statistics.mean data in
                try! median_ :=
                  (let data := stable_sort data in
                   let n := length data in
                   if Nat.eqb n 0 then Raise StatisticsError
                   else if Nat.eqb (n mod 2) 1 then Ok (nth (n / 2) data 0%float)
                   else
                     let i := (n / 2)%nat in
                     Ok ((nth (i - 1) data 0%float + nth i data 0%float) / 2)%float) in
                try! min_ := py_min data in
                try! max_ := py_max data in
                try! std_dev_ := if (1 <? length data)%nat then statistics.stdev data
                                 else Ok 0%float in
                Ok (Some {| count := length data; mean := mean_; median := median_;
                            min := min_; max := max_; std_dev := std_dev_ |})
              end).
  { intros data Hdata. unfold compute_statistics, statistics.median.
    rewrite (sorted_stable data Hdata). reflexivity. }
  split; [|split; [|split; [|split; [|split; [|split; [|split]]]]]].
  - intros times. split.
    + intros H. apply compute_statistics_count in H as [Hnone _]. tauto.
    + intros ->. reflexivity.
  - intros times exact Hne Hexact Hdev.
    pose proof (mapM_exact_Forall _ _ Hexact) as (Hfin & Hnan & Hlen).
    pose proof (sorted_exact _ _ Hexact) as Hsorted.
    destruct (py_min times) as [mn|] eqn:Hmin;
      [|destruct times; [congruence|discriminate]].
    destruct (py_max times) as [mx|] eqn:Hmax;
      [|destruct times; [congruence|discriminate]].
    assert (Hsd : exists sd,
               (if (1 <? length times)%nat then statistics.stdev times else Ok 0%float)
               = Ok sd
               /\ (length times = 1%nat -> sd = 0%float)
               /\ ((1 < length times)%nat -> statistics.sample_deviation exact = Ok sd)).
    { destruct (1 <? length times)%nat eqn:E.
      - apply Nat.ltb_lt in E. destruct Hdev as [Hone|[sd Hsd]]; [lia|].
        exists sd. rewrite (Hstdev _ _ E Hexact). split; [exact Hsd|]. split; [lia|auto].
      - apply Nat.ltb_ge in E. exists 0%float. split; [reflexivity|].
        split; [reflexivity|lia]. }
    destruct Hsd as (sd & Hsd & Hone & Hmany).
    eexists {| count := length times; mean := _; median := _; min := mn; max := mx;
               std_dev := sd |}.
    split.
    { unfold compute_statistics. destruct times as [|x t]; [congruence|].
      rewrite (Hmean _ _ Hne Hexact), (median_returns _ Hne), Hmin, Hmax. cbn [bind].
      rewrite Hsd. cbn [bind]. reflexivity. }
    cbn [count mean median min max std_dev].
    split; [reflexivity|]. split; [reflexivity|].
    split; [rewrite Hsorted; apply stable_sort_perm|].
    split; [rewrite Hsorted; apply stable_sort_ascending; exact Hfin|].
    split; [reflexivity|].
    split; [exact (py_min_least _ _ Hfin Hmin)|].
    split; [exact (py_max_greatest _ _ Hfin Hmax)|].
    split; [exact Hone|exact Hmany].
  - intros exact. reflexivity.
  - intros times exact e Hlen Hexact Hraise.
    assert (Hne : times <> []) by (intros ->; cbn in Hlen; lia).
    unfold compute_statistics. destruct times as [|x t]; [congruence|].
    rewrite (Hmean _ _ Hne Hexact), (median_returns _ Hne). cbn [bind py_min py_max].
    apply Nat.ltb_lt in Hlen as Hlt. rewrite Hlt.
    rewrite (Hstdev _ _ Hlen Hexact), Hraise. reflexivity.
  - intros times Hlen Hexact.
    assert (Hne : times <> []) by (intros ->; cbn in Hlen; lia).
    destruct (Hmean' _ Hne) as [m Hm].
    unfold compute_statistics. destruct times as [|x t]; [congruence|].
    rewrite Hm, (median_returns _ Hne). cbn [bind py_min py_max].
    apply Nat.ltb_lt in Hlen as Hlt. rewrite Hlt.
    unfold statistics.stdev.
    assert ((length (x :: t) <? 2)%nat = false) as -> by (apply Nat.ltb_ge; lia).
    rewrite Hexact. reflexivity.
  - rewrite Hexample by (repeat constructor). vm_compute. reflexivity.
  - rewrite Hexample by (repeat constructor). vm_compute. reflexivity.
  - rewrite Hexample by (repeat constructor). vm_compute. reflexivity.
Qed.

(** X23. The minimum and the maximum of a summary are data of the series,
    and its count is at least 1. *)
Theorem compute_statistics_extremes (times : list float) (s : stats) :
  compute_statistics times = Ok (Some s) ->
  In (min s) times /\ In (max s) times /\ (1 <= count s)%nat.
Proof.
  unfold compute_statistics. destruct times as [|x t]; [discriminate|].
  intros H.
  destruct (statistics.mean (x :: t)); cbn [bind] in H; [|discriminate].
  destruct (statistics.median (x :: t)); cbn [bind] in H; [|discriminate].
  cbn [py_min py_max bind] in H.
  destruct (if (1 <? length (x :: t))%nat then _ else _); cbn [bind] in H; [|discriminate].
  injection H as <-. cbn [min max count length]. split; [|split; [|lia]].
  - apply (fold_pick (fun y m => (y <? m)%float)).
  - apply (fold_pick (fun y m => (m <? y)%float)).
Qed.

End Summaries.

(** ** The block range in the second pass *)

Section ExtractionFacts.
Context {RT : Runtime}.

Lemma in_range_inverted (first_block last_block n : Z) :
  last_block < first_block -> in_range (Some (first_block, last_block)) n = false.
Proof.
  intros Hlt. unfold in_range.
  destruct (first_block <=? n) eqn:Ha; [|reflexivity].
  destruct (n <=? last_block) eqn:Hb; [|reflexivity].
  apply Z.leb_le in Ha. apply Z.leb_le in Hb. lia.
Qed.

(** What a "Built payload" line leaves alone. *)
Lemma on_built_payload_frame r ts clean st st' :
  on_built_payload r ts clean st = Ok st' ->
  explicit_state_root_times st' = explicit_state_root_times st
  /\ payload_to_received_times st' = payload_to_received_times st
  /\ block_added_times st' = block_added_times st.
Proof.
  unfold on_built_payload. intros H. split_run; cbn; auto.
Qed.

Lemma on_received_block_frame r ts clean st st' :
  on_received_block r ts clean st = Ok st' ->
  explicit_state_root_times st' = explicit_state_root_times st
  /\ build_times st' = build_times st
  /\ block_added_times st' = block_added_times st.
Proof.
  unfold on_received_block. intros H. split_run; cbn; auto.
Qed.

Lemma on_block_added_frame r clean st st' :
  on_block_added r clean st = Ok st' ->
  explicit_state_root_times st' = explicit_state_root_times st
  /\ build_times st' = build_times st
  /\ payload_to_received_times st' = payload_to_received_times st.
Proof.
  unfold on_block_added. intros H. split_run; cbn; auto.
Qed.

Lemma on_state_root_frame clean st st' :
  on_state_root clean st = Ok st' ->
  build_times st' = build_times st
  /\ payload_to_received_times st' = payload_to_received_times st
  /\ block_added_times st' = block_added_times st.
Proof.
  unfold on_state_root. intros H. split_run; cbn; auto.
Qed.


(** A returning run of the loop body, by the branch that the line takes. *)
Lemma process_line_cases r line st st' :
  process_line r line st = Ok st' ->
  exists ts, parse_timestamp line = Ok ts /\
  let clean := strip_ansi_codes line in
  (contains built_marker clean = true /\ on_built_payload r ts clean st = Ok st')
  \/ (contains built_marker clean = false /\ contains received_marker clean = true
      /\ on_received_block r ts clean st = Ok st')
  \/ (contains built_marker clean = false /\ contains received_marker clean = false
      /\ contains state_root_marker clean = true /\ on_state_root clean st = Ok st')
  \/ (contains built_marker clean = false /\ contains received_marker clean = false
      /\ contains state_root_marker clean = false
      /\ contains block_added_marker clean = true /\ on_block_added r clean st = Ok st')
  \/ (contains built_marker clean = false /\ contains received_marker clean = false
      /\ contains state_root_marker clean = false
      /\ contains block_added_marker clean = false /\ st' = st).
Proof.
  unfold process_line. intros H.
  destruct (parse_timestamp line) as [ts|e]; cbn [bind] in H; [|discriminate].
  exists ts. split; [reflexivity|]. cbv zeta.
  destruct (contains built_marker _); [tauto|].
  destruct (contains received_marker _); [tauto|].
  destruct (contains state_root_marker _); [tauto|].
  destruct (contains block_added_marker _); [tauto|].
  injection H as <-. tauto.
Qed.

(** Under an inverted range the three filtered series stay empty. *)
Lemma process_line_inverted first_block last_block line st st' :
  last_block < first_block ->
  process_line (Some (first_block, last_block)) line st = Ok st' ->
  build_times st = [] /\ payload_to_received_times st = [] /\ block_added_times st = [] ->
  build_times st' = [] /\ payload_to_received_times st' = [] /\ block_added_times st' = [].
Proof.
  intros Hlt H (Hb & Hp & Ha).
  pose proof (in_range_inverted first_block last_block) as Hinv.
  apply process_line_cases in H as (ts & _ & H). cbv zeta in H.
  destruct H as [[_ H]|[(_ & _ & H)|[(_ & _ & _ & H)|[(_ & _ & _ & _ & H)|(_ & _ & _ & _ & ->)]]]].
  - unfold on_built_payload in H. split_run; cbn; auto;
      rewrite Hinv in * by assumption; discriminate.
  - unfold on_received_block in H. split_run; cbn; auto.
    rewrite Hinv, andb_false_r in * by assumption. discriminate.
  - apply on_state_root_frame in H as (-> & -> & ->). auto.
  - unfold on_block_added in H. split_run; cbn; auto;
      rewrite Hinv in * by assumption; discriminate.
  - auto.
Qed.

Lemma process_lines_inverted first_block last_block log_file : forall st st',
  last_block < first_block ->
  process_lines (Some (first_block, last_block)) log_file st = Ok st' ->
  build_times st = [] /\ payload_to_received_times st = [] /\ block_added_times st = [] ->
  build_times st' = [] /\ payload_to_received_times st' = [] /\ block_added_times st' = [].
Proof.
  induction log_file as [|line rest IH]; intros st st' Hlt H Hst; cbn in H.
  - injection H as <-. exact Hst.
  - destruct (process_line _ line st) as [st1|] eqn:Hline; cbn [bind] in H; [|discriminate].
    eapply IH; [exact Hlt|exact H|].
    eapply process_line_inverted; eauto.
Qed.


(** The loop body moves [explicit_state_root_times] the same way whatever
    the range and the rest of the state. *)
Lemma process_line_explicit r1 r2 line st1 st2 st1' st2' :
  process_line r1 line st1 = Ok st1' ->
  process_line r2 line st2 = Ok st2' ->
  explicit_state_root_times st1 = explicit_state_root_times st2 ->
  explicit_state_root_times st1' = explicit_state_root_times st2'.
Proof.
  intros H1 H2 Heq.
  apply process_line_cases in H1 as (ts1 & _ & H1).
  apply process_line_cases in H2 as (ts2 & _ & H2).
  cbv zeta in H1, H2.
  destruct H1 as [[C1 H1]|[(C1 & C2 & H1)|[(C1 & C2 & C3 & H1)
                 |[(C1 & C2 & C3 & C4 & H1)|(C1 & C2 & C3 & C4 & ->)]]]].
  all: destruct H2 as [[D1 H2]|[(D1 & D2 & H2)|[(D1 & D2 & D3 & H2)
                      |[(D1 & D2 & D3 & D4 & H2)|(D1 & D2 & D3 & D4 & ->)]]]].
  all: try congruence.
  - apply on_built_payload_frame in H1 as (-> & _).
    apply on_built_payload_frame in H2 as (-> & _). exact Heq.
  - apply on_received_block_frame in H1 as (-> & _).
    apply on_received_block_frame in H2 as (-> & _). exact Heq.
  - unfold on_state_root in H1, H2. split_run; cbn; congruence.
  - apply on_block_added_frame in H1 as (-> & _).
    apply on_block_added_frame in H2 as (-> & _). exact Heq.
Qed.

Lemma process_lines_explicit r1 r2 log_file : forall st1 st2 st1' st2',
  process_lines r1 log_file st1 = Ok st1' ->
  process_lines r2 log_file st2 = Ok st2' ->
  explicit_state_root_times st1 = explicit_state_root_times st2 ->
  explicit_state_root_times st1' = explicit_state_root_times st2'.
Proof.
  induction log_file as [|line rest IH]; intros st1 st2 st1' st2' H1 H2 Heq; cbn in H1, H2.
  - congruence.
  - destruct (process_line r1 line st1) as [m1|] eqn:L1; cbn [bind] in H1; [|discriminate].
    destruct (process_line r2 line st2) as [m2|] eqn:L2; cbn [bind] in H2; [|discriminate].
    eapply IH; [exact H1|exact H2|].
    eapply process_line_explicit; eauto.
Qed.

(** A line that the loop body survives without a range, it survives with
    any range and from any state. *)
Lemma process_line_returns r line st1 st1' st2 :
  process_line None line st1 = Ok st1' ->
  exists st2', process_line r line st2 = Ok st2'.
Proof.
  unfold process_line. intros H.
  destruct (parse_timestamp line) as [ts|]; cbn [bind] in *; [|discriminate].
  cbv zeta in *.
  destruct (contains built_marker _).
  { unfold on_built_payload in *.
    destruct (re_search parent_number_re _) as [pm|].
    - destruct (py_int (group pm 1)) as [n|].
      + destruct ts as [t|]; cbn [bind] in *.
        * destruct (negb (n + 1 =? 1)); cbn [bind] in *.
          all: destruct (re_search elapsed_re _) as [m|]; [|eauto].
          all: cbn [in_range] in H.
          all: destruct (in_range r (n + 1)); [|eauto].
          all: destruct (parse_time_to_ms (group m 1)) as [[x|]|];
            cbn [bind] in *; [eauto|eauto|discriminate].
        * destruct (re_search elapsed_re _) as [m|]; [|eauto].
          cbn [in_range] in H.
          destruct (in_range r (n + 1)); [|eauto].
          destruct (parse_time_to_ms (group m 1)) as [[x|]|];
            cbn [bind] in *; [eauto|eauto|discriminate].
      + destruct ts as [t|]; cbn [bind] in *; [discriminate|].
        destruct (re_search elapsed_re _); cbn [bind] in *; [discriminate|eauto].
    - destruct ts; cbn [bind]; destruct (re_search elapsed_re _); eauto. }
  destruct (contains received_marker _).
  { unfold on_received_block in *.
    destruct (re_search number_re _) as [g|]; [|eauto].
    destruct ts as [t|]; [|eauto].
    destruct (py_int (group g 1)) as [n|]; cbn [bind] in *; [|discriminate].
    destruct (built_payload_times st2 !! n) as [start|] eqn:E.
    - destruct (negb (n =? 1) && bool_decide (is_Some (Some start)) && in_range r n);
        eauto.
    - rewrite bool_decide_eq_false_2 by (intros [x Hx]; discriminate).
      rewrite andb_false_r. cbn. eauto. }
  destruct (contains state_root_marker _).
  { unfold on_state_root in *.
    destruct (re_search elapsed_re _) as [m|]; [|eauto].
    destruct (parse_time_to_ms (group m 1)) as [[x|]|];
      cbn [bind] in *; [eauto|eauto|discriminate]. }
  destruct (contains block_added_marker _); [|eauto].
  unfold on_block_added in *.
  destruct (re_search elapsed_re _) as [m|]; [|eauto].
  destruct (re_search number_re _) as [g|]; [|eauto].
  destruct (py_int (group g 1)) as [n|]; cbn [bind] in *; [|discriminate].
  cbn [in_range] in H.
  destruct (in_range r n); [|eauto].
  destruct (parse_time_to_ms (group m 1)) as [[x|]|];
    cbn [bind] in *; [eauto|eauto|discriminate].
Qed.

Lemma process_lines_returns r log_file : forall st1 st1' st2,
  process_lines None log_file st1 = Ok st1' ->
  exists st2', process_lines r log_file st2 = Ok st2'.
Proof.
  induction log_file as [|line rest IH]; intros st1 st1' st2 H; cbn in *; [eauto|].
  destruct (process_line None line st1) as [m1|] eqn:L1; cbn [bind] in H; [|discriminate].
  destruct (process_line_returns r line st1 m1 st2 L1) as [m2 L2].
  rewrite L2. cbn [bind]. eapply IH. exact H.
Qed.
(** One line appends at most one datum, to one series. *)
Lemma process_line_grows r line st st' :
  process_line r line st = Ok st' ->
  exists db de dp da,
    build_times st' = build_times st ++ db
    /\ explicit_state_root_times st' = explicit_state_root_times st ++ de
    /\ payload_to_received_times st' = payload_to_received_times st ++ dp
    /\ block_added_times st' = block_added_times st ++ da
    /\ (length db + length de + length dp + length da <= 1)%nat.
Proof.
  intros H. apply process_line_cases in H as (ts & _ & H). cbv zeta in H.
  destruct H as [[_ H]|[(_ & _ & H)|[(_ & _ & _ & H)|[(_ & _ & _ & _ & H)|(_ & _ & _ & _ & ->)]]]].
  - unfold on_built_payload in H. split_run; grow_done.
  - unfold on_received_block in H. split_run; grow_done.
  - unfold on_state_root in H. split_run; grow_done.
  - unfold on_block_added in H. split_run; grow_done.
  - grow_done.
Qed.

(** What a line appends to [build_times], [explicit_state_root_times] and
    [block_added_times], and whether it raises, does not depend on the
    state in which it is read. *)
Lemma process_line_any_state r line st1 st1' :
  process_line r line st1 = Ok st1' ->
  forall st2, exists st2',
    process_line r line st2 = Ok st2'
    /\ exists db de da,
         build_times st1' = build_times st1 ++ db
         /\ explicit_state_root_times st1' = explicit_state_root_times st1 ++ de
         /\ block_added_times st1' = block_added_times st1 ++ da
         /\ build_times st2' = build_times st2 ++ db
         /\ explicit_state_root_times st2' = explicit_state_root_times st2 ++ de
         /\ block_added_times st2' = block_added_times st2 ++ da.
Proof.
  unfold process_line. intros H st2.
  destruct (parse_timestamp line) as [ts|]; cbn [bind] in *; [|discriminate].
  cbv zeta in *.
  destruct (contains built_marker _).
  { unfold on_built_payload in *.
    destruct (re_search parent_number_re _) as [pm|].
    - destruct (py_int (group pm 1)) as [n|].
      + destruct ts as [t|]; cbn [bind] in *.
        * destruct (negb (n + 1 =? 1)); cbn [bind] in *.
          all: destruct (re_search elapsed_re _) as [m|];
            [|injection H as <-; same_done].
          all: destruct (in_range r (n + 1)); [|injection H as <-; same_done].
          all: destruct (parse_time_to_ms (group m 1)) as [[x|]|];
            cbn [bind] in *; [| |discriminate]; injection H as <-; same_done.
        * destruct (re_search elapsed_re _) as [m|]; [|injection H as <-; same_done].
          destruct (in_range r (n + 1)); [|injection H as <-; same_done].
          destruct (parse_time_to_ms (group m 1)) as [[x|]|];
            cbn [bind] in *; [| |discriminate]; injection H as <-; same_done.
      + destruct ts as [t|]; cbn [bind] in *; [discriminate|].
        destruct (re_search elapsed_re _); cbn [bind] in *;
          [discriminate|injection H as <-; same_done].
    - destruct ts; cbn [bind] in *; destruct (re_search elapsed_re _);
        injection H as <-; same_done. }
  destruct (contains received_marker _).
  { unfold on_received_block in *.
    destruct (re_search number_re _) as [g|]; [|injection H as <-; same_done].
    destruct ts as [t|]; [|injection H as <-; same_done].
    destruct (py_int (group g 1)) as [n|]; cbn [bind] in *; [|discriminate].
    assert (H2 : exists st2',
               (if negb (n =? 1) && bool_decide (is_Some (built_payload_times st2 !! n))
                   && in_range r n
                then match built_payload_times st2 !! n with
                     | Some start_time =>
                       Ok {| build_times := build_times st2;
                             explicit_state_root_times := explicit_state_root_times st2;
                             block_added_times := block_added_times st2;
                             payload_to_received_times :=
                               payload_to_received_times st2
                               ++ [elapsed_ms_between t start_time];
                             built_payload_times := delete n (built_payload_times st2) |}
                     | None => Raise KeyError
                     end
                else Ok st2) = Ok st2'
               /\ build_times st2' = build_times st2
               /\ explicit_state_root_times st2' = explicit_state_root_times st2
               /\ block_added_times st2' = block_added_times st2).
    { destruct (built_payload_times st2 !! n) as [start|] eqn:E.
      - destruct (negb (n =? 1) && bool_decide (is_Some (Some start)) && in_range r n);
          eexists; split; try reflexivity; cbn; auto.
      - rewrite bool_decide_eq_false_2 by (intros [x Hx]; discriminate).
        rewrite andb_false_r. cbn. eauto. }
    destruct H2 as (st2' & -> & E1 & E2 & E3).
    assert (H1 : build_times st1' = build_times st1
                 /\ explicit_state_root_times st1' = explicit_state_root_times st1
                 /\ block_added_times st1' = block_added_times st1).
    { split_run; cbn; auto. }
    destruct H1 as (F1 & F2 & F3).
    exists st2'. split; [reflexivity|]. exists [], [], [].
    rewrite !app_nil_r. auto 10. }
  destruct (contains state_root_marker _).
  { unfold on_state_root in *.
    destruct (re_search elapsed_re _) as [m|]; [|injection H as <-; same_done].
    destruct (parse_time_to_ms (group m 1)) as [[x|]|];
      cbn [bind] in *; [| |discriminate]; injection H as <-; same_done. }
  destruct (contains block_added_marker _); [|injection H as <-; same_done].
  unfold on_block_added in *.
  destruct (re_search elapsed_re _) as [m|]; [|injection H as <-; same_done].
  destruct (re_search number_re _) as [g|]; [|injection H as <-; same_done].
  destruct (py_int (group g 1)) as [n|]; cbn [bind] in *; [|discriminate].
  destruct (in_range r n); [|injection H as <-; same_done].
  destruct (parse_time_to_ms (group m 1)) as [[x|]|];
    cbn [bind] in *; [| |discriminate]; injection H as <-; same_done.
Qed.

Lemma process_lines_app r l1 : forall l2 st,
  process_lines r (l1 ++ l2) st
  = try! m := process_lines r l1 st in process_lines r l2 m.
Proof.
  induction l1 as [|line rest IH]; intros l2 st; cbn; [reflexivity|].
  destruct (process_line r line st); cbn [bind]; [apply IH|reflexivity].
Qed.

Lemma process_lines_grows r log_file : forall st st',
  process_lines r log_file st = Ok st' ->
  exists db de dp da,
    build_times st' = build_times st ++ db
    /\ explicit_state_root_times st' = explicit_state_root_times st ++ de
    /\ payload_to_received_times st' = payload_to_received_times st ++ dp
    /\ block_added_times st' = block_added_times st ++ da
    /\ (length db + length de + length dp + length da <= length log_file)%nat.
Proof.
  induction log_file as [|line rest IH]; intros st st' H; cbn in H.
  - injection H as <-. exists [], [], [], []. rewrite !app_nil_r. cbn. auto 10.
  - destruct (process_line r line st) as [m|] eqn:L; cbn [bind] in H; [|discriminate].
    apply process_line_grows in L as (b1 & e1 & p1 & a1 & B1 & E1 & P1 & A1 & N1).
    apply IH in H as (b2 & e2 & p2 & a2 & B2 & E2 & P2 & A2 & N2).
    exists (b1 ++ b2), (e1 ++ e2), (p1 ++ p2), (a1 ++ a2).
    rewrite B2, E2, P2, A2, B1, E1, P1, A1, !length_app, <- !app_assoc. cbn [length].
    repeat split; lia.
Qed.

Lemma process_lines_any_state r log_file : forall st1 st1',
  process_lines r log_file st1 = Ok st1' ->
  forall st2, exists st2',
    process_lines r log_file st2 = Ok st2'
    /\ exists db de da,
         build_times st1' = build_times st1 ++ db
         /\ explicit_state_root_times st1' = explicit_state_root_times st1 ++ de
         /\ block_added_times st1' = block_added_times st1 ++ da
         /\ build_times st2' = build_times st2 ++ db
         /\ explicit_state_root_times st2' = explicit_state_root_times st2 ++ de
         /\ block_added_times st2' = block_added_times st2 ++ da.
Proof.
  induction log_file as [|line rest IH]; intros st1 st1' H st2; cbn in H |- *.
  - injection H as <-. exists st2. split; [reflexivity|]. exists [], [], [].
    rewrite !app_nil_r. auto 10.
  - destruct (process_line r line st1) as [m1|] eqn:L; cbn [bind] in H; [|discriminate].
    destruct (process_line_any_state _ _ _ _ L st2)
      as (m2 & -> & b1 & e1 & a1 & B1 & E1 & A1 & B2 & E2 & A2).
    cbn [bind].
    destruct (IH _ _ H m2) as (st2' & -> & b & e & a & B1' & E1' & A1' & B2' & E2' & A2').
    exists st2'. split; [reflexivity|].
    exists (b1 ++ b), (e1 ++ e), (a1 ++ a).
    rewrite B1', E1', A1', B2', E2', A2', B1, E1, A1, B2, E2, A2, <- !app_assoc.
    auto 10.
Qed.

(** A line adds to a series only when it holds the marker of the series,
    and a latency only by consuming a pending payload. *)
Lemma process_line_marked r line st st' :
  process_line r line st = Ok st' ->
  (length (build_times st') <= length (build_times st) + marked built_marker line)%nat
  /\ (length (explicit_state_root_times st')
      <= length (explicit_state_root_times st) + marked state_root_marker line)%nat
  /\ (length (block_added_times st')
      <= length (block_added_times st) + marked block_added_marker line)%nat
  /\ (length (payload_to_received_times st')
      <= length (payload_to_received_times st) + marked received_marker line)%nat
  /\ (length (payload_to_received_times st') + size (built_payload_times st')
      <= length (payload_to_received_times st) + size (built_payload_times st)
         + marked built_marker line)%nat.
Proof.
  intros H. apply process_line_cases in H as (ts & _ & H). cbv zeta in H.
  unfold marked.
  destruct H as [[C1 H]|[(C1 & C2 & H)|[(C1 & C2 & C3 & H)
               |[(C1 & C2 & C3 & C4 & H)|(C1 & C2 & C3 & C4 & ->)]]]].
  - rewrite C1. unfold on_built_payload in H.
    split_run; fields; rewrite ?length_app, ?map_size_insert; fields;
      try destruct (built_payload_times st !! _); unfold id; repeat split; lia.
  - rewrite C1, C2. unfold on_received_block in H.
    split_run; fields; rewrite ?length_app; fields; try (repeat split; lia).
    rewrite map_size_delete.
    match goal with E : built_payload_times st !! _ = Some _ |- _ => rewrite E end.
    assert (0 < size (built_payload_times st))%nat.
    { destruct (decide (size (built_payload_times st) = 0%nat)) as [Hz|]; [|lia].
      apply map_size_empty_inv in Hz.
      match goal with E : built_payload_times st !! _ = Some _ |- _ =>
        rewrite Hz, lookup_empty in E; discriminate E end. }
    repeat split; lia.
  - rewrite C1, C2, C3. unfold on_state_root in H.
    split_run; fields; rewrite ?length_app; fields; repeat split; lia.
  - rewrite C1, C2, C3, C4. unfold on_block_added in H.
    split_run; fields; rewrite ?length_app; fields; repeat split; lia.
  - repeat split; lia.
Qed.

Lemma process_lines_marked r log_file : forall st st',
  process_lines r log_file st = Ok st' ->
  (length (build_times st') <= length (build_times st) + lines_with built_marker log_file)%nat
  /\ (length (explicit_state_root_times st')
      <= length (explicit_state_root_times st) + lines_with state_root_marker log_file)%nat
  /\ (length (block_added_times st')
      <= length (block_added_times st) + lines_with block_added_marker log_file)%nat
  /\ (length (payload_to_received_times st')
      <= length (payload_to_received_times st) + lines_with received_marker log_file)%nat
  /\ (length (payload_to_received_times st') + size (built_payload_times st')
      <= length (payload_to_received_times st) + size (built_payload_times st)
         + lines_with built_marker log_file)%nat.
Proof.
  induction log_file as [|line rest IH]; intros st st' H; cbn in H.
  - injection H as <-. unfold lines_with. rewrite filter_nil. cbn [length].
    repeat split; lia.
  - destruct (process_line r line st) as [m|] eqn:L; cbn [bind] in H; [|discriminate].
    apply process_line_marked in L. apply IH in H.
    rewrite !lines_with_cons. lia.
Qed.

(** Block 1 and below are never pending. *)
Lemma process_line_pending r line st st' :
  process_line r line st = Ok st' ->
  (forall k, k <= 1 -> built_payload_times st !! k = None) ->
  forall k, k <= 1 -> built_payload_times st' !! k = None.
Proof.
  intros H Hst k Hk. apply process_line_cases in H as (ts & _ & H). cbv zeta in H.
  destruct H as [[_ H]|[(_ & _ & H)|[(_ & _ & _ & H)|[(_ & _ & _ & _ & H)|(_ & _ & _ & _ & ->)]]]].
  - unfold on_built_payload in H. split_run; fields; auto.
    all: rewrite lookup_insert_ne; auto.
    all: match goal with E : py_int _ = Ok ?n |- _ => apply py_int_nonneg in E end.
    all: match goal with E : negb (_ =? 1) = true |- _ =>
           apply negb_true_iff, Z.eqb_neq in E end.
    all: lia.
  - unfold on_received_block in H. split_run; fields; auto.
    match goal with |- delete ?n _ !! _ = None =>
      destruct (decide (n = k)) as [->|Hne] end.
    + apply lookup_delete_eq.
    + rewrite lookup_delete_ne; auto.
  - unfold on_state_root in H. split_run; fields; auto.
  - unfold on_block_added in H. split_run; fields; auto.
  - auto.
Qed.

Lemma process_lines_pending r log_file : forall st st',
  process_lines r log_file st = Ok st' ->
  (forall k, k <= 1 -> built_payload_times st !! k = None) ->
  forall k, k <= 1 -> built_payload_times st' !! k = None.
Proof.
  induction log_file as [|line rest IH]; intros st st' H Hst; cbn in H.
  - injection H as <-. exact Hst.
  - destruct (process_line r line st) as [m|] eqn:L; cbn [bind] in H; [|discriminate].
    eapply IH; [exact H|]. eapply process_line_pending; eauto.
Qed.

(** The loop body under a range, beside the loop body without: on the
    blocks of the range the pending payloads agree, and what is appended
    under the range is appended without it. *)
Lemma process_line_range line sN sN' :
  process_line None line sN = Ok sN' ->
  forall r sR,
    (forall k, in_range r k = true ->
       built_payload_times sR !! k = built_payload_times sN !! k) ->
    exists sR',
      process_line r line sR = Ok sR'
      /\ (forall k, in_range r k = true ->
            built_payload_times sR' !! k = built_payload_times sN' !! k)
      /\ exists db dp da db' dp' da',
           build_times sN' = build_times sN ++ db
           /\ payload_to_received_times sN' = payload_to_received_times sN ++ dp
           /\ block_added_times sN' = block_added_times sN ++ da
           /\ build_times sR' = build_times sR ++ db'
           /\ payload_to_received_times sR' = payload_to_received_times sR ++ dp'
           /\ block_added_times sR' = block_added_times sR ++ da'
           /\ sublist db' db /\ sublist dp' dp /\ sublist da' da.
Proof.
  unfold process_line. intros H r sR Hinv.
  destruct (parse_timestamp line) as [ts|]; cbn [bind] in *; [|discriminate].
  cbv zeta in *.
  destruct (contains built_marker _).
  { unfold on_built_payload in *.
    destruct (re_search parent_number_re _) as [pm|].
    - destruct (py_int (group pm 1)) as [n|].
      + destruct ts as [t|]; cbn [bind] in *.
        * destruct (negb (n + 1 =? 1)); cbn [bind] in *.
          all: destruct (re_search elapsed_re _) as [m|];
            [|injection H as <-; range_done].
          all: cbn [in_range] in H.
          all: destruct (parse_time_to_ms (group m 1)) as [[x|]|];
            cbn [bind] in *; [| |discriminate]; injection H as <-.
          all: destruct (in_range r (n + 1)); cbn [bind]; range_done.
        * destruct (re_search elapsed_re _) as [m|]; [|injection H as <-; range_done].
          cbn [in_range] in H.
          destruct (parse_time_to_ms (group m 1)) as [[x|]|];
            cbn [bind] in *; [| |discriminate]; injection H as <-.
          all: destruct (in_range r (n + 1)); cbn [bind]; range_done.
      + destruct ts as [t|]; cbn [bind] in *; [discriminate|].
        destruct (re_search elapsed_re _); cbn [bind] in *;
          [discriminate|injection H as <-; range_done].
    - destruct ts; cbn [bind] in *; destruct (re_search elapsed_re _);
        injection H as <-; range_done. }
  destruct (contains received_marker _).
  { unfold on_received_block in *.
    destruct (re_search number_re _) as [g|]; [|injection H as <-; range_done].
    destruct ts as [t|]; [|injection H as <-; range_done].
    destruct (py_int (group g 1)) as [n|]; cbn [bind] in *; [|discriminate].
    cbn [in_range] in H. rewrite andb_true_r in H.
    destruct (in_range r n) eqn:Hr.
    - rewrite andb_true_r, (Hinv n Hr).
      destruct (built_payload_times sN !! n) as [start|] eqn:E.
      + destruct (negb (n =? 1) && bool_decide (is_Some (Some start)));
          injection H as <-; [|range_done].
        eexists; split; [reflexivity|]. split.
        * intros k Hk. fields. destruct (decide (n = k)) as [->|Hne].
          -- rewrite !lookup_delete_eq. reflexivity.
          -- rewrite !lookup_delete_ne by assumption. auto.
        * eexists _, _, _, _, _, _; fields.
          repeat (split; [first [reflexivity | symmetry; apply app_nil_r]|]).
          repeat split; reflexivity.
      + rewrite bool_decide_eq_false_2 in * by (intros [x Hx]; discriminate).
        rewrite andb_false_r in *. injection H as <-. range_done.
    - rewrite andb_false_r.
      destruct (built_payload_times sN !! n) as [start|] eqn:E.
      + destruct (negb (n =? 1) && bool_decide (is_Some (Some start)));
          injection H as <-; [|range_done].
        eexists; split; [reflexivity|]. split.
        * intros k Hk. fields. rewrite lookup_delete_ne by congruence. auto.
        * eexists _, _, _, _, _, _; fields.
          repeat (split; [first [reflexivity | symmetry; apply app_nil_r]|]).
          repeat split; first [reflexivity | apply sublist_nil_l].
      + rewrite bool_decide_eq_false_2 in * by (intros [x Hx]; discriminate).
        rewrite andb_false_r in *. injection H as <-. range_done. }
  destruct (contains state_root_marker _).
  { unfold on_state_root in *.
    destruct (re_search elapsed_re _) as [m|]; [|injection H as <-; range_done].
    destruct (parse_time_to_ms (group m 1)) as [[x|]|];
      cbn [bind] in *; [| |discriminate]; injection H as <-; range_done. }
  destruct (contains block_added_marker _); [|injection H as <-; range_done].
  unfold on_block_added in *.
  destruct (re_search elapsed_re _) as [m|]; [|injection H as <-; range_done].
  destruct (re_search number_re _) as [g|]; [|injection H as <-; range_done].
  destruct (py_int (group g 1)) as [n|]; cbn [bind] in *; [|discriminate].
  cbn [in_range] in H.
  destruct (parse_time_to_ms (group m 1)) as [[x|]|];
    cbn [bind] in *; [| |discriminate]; injection H as <-.
  all: destruct (in_range r n); cbn [bind]; range_done.
Qed.

Lemma process_lines_range log_file : forall sN sN',
  process_lines None log_file sN = Ok sN' ->
  forall r sR,
    (forall k, in_range r k = true ->
       built_payload_times sR !! k = built_payload_times sN !! k) ->
    exists sR',
      process_lines r log_file sR = Ok sR'
      /\ exists db dp da db' dp' da',
           build_times sN' = build_times sN ++ db
           /\ payload_to_received_times sN' = payload_to_received_times sN ++ dp
           /\ block_added_times sN' = block_added_times sN ++ da
           /\ build_times sR' = build_times sR ++ db'
           /\ payload_to_received_times sR' = payload_to_received_times sR ++ dp'
           /\ block_added_times sR' = block_added_times sR ++ da'
           /\ sublist db' db /\ sublist dp' dp /\ sublist da' da.
Proof.
  induction log_file as [|line rest IH]; intros sN sN' H r sR Hinv; cbn in H |- *.
  - injection H as <-. exists sR. split; [reflexivity|].
    exists [], [], [], [], [], []. rewrite !app_nil_r. auto 12.
  - destruct (process_line None line sN) as [mN|] eqn:L; cbn [bind] in H; [|discriminate].
    destruct (process_line_range _ _ _ L r sR Hinv)
      as (mR & -> & Hinv' & b1 & p1 & a1 & b1' & p1' & a1'
          & B1 & P1 & A1 & B1' & P1' & A1' & SB1 & SP1 & SA1).
    cbn [bind].
    destruct (IH _ _ H r mR Hinv')
      as (sR' & -> & b2 & p2 & a2 & b2' & p2' & a2'
          & B2 & P2 & A2 & B2' & P2' & A2' & SB2 & SP2 & SA2).
    exists sR'. split; [reflexivity|].
    exists (b1 ++ b2), (p1 ++ p2), (a1 ++ a2), (b1' ++ b2'), (p1' ++ p2'), (a1' ++ a2').
    rewrite B2, P2, A2, B2', P2', A2', B1, P1, A1, B1', P1', A1', <- !app_assoc.
    repeat split; try reflexivity; apply sublist_app; assumption.
Qed.

Lemma process_line_unmarked r line st st' :
  process_line r line st = Ok st' -> has_marker line = false -> st' = st.
Proof.
  intros H Hm. apply process_line_cases in H as (ts & _ & H). cbv zeta in H.
  unfold has_marker in Hm. cbv zeta in Hm.
  apply orb_false_elim in Hm as [Hm M4]. apply orb_false_elim in Hm as [Hm M3].
  apply orb_false_elim in Hm as [M1 M2].
  destruct H as [[C1 H]|[(C1 & C2 & H)|[(C1 & C2 & C3 & H)
               |[(C1 & C2 & C3 & C4 & H)|(C1 & C2 & C3 & C4 & ->)]]]];
    congruence.
Qed.

End ExtractionFacts.

Section SecondPass.
Context {RT : Runtime}.

(** C7 (amended). The series [explicit_state_root_times] returned by
    [parse_log_file] does not depend on the block range, as far as the
    passes return: when the pass without a range returns, the pass under
    any range returns as well, with the same series; two passes over a
    log that both return, under any two ranges or none, return the same
    series; and a line that reaches the "State root task finished" branch
    with an elapsed token that parses is appended whatever the range.
    The pass without a range need not return where the pass under a range
    does. *)
Theorem explicit_state_root_times_ignore_range (block_range : option (Z * Z)) :
  (forall log_file build explicit received added,
     parse_log_file log_file None = Ok (build, explicit, received, added) ->
     exists build' received' added',
       parse_log_file log_file block_range = Ok (build', explicit, received', added'))
  /\ (forall other log_file build explicit received added
             build' explicit' received' added',
        parse_log_file log_file block_range = Ok (build, explicit, received, added) ->
        parse_log_file log_file other = Ok (build', explicit', received', added') ->
        explicit' = explicit)
  /\ (forall line st ts m t,
        parse_timestamp line = Ok ts ->
        contains built_marker (strip_ansi_codes line) = false ->
        contains received_marker (strip_ansi_codes line) = false ->
        contains state_root_marker (strip_ansi_codes line) = true ->
        re_search elapsed_re (strip_ansi_codes line) = Some m ->
        parse_time_to_ms (group m 1) = Ok (Some t) ->
        exists st', process_line block_range line st = Ok st'
          /\ explicit_state_root_times st' = explicit_state_root_times st ++ [t]).
Proof.
  split; [|split].
  - intros log_file build explicit received added H.
    unfold parse_log_file in *.
    destruct (process_lines None log_file scan_start) as [s1|] eqn:E1;
      cbn [bind] in H; [|discriminate].
    destruct (process_lines_returns block_range log_file _ _ scan_start E1) as [s2 E2].
    rewrite E2. cbn [bind]. injection H as <- <- <- <-.
    rewrite (process_lines_explicit _ _ _ _ _ _ _ E1 E2 eq_refl).
    eauto.
  - intros other log_file build explicit received added
           build' explicit' received' added' H H'.
    unfold parse_log_file in *.
    destruct (process_lines block_range log_file scan_start) as [s1|] eqn:E1;
      cbn [bind] in H; [|discriminate].
    destruct (process_lines other log_file scan_start) as [s2|] eqn:E2;
      cbn [bind] in H'; [|discriminate].
    injection H as <- <- <- <-. injection H' as <- <- <- <-.
    exact (process_lines_explicit _ _ _ _ _ _ _ E2 E1 eq_refl).
  - intros line st ts m t Hts Hb Hr Hs Hm Ht.
    unfold process_line. rewrite Hts. cbn [bind]. cbv zeta.
    rewrite Hb, Hr, Hs. unfold on_state_root. rewrite Hm, Ht. cbn [bind].
    eexists. split; [reflexivity|]. reflexivity.
Qed.

(** C10. When the first pass collects at least three non-empty blocks whose
    first entry plus one exceeds the last entry minus one,
    [find_block_range] returns that inverted range; no block number lies
    in it; and a second pass under it returns empty [build_times],
    [payload_to_received_times] and [block_added_times]. *)
Theorem inverted_range_yields_nothing
    (log_file : list pystr) (blocks : list Z) (first_entry last_entry : Z) :
  collect_blocks 1000 log_file [] = Ok blocks ->
  (3 <= length blocks)%nat ->
  head blocks = Some first_entry ->
  last blocks = Some last_entry ->
  last_entry - 1 < first_entry + 1 ->
  find_block_range log_file = Ok (Some (first_entry + 1), Some (last_entry - 1))
  /\ (forall n, in_range (Some (first_entry + 1, last_entry - 1)) n = false)
  /\ (forall log build explicit received added,
        parse_log_file log (Some (first_entry + 1, last_entry - 1))
          = Ok (build, explicit, received, added) ->
        build = [] /\ received = [] /\ added = []).
Proof.
  intros Hblocks Hlen Hfirst Hlast Hinv. split; [|split].
  - unfold find_block_range, find_block_range_from. rewrite Hblocks. cbn [bind].
    unfold block_range_of. rewrite Hfirst, Hlast.
    destruct (3 <=? length blocks)%nat eqn:E; [reflexivity|].
    apply Nat.leb_gt in E. lia.
  - intros n. apply in_range_inverted. exact Hinv.
  - intros log build explicit received added H. unfold parse_log_file in H.
    destruct (process_lines _ log scan_start) as [st|] eqn:E; cbn [bind] in H; [|discriminate].
    injection H as <- <- <- <-.
    eapply process_lines_inverted; [exact Hinv|exact E|]. cbn. auto.
Qed.

(** C2 (amended). A "Built payload" line whose parent number is 0 never
    changes the pending-payload map, nor any series other than
    [build_times].  It leaves [build_times] alone when the active range
    excludes block 1; with no range, or a range that holds 1, its elapsed
    duration is appended as for any other block. *)
Theorem built_payload_of_block_one
    (block_range : option (Z * Z)) (line : pystr) (st st' : scan) (pm : list pystr) :
  contains built_marker (strip_ansi_codes line) = true ->
  re_search parent_number_re (strip_ansi_codes line) = Some pm ->
  py_int (group pm 1) = Ok 0 ->
  process_line block_range line st = Ok st' ->
  built_payload_times st' = built_payload_times st
  /\ explicit_state_root_times st' = explicit_state_root_times st
  /\ payload_to_received_times st' = payload_to_received_times st
  /\ block_added_times st' = block_added_times st
  /\ (in_range block_range 1 = false -> build_times st' = build_times st)
  /\ (in_range block_range 1 = true ->
      forall m t,
        re_search elapsed_re (strip_ansi_codes line) = Some m ->
        parse_time_to_ms (group m 1) = Ok (Some t) ->
        build_times st' = build_times st ++ [t]).
Proof.
  intros Hmark Hpm Hint H.
  apply process_line_cases in H as (ts & _ & H). cbv zeta in H.
  destruct H as [[_ H]|[(C & _)|[(C & _)|[(C & _)|(C & _)]]]]; try congruence.
  unfold on_built_payload in H. rewrite Hpm in H.
  assert (Hst : match ts with
                | Some ts0 =>
                    try! parent_number := py_int (group pm 1) in
                    if negb (parent_number + 1 =? 1)
                    then Ok {| build_times := build_times st;
                               explicit_state_root_times := explicit_state_root_times st;
                               block_added_times := block_added_times st;
                               payload_to_received_times := payload_to_received_times st;
                               built_payload_times :=
                                 <[parent_number + 1 := ts0]> (built_payload_times st) |}
                    else Ok st
                | None => Ok st
                end = Ok st).
  { destruct ts; [|reflexivity]. rewrite Hint. reflexivity. }
  rewrite Hst in H. cbn [bind] in H. rewrite Hint in H. cbn [bind] in H.
  change (0 + 1) with 1 in H.
  destruct (re_search elapsed_re (strip_ansi_codes line)) as [m|] eqn:Hm.
  - destruct (in_range block_range 1) eqn:Hr.
    + destruct (parse_time_to_ms (group m 1)) as [[t|]|] eqn:Ht; cbn [bind] in H;
        [| |discriminate]; injection H as <-; cbn; repeat split; try reflexivity;
        try discriminate; intros _ m' t' Hm' Ht'; congruence.
    + injection H as <-. repeat split; try reflexivity. discriminate.
  - injection H as <-. repeat split; try reflexivity. intros _ m t Hm'. discriminate.
Qed.

(** C9. A gas value with two dots stops the first pass, and an elapsed
    value with two dots stops the second pass, with [ValueError]. *)
Theorem malformed_number_is_fatal :
  find_block_range
    [text "Block added to canonical chain number=5 gas_used=1.2.3Kgas"]
    = Raise ValueError
  /\ parse_log_file [text "State root task finished elapsed=1.2.3ms"] None
    = Raise ValueError.
Proof. split; vm_compute; reflexivity. Qed.

(** X4. A receipt is measured once: when a "Received block" line has consumed
    its pending payload, the same line seen again changes nothing. *)
Theorem received_block_is_consumed
    (block_range : option (Z * Z)) (ts ts' : option datetime) (clean : pystr)
    (st st' : scan) :
  on_received_block block_range ts clean st = Ok st' ->
  st' = st
  \/ (exists n start_time elapsed_ms,
        built_payload_times st !! n = Some start_time
        /\ built_payload_times st' = delete n (built_payload_times st)
        /\ payload_to_received_times st' = payload_to_received_times st ++ [elapsed_ms]
        /\ on_received_block block_range ts' clean st' = Ok st').
Proof.
  unfold on_received_block. intros H.
  destruct (re_search number_re clean) as [g|] eqn:Hg; [|left; congruence].
  destruct ts as [t|]; [|left; congruence].
  destruct (py_int (group g 1)) as [n|] eqn:Hn; cbn [bind] in H; [|discriminate].
  destruct (negb (n =? 1) && _ && _) eqn:Hc; [|left; congruence].
  destruct (built_payload_times st !! n) as [start_time|] eqn:Hl in H; [|discriminate].
  injection H as <-. right. exists n, start_time, (elapsed_ms_between t start_time).
  split; [exact Hl|]. cbn. repeat split.
  destruct ts' as [t'|]; [|reflexivity].
  cbn. rewrite lookup_delete_eq.
  rewrite bool_decide_eq_false_2 by (intros [x Hx]; discriminate).
  rewrite andb_false_r. reflexivity.
Qed.

(** X2. [int] converts the digits that the [number] and [parent_number]
    patterns capture whenever there are at most 640 of them; it can raise
    only past the interpreter's limit on the length of a digit string. *)
Theorem captured_number_is_int (s : pystr) (g : list pystr) :
  re_search number_re s = Some g \/ re_search parent_number_re s = Some g ->
  (length (group g 1) <= 640)%nat ->
  exists n, py_int (group g 1) = Ok n.
Proof.
  intros [H|H] Hshort; apply digits_group_is_int in H as (ds & -> & Hint);
    cbn [group pred nth] in *; eauto.
Qed.


(** X1. A payload built and then received: once a "Built payload" line
    with a timestamp and a parent number n other than 0 has been read, a
    "Received block" line for block n + 1, with a timestamp and in the
    range, appends the time between the two timestamps to
    [payload_to_received_times], whatever was pending before, and block
    n + 1 is no longer pending; the other series stay as the first line
    left them. *)
Theorem built_then_received block_range built_line received_line st st1
    built_at received_at parent_match number_match parent_number :
  contains built_marker (strip_ansi_codes built_line) = true ->
  parse_timestamp built_line = Ok (Some built_at) ->
  re_search parent_number_re (strip_ansi_codes built_line) = Some parent_match ->
  py_int (group parent_match 1) = Ok parent_number ->
  parent_number <> 0 ->
  process_line block_range built_line st = Ok st1 ->
  contains built_marker (strip_ansi_codes received_line) = false ->
  contains received_marker (strip_ansi_codes received_line) = true ->
  parse_timestamp received_line = Ok (Some received_at) ->
  re_search number_re (strip_ansi_codes received_line) = Some number_match ->
  py_int (group number_match 1) = Ok (parent_number + 1) ->
  in_range block_range (parent_number + 1) = true ->
  exists st2,
    process_line block_range received_line st1 = Ok st2
    /\ payload_to_received_times st2
       = payload_to_received_times st ++ [elapsed_ms_between received_at built_at]
    /\ built_payload_times st2 !! (parent_number + 1) = None
    /\ build_times st2 = build_times st1
    /\ explicit_state_root_times st2 = explicit_state_root_times st
    /\ block_added_times st2 = block_added_times st.
Proof.
  intros Hb Hts Hpm Hint Hne Hl1 Hnb Hr Hts2 Hnm Hint2 Hrange.
  assert (Hpend : built_payload_times st1 !! (parent_number + 1) = Some built_at
                  /\ payload_to_received_times st1 = payload_to_received_times st
                  /\ explicit_state_root_times st1 = explicit_state_root_times st
                  /\ block_added_times st1 = block_added_times st).
  { unfold process_line in Hl1. rewrite Hts in Hl1. cbn [bind] in Hl1.
    cbv zeta in Hl1. rewrite Hb in Hl1. unfold on_built_payload in Hl1.
    rewrite Hpm, Hint in Hl1. cbn [bind] in Hl1.
    assert (Hneq : negb (parent_number + 1 =? 1) = true).
    { apply negb_true_iff, Z.eqb_neq. lia. }
    rewrite Hneq in Hl1. cbn [bind] in Hl1.
    split_run; fields; rewrite ?lookup_insert_eq; auto. }
  destruct Hpend as (Hpend & P & E & A).
  unfold process_line. rewrite Hts2. cbn [bind]. cbv zeta. rewrite Hnb, Hr.
  unfold on_received_block. rewrite Hnm, Hint2. cbn [bind].
  rewrite Hpend, Hrange.
  assert (Hneq : negb (parent_number + 1 =? 1) = true).
  { apply negb_true_iff, Z.eqb_neq. lia. }
  rewrite Hneq, bool_decide_eq_true_2 by eauto. cbn [andb].
  eexists. split; [reflexivity|]. fields.
  rewrite lookup_delete_eq, P, E, A. auto.
Qed.

(** X3. The four series that [parse_log_file] returns hold together at most
    as many data as the log has lines: a line adds at most one datum, to
    one series. *)
Theorem one_datum_per_line log_file block_range build explicit received added :
  parse_log_file log_file block_range = Ok (build, explicit, received, added) ->
  (length build + length explicit + length received + length added
   <= length log_file)%nat.
Proof.
  unfold parse_log_file. intros H.
  destruct (process_lines block_range log_file scan_start) as [st|] eqn:E;
    cbn [bind] in H; [|discriminate].
  injection H as <- <- <- <-.
  apply process_lines_grows in E as (b & e & p & a & -> & -> & -> & -> & N).
  cbn. exact N.
Qed.

(** X5. No series has more entries than the log has lines with its marker,
    and there are no more latencies than "Built payload" lines: a latency
    needs a payload built before. *)
Theorem series_bounded_by_marked_lines
    log_file block_range build explicit received added :
  parse_log_file log_file block_range = Ok (build, explicit, received, added) ->
  (length build <= lines_with built_marker log_file)%nat
  /\ (length explicit <= lines_with state_root_marker log_file)%nat
  /\ (length added <= lines_with block_added_marker log_file)%nat
  /\ (length received <= lines_with received_marker log_file)%nat
  /\ (length received <= lines_with built_marker log_file)%nat.
Proof.
  unfold parse_log_file. intros H.
  destruct (process_lines block_range log_file scan_start) as [st|] eqn:E;
    cbn [bind] in H; [|discriminate].
  injection H as <- <- <- <-.
  apply process_lines_marked in E. unfold scan_start in E. fields.
  rewrite map_size_empty in E. lia.
Qed.

(** X6. Splitting a log: when [parse_log_file] returns on a log in two
    parts it returns on each part; the build, explicit state root and
    block added series of the whole are those of the first part followed
    by those of the second, and the latencies of the whole start with
    those of the first part (a payload built in the first part can be
    received in the second). *)
Theorem parse_log_file_app l1 l2 block_range build explicit received added :
  parse_log_file (l1 ++ l2) block_range = Ok (build, explicit, received, added) ->
  exists build1 explicit1 received1 added1 build2 explicit2 received2 added2 later,
    parse_log_file l1 block_range = Ok (build1, explicit1, received1, added1)
    /\ parse_log_file l2 block_range = Ok (build2, explicit2, received2, added2)
    /\ build = build1 ++ build2
    /\ explicit = explicit1 ++ explicit2
    /\ added = added1 ++ added2
    /\ received = received1 ++ later.
Proof.
  unfold parse_log_file. rewrite process_lines_app. intros H.
  destruct (process_lines block_range l1 scan_start) as [m|] eqn:E1;
    cbn [bind] in H; [|discriminate].
  destruct (process_lines block_range l2 m) as [st|] eqn:E2;
    cbn [bind] in H; [|discriminate].
  injection H as <- <- <- <-.
  destruct (process_lines_any_state _ _ _ _ E2 scan_start)
    as (st2 & -> & b & e & a & B1 & X1 & A1 & B2 & X2 & A2).
  apply process_lines_grows in E2 as (_ & _ & dp & _ & _ & _ & P & _).
  cbn [bind].
  exists (build_times m), (explicit_state_root_times m),
    (payload_to_received_times m), (block_added_times m),
    (build_times st2), (explicit_state_root_times st2),
    (payload_to_received_times st2), (block_added_times st2), dp.
  rewrite B2, X2, A2. cbn. auto 10.
Qed.

(** X7. A block range only removes data: when [parse_log_file] returns
    without a range it returns under every range, with the same explicit
    state root series, and each of the other three series is the series
    without a range with some entries left out. *)
Theorem block_range_only_removes log_file block_range build explicit received added :
  parse_log_file log_file None = Ok (build, explicit, received, added) ->
  exists build' received' added',
    parse_log_file log_file block_range = Ok (build', explicit, received', added')
    /\ sublist build' build /\ sublist received' received /\ sublist added' added.
Proof.
  unfold parse_log_file. intros H.
  destruct (process_lines None log_file scan_start) as [sN|] eqn:EN;
    cbn [bind] in H; [|discriminate].
  injection H as <- <- <- <-.
  destruct (process_lines_range _ _ _ EN block_range scan_start (fun _ _ => eq_refl))
    as (sR & ER & b & p & a & b' & p' & a' & B & P & A & B' & P' & A' & SB & SP & SA).
  rewrite ER. cbn [bind].
  rewrite (process_lines_explicit _ _ _ _ _ _ _ EN ER eq_refl).
  exists (build_times sR), (payload_to_received_times sR), (block_added_times sR).
  split; [reflexivity|]. rewrite B, P, A, B', P', A'. auto.
Qed.

(** X8. Lines without any of the four markers add nothing: on the log
    without them a pass that returns gives the same series. *)
Theorem unmarked_lines_add_nothing log_file block_range series :
  parse_log_file log_file block_range = Ok series ->
  parse_log_file (filter (fun line => has_marker line = true) log_file) block_range
  = Ok series.
Proof.
  unfold parse_log_file.
  assert (Hrun : forall st st',
            process_lines block_range log_file st = Ok st' ->
            process_lines block_range
              (filter (fun line => has_marker line = true) log_file) st = Ok st').
  { induction log_file as [|line rest IH]; intros st st' H; cbn in H.
    - exact H.
    - destruct (process_line block_range line st) as [m|] eqn:L;
        cbn [bind] in H; [|discriminate].
      rewrite filter_cons. destruct (decide (has_marker line = true)) as [Hm|Hm].
      + cbn [process_lines]. rewrite L. cbn [bind]. apply IH. exact H.
      + apply not_true_is_false in Hm.
        rewrite (process_line_unmarked _ _ _ _ L Hm) in H. apply IH. exact H. }
  intros H.
  destruct (process_lines block_range log_file scan_start) as [st|] eqn:E;
    cbn [bind] in H; [|discriminate].
  rewrite (Hrun _ _ E). exact H.
Qed.

(** X9. Block 1 is never pending, nor is any block below: parent numbers
    are not negative.  The test [block_number != 1] on a "Received block"
    line therefore decides nothing that [block_number in
    built_payload_times] does not. *)
Theorem block_one_is_never_pending log_file block_range st :
  process_lines block_range log_file scan_start = Ok st ->
  (forall k, k <= 1 -> built_payload_times st !! k = None)
  /\ (forall n,
        negb (n =? 1) && bool_decide (is_Some (built_payload_times st !! n))
        = bool_decide (is_Some (built_payload_times st !! n))).
Proof.
  intros H.
  assert (Hk : forall k, k <= 1 -> built_payload_times st !! k = None).
  { eapply process_lines_pending; [exact H|]. intros k _. apply lookup_empty. }
  split; [exact Hk|]. intros n.
  destruct (n =? 1) eqn:E; [|reflexivity].
  apply Z.eqb_eq in E. subst n. rewrite Hk by lia.
  rewrite bool_decide_eq_false_2 by (intros [x Hx]; discriminate). reflexivity.
Qed.

End SecondPass.

(** ** The report *)

Section ReportFacts.
Context {RT : Runtime} {CO : Console}.

Lemma io_bind_ok {A B : Type} (m : io A) (k : A -> io B) (t : list effect) (b : B) :
  io_bind m k = (t, Ok b) ->
  exists t1 a t2, m = (t1, Ok a) /\ k a = (t2, Ok b) /\ t = t1 ++ t2.
Proof.
  unfold io_bind. destruct m as [t1 [a|e]]; [|discriminate].
  destruct (k a) as [t2 r] eqn:E. intros [= <- ->]. eauto 6.
Qed.

Lemma lift_ok {A : Type} (r : result A) (t : list effect) (a : A) :
  lift r = (t, Ok a) -> r = Ok a /\ t = [].
Proof. unfold lift. intros [= <- ->]. auto. Qed.

Lemma build_summary_ok log_file block_range build explicit received added label_ s :
  build_summary log_file block_range build explicit received added label_ = Ok s ->
  exists m1 m2 m3 m4,
    compute_statistics build = Ok m1
    /\ compute_statistics received = Ok m2
    /\ compute_statistics explicit = Ok m3
    /\ compute_statistics added = Ok m4
    /\ s = {| summary_label := label_;
              summary_log_file := log_file;
              summary_block_range := block_range;
              summary_metrics :=
                [ (text "Build Payload Time", m1);
                  (text "State Root Computation", m2);
                  (text "Explicit State Root Task", m3);
                  (text "Block Added to Canonical Chain", m4) ] |}.
Proof.
  unfold build_summary. intros H.
  destruct (compute_statistics build) as [m1|]; cbn [bind] in H; [|discriminate].
  destruct (compute_statistics received) as [m2|]; cbn [bind] in H; [|discriminate].
  destruct (compute_statistics explicit) as [m3|]; cbn [bind] in H; [|discriminate].
  destruct (compute_statistics added) as [m4|]; cbn [bind] in H; [|discriminate].
  injection H as <-. eauto 10.
Qed.

(** The two passes and the summary behind a run of [main] that returns. *)
Lemma main_ok a lines t r :
  main a (Some lines) = (t, Ok r) ->
  exists found build explicit received added s,
    find_block_range lines = Ok found
    /\ parse_log_file lines (main_block_range found) = Ok (build, explicit, received, added)
    /\ build_summary (str_path (log a)) (main_block_range found)
         build explicit received added (label a) = Ok s
    /\ r = Some s.
Proof.
  unfold main. intros H.
  apply io_bind_ok in H as (t1 & [] & t2 & _ & H & _).
  apply io_bind_ok in H as (t3 & found & t4 & Hfound & H & _).
  apply lift_ok in Hfound as [Hfound _].
  apply io_bind_ok in H as (t5 & [] & t6 & _ & H & _).
  apply io_bind_ok in H as (t7 & series & t8 & Hseries & H & _).
  apply lift_ok in Hseries as [Hseries _].
  destruct series as [[[build explicit] received] added].
  apply io_bind_ok in H as (t9 & s & t10 & Hs & H & _).
  apply lift_ok in Hs as [Hs _].
  apply io_bind_ok in H as (t11 & [] & t12 & _ & H & _).
  apply io_bind_ok in H as (t13 & [] & t14 & _ & H & _).
  apply lift_ok in H as [H _]. injection H as <-.
  exists found, build, explicit, received, added, s. auto.
Qed.

Lemma metric_count (times : list float) (m : option stats) (k : nat) :
  compute_statistics times = Ok m -> (length times <= k)%nat ->
  forall s, m = Some s -> (1 <= count s <= k)%nat.
Proof.
  intros H Hk s ->.
  apply compute_statistics_count in H as [Hnone Hcount].
  rewrite (Hcount s eq_refl).
  destruct times as [|x t]; [|cbn in *; lia].
  destruct Hnone as [_ Hnone]. discriminate (Hnone eq_refl).
Qed.

Lemma prints_only_bind {A B : Type} (m : io A) (k : A -> io B) :
  prints_only m -> (forall a, prints_only (k a)) -> prints_only (io_bind m k).
Proof.
  unfold prints_only, io_bind. destruct m as [t1 [a|e]]; cbn; intros H1 H2; [|exact H1].
  specialize (H2 a). destruct (k a) as [t2 r]. cbn in *. apply Forall_app. auto.
Qed.

Lemma prints_only_print (line : pystr) : prints_only (print line).
Proof. repeat constructor. Qed.

Lemma prints_only_lift {A : Type} (r : result A) : prints_only (lift r).
Proof. constructor. Qed.

Lemma prints_only_unless (q : bool) (m : io unit) :
  prints_only m -> prints_only (unless q m).
Proof. destruct q; [constructor|auto]. Qed.

Lemma prints_only_format_stats (name : pystr) (m : option stats) :
  prints_only (format_stats name m).
Proof.
  unfold format_stats. destruct m as [s|]; [|apply prints_only_print].
  repeat first [apply prints_only_print | apply prints_only_lift
               | apply prints_only_bind; [|intros ?]].
Qed.

Lemma filter_prints_only (t : list effect) :
  Forall (fun e => is_print e = true) t ->
  filter (fun e => is_print e = false) t = [].
Proof.
  induction 1 as [|e t He _ IH]; [reflexivity|].
  rewrite filter_cons. destruct (decide _) as [Hf|_]; [congruence|exact IH].
Qed.

Lemma io_bind_ok_prints {A B : Type} (m : io A) (k : A -> io B) t b :
  prints_only m ->
  io_bind m k = (t, Ok b) ->
  exists t1 a t2, k a = (t2, Ok b) /\ t = t1 ++ t2
    /\ filter (fun e => is_print e = false) t1 = [].
Proof.
  intros Hp H. apply io_bind_ok in H as (t1 & x & t2 & -> & H & ->).
  exists t1, x, t2. split; [exact H|]. split; [reflexivity|].
  apply filter_prints_only. exact Hp.
Qed.

Lemma writes_last_bind {A : Type} a (m : io A) (k : A -> io (option summary)) :
  prints_only m -> (forall x, writes_last a (k x)) -> writes_last a (io_bind m k).
Proof.
  unfold prints_only, io_bind. destruct m as [t1 [x|e]]; cbn [fst]; intros H1 H2.
  - specialize (H2 x). destruct (k x) as [t2 r].
    destruct H2 as (prints & Hp & [[Ht Hr]|[(file & s & e & Hj & Hd & Hr & Ht)
                                          |(file & s & Hj & Hr & Hd & Ht)]]);
      cbn [fst snd] in *.
    + exists (t1 ++ prints). split; [apply Forall_app; auto|]. left. subst. auto.
    + exists (t1 ++ prints). split; [apply Forall_app; auto|]. right. left.
      exists file, s, e. subst. rewrite app_assoc. auto.
    + exists (t1 ++ prints). split; [apply Forall_app; auto|]. right. right.
      exists file, s. subst. rewrite app_assoc. auto.
  - exists t1. split; [exact H1|]. left. cbn. eauto.
Qed.

(** The step that writes the JSON file. *)
Lemma write_json_ok (target : option path) (s : summary) (t : list effect) :
  match target with
  | Some file_ =>
    io_bind ([MadeDirs (parent file_)], Ok tt)
      (fun _ => io_bind (lift (json_dumps s))
                  (fun _ => ([WroteJson file_ s], Ok tt)))
  | None => ([], Ok tt)
  end = (t, Ok tt) ->
  t = match target with
      | Some file_ => [MadeDirs (parent file_); WroteJson file_ s]
      | None => []
      end
  /\ (forall file_, target = Some file_ -> json_dumps s = Ok tt).
Proof.
  destruct target as [file_|]; cbn [io_bind lift app].
  - destruct (json_dumps s) as [[]|e]; cbn [app]; intros [= <-].
    split; [reflexivity|]. intros _ _. reflexivity.
  - intros [= <-]. split; [reflexivity|]. intros ? [=].
Qed.

(** X18. The summary that [main] returns for a log that exists: its block
    range is the one [find_block_range] found, its log file and label are
    those of the arguments, and its four metrics are, in this order, the
    statistics of the build times, of the payload-to-received latencies
    (under the name "State Root Computation"), of the explicit state root
    times and of the block added times that [parse_log_file] returned
    under that range; a metric is absent exactly when its series is
    empty, and one that is present counts the data of its series. *)
Theorem main_summary a lines t r :
  main a (Some lines) = (t, Ok r) ->
  exists found build explicit received added m1 m2 m3 m4,
    find_block_range lines = Ok found
    /\ parse_log_file lines (main_block_range found) = Ok (build, explicit, received, added)
    /\ compute_statistics build = Ok m1
    /\ compute_statistics received = Ok m2
    /\ compute_statistics explicit = Ok m3
    /\ compute_statistics added = Ok m4
    /\ r = Some {| summary_label := label a;
                   summary_log_file := str_path (log a);
                   summary_block_range := main_block_range found;
                   summary_metrics :=
                     [ (text "Build Payload Time", m1);
                       (text "State Root Computation", m2);
                       (text "Explicit State Root Task", m3);
                       (text "Block Added to Canonical Chain", m4) ] |}
    /\ (m1 = None <-> build = [])
    /\ (m2 = None <-> received = [])
    /\ (m3 = None <-> explicit = [])
    /\ (m4 = None <-> added = [])
    /\ (forall st, m1 = Some st -> count st = length build)
    /\ (forall st, m2 = Some st -> count st = length received)
    /\ (forall st, m3 = Some st -> count st = length explicit)
    /\ (forall st, m4 = Some st -> count st = length added).
Proof.
  intros H.
  apply main_ok in H as (found & build & explicit & received & added & s
                         & Hfound & Hseries & Hs & ->).
  apply build_summary_ok in Hs as (m1 & m2 & m3 & m4 & H1 & H2 & H3 & H4 & ->).
  exists found, build, explicit, received, added, m1, m2, m3, m4.
  destruct (compute_statistics_count _ _ H1) as [N1 C1].
  destruct (compute_statistics_count _ _ H2) as [N2 C2].
  destruct (compute_statistics_count _ _ H3) as [N3 C3].
  destruct (compute_statistics_count _ _ H4) as [N4 C4].
  repeat match goal with |- _ /\ _ => split end; auto.
Qed.

(** X19. In the summary that [main] returns, a metric that is present
    counts at least one datum and at most the lines of the log with its
    marker ("State Root Computation": the "Received block" lines, and no
    more than the "Built payload" lines); a log without lines for a
    metric has the metric absent. *)
Theorem main_metrics_count_marked_lines a lines t s :
  main a (Some lines) = (t, Ok (Some s)) ->
  exists m1 m2 m3 m4,
    summary_metrics s
    = [ (text "Build Payload Time", m1);
        (text "State Root Computation", m2);
        (text "Explicit State Root Task", m3);
        (text "Block Added to Canonical Chain", m4) ]
    /\ (forall st, m1 = Some st ->
          (1 <= count st <= lines_with built_marker lines)%nat)
    /\ (forall st, m2 = Some st ->
          (1 <= count st <= lines_with received_marker lines)%nat
          /\ (count st <= lines_with built_marker lines)%nat)
    /\ (forall st, m3 = Some st ->
          (1 <= count st <= lines_with state_root_marker lines)%nat)
    /\ (forall st, m4 = Some st ->
          (1 <= count st <= lines_with block_added_marker lines)%nat).
Proof.
  intros H.
  apply main_ok in H as (found & build & explicit & received & added & s'
                         & Hfound & Hseries & Hs & [= <-]).
  apply build_summary_ok in Hs as (m1 & m2 & m3 & m4 & H1 & H2 & H3 & H4 & ->).
  unfold parse_log_file in Hseries.
  destruct (process_lines (main_block_range found) lines scan_start) as [st|] eqn:E;
    cbn [bind] in Hseries; [|discriminate].
  injection Hseries as <- <- <- <-.
  apply process_lines_marked in E as (B & X & A & P & PB).
  unfold scan_start in B, X, A, P, PB.
  cbn [build_times explicit_state_root_times block_added_times
       payload_to_received_times built_payload_times length Nat.add] in *.
  rewrite map_size_empty in PB.
  exists m1, m2, m3, m4. split; [reflexivity|].
  split; [|split; [|split]].
  - exact (metric_count _ _ _ H1 B).
  - intros stt Hst. split.
    + exact (metric_count _ _ _ H2 P stt Hst).
    + assert (Hle : (length (payload_to_received_times st)
                     <= lines_with built_marker lines)%nat) by lia.
      exact (proj2 (metric_count _ _ _ H2 Hle stt Hst)).
  - exact (metric_count _ _ _ H3 X).
  - exact (metric_count _ _ _ H4 A).
Qed.

(** X20. [--quiet] silences and changes nothing else: when a run
    returns, the quiet run returns the same summary, and its effects are
    those of the run without the calls of [print], that is, the directory
    created and the summary written when [--json] is given, and nothing
    otherwise. *)
Theorem quiet_only_silences a lines t r :
  main a (Some lines) = (t, Ok r) ->
  main (quietly a) (Some lines) = (filter (fun e => is_print e = false) t, Ok r)
  /\ exists s, r = Some s
       /\ filter (fun e => is_print e = false) t
          = match json a with
            | Some file => [MadeDirs (parent file); WroteJson file s]
            | None => []
            end.
Proof.
  intros H.
  pose proof (main_ok _ _ _ _ H) as (found & build & explicit & received & added & s
                                     & Hfound & Hseries & Hs & ->).
  assert (Ht : filter (fun e => is_print e = false) t
               = match json a with
                 | Some file => [MadeDirs (parent file); WroteJson file s]
                 | None => []
                 end
               /\ (forall file, json a = Some file -> json_dumps s = Ok tt)).
  { unfold main in H.
    apply io_bind_ok_prints in H as (t1 & [] & t2 & H & -> & F1);
      [|apply prints_only_unless, prints_only_print].
    apply io_bind_ok in H as (t3 & found' & t4 & Hfound' & H & ->).
    apply lift_ok in Hfound' as [Hfound' ->].
    assert (found' = found) as -> by congruence.
    apply io_bind_ok_prints in H as (t5 & [] & t6 & H & -> & F5).
    2:{ destruct (main_block_range found) as [[first_block last_block]|];
          apply prints_only_unless;
          repeat first [apply prints_only_print | apply prints_only_lift
                       | apply prints_only_bind; [|intros ?]]. }
    apply io_bind_ok in H as (t7 & series & t8 & Hseries' & H & ->).
    apply lift_ok in Hseries' as [Hseries' ->].
    rewrite Hseries in Hseries'. injection Hseries' as <-.
    apply io_bind_ok in H as (t9 & s' & t10 & Hs' & H & ->).
    apply lift_ok in Hs' as [Hs' ->].
    rewrite Hs in Hs'. injection Hs' as <-.
    apply io_bind_ok_prints in H as (t11 & [] & t12 & H & -> & F11).
    2:{ apply prints_only_unless.
        repeat first [apply prints_only_print | apply prints_only_lift
                     | apply prints_only_format_stats
                     | apply prints_only_bind; [|intros ?]]. }
    apply io_bind_ok in H as (t13 & [] & t14 & Hjson & H & ->).
    apply lift_ok in H as [_ ->].
    apply write_json_ok in Hjson as [-> Hdump].
    rewrite !filter_app, F1, F5, F11. cbn [app]. rewrite app_nil_r.
    split; [destruct (json a); reflexivity|exact Hdump]. }
  destruct Ht as [Ht Hdump].
  assert (Hq : main (quietly a) (Some lines)
               = (match json a with
                  | Some file => [MadeDirs (parent file); WroteJson file s]
                  | None => []
                  end, Ok (Some s))).
  { unfold main. cbn [quiet quietly log json label unless].
    rewrite Hfound. cbn [lift io_bind app].
    destruct (main_block_range found) as [[first_block last_block]|];
      cbn [unless io_bind app]; rewrite Hseries; cbn [lift io_bind app];
      rewrite Hs; cbn [io_bind app]; destruct (json a) as [file|];
      try reflexivity; cbn [io_bind lift app];
      rewrite (Hdump file eq_refl); reflexivity. }
  split; [rewrite Ht; exact Hq|]. exists s. split; [reflexivity|exact Ht].
Qed.

(** X21. What [main] writes: apart from printing, a run has no effect
    when the log is missing, when [--json] is not given, or when it raises
    before the summary is complete.  With [--json] and a summary, it
    creates the directory of the JSON file and then either raises, when
    [json.dumps] cannot write an integer of the summary, with no file
    written, or writes the summary and returns it. *)
Theorem main_writes_json_last a file t r :
  main a file = (t, r) ->
  exists prints, Forall (fun e => is_print e = true) prints
    /\ ((t = prints /\ (file = None \/ json a = None \/ exists e, r = Raise e))
        \/ (exists target s e, json a = Some target /\ json_dumps s = Raise e
              /\ r = Raise e /\ t = prints ++ [MadeDirs (parent target)])
        \/ (exists target s, json a = Some target /\ r = Ok (Some s)
              /\ json_dumps s = Ok tt
              /\ t = prints ++ [MadeDirs (parent target); WroteJson target s])).
Proof.
  intros H. destruct file as [lines|].
  2:{ injection H as <- <-. eexists. split; [|left; split; [reflexivity|auto]].
      repeat constructor. }
  assert (Hw : writes_last a (main a (Some lines))).
  { unfold main.
    apply writes_last_bind; [apply prints_only_unless, prints_only_print|intros _].
    apply writes_last_bind; [apply prints_only_lift|intros found].
    apply writes_last_bind.
    { destruct (main_block_range found) as [[first_block last_block]|];
        apply prints_only_unless;
        repeat first [apply prints_only_print | apply prints_only_lift
                     | apply prints_only_bind; [|intros ?]]. }
    intros _. apply writes_last_bind; [apply prints_only_lift|intros series].
    destruct series as [[[build explicit] received] added].
    apply writes_last_bind; [apply prints_only_lift|intros s].
    apply writes_last_bind.
    { apply prints_only_unless.
      repeat first [apply prints_only_print | apply prints_only_lift
                   | apply prints_only_format_stats
                   | apply prints_only_bind; [|intros ?]]. }
    intros _. destruct (json a) as [target|] eqn:Hj.
    - exists []. split; [constructor|]. right. cbn [io_bind lift app].
      destruct (json_dumps s) as [[]|e] eqn:Hd; cbn [app fst snd].
      + right. exists target, s. auto.
      + left. exists target, s, e. auto.
    - exists []. split; [constructor|]. left. cbn. auto. }
  rewrite H in Hw.
  destruct Hw as (prints & Hp & [[Ht Hr]|[(target & s & e & Hj & Hd & Hr & Ht)
                                        |(target & s & Hj & Hr & Hd & Ht)]]);
    cbn [fst snd] in *; exists prints; (split; [exact Hp|]).
  - left. split; [exact Ht|]. tauto.
  - right. left. eauto 8.
  - right. right. eauto 8.
Qed.

End ReportFacts.

(** * Runs on the reference interpreter *)

Lemma find_block_range_policy_run :
  collect_blocks (RT := reference_runtime) 1000 steady_log [] = Ok [10; 11; 12; 13]
  /\ find_block_range (RT := reference_runtime) steady_log = Ok (Some 11, Some 12).
Proof.
  pose proof (find_block_range_policy (RT := reference_runtime)) as (Hfind & Hrange & _).
  assert (Hblocks : collect_blocks (RT := reference_runtime) 1000 steady_log []
                    = Ok [10; 11; 12; 13]) by (vm_compute; reflexivity).
  split; [exact Hblocks|].
  rewrite (Hfind steady_log [10; 11; 12; 13] Hblocks).
  rewrite (proj1 (Hrange [10; 11; 12; 13] 10 13 eq_refl eq_refl)) by (simpl; lia).
  reflexivity.
Defined.

(** Block 1 with no range: its build time is recorded. *)
Lemma block_one_build_time_is_recorded :
  parse_log_file (RT := reference_runtime) [block_one_line] None
    = Ok ([12.5%float], [], [], [])
  /\ parse_log_file (RT := reference_runtime)
       [text "Built payload parent_number=0 elapsed=12.5ms"] None
    = Ok ([12.5%float], [], [], []).
Proof. split; vm_compute; reflexivity. Qed.

Lemma built_payload_of_block_one_run :
  process_line (RT := reference_runtime) (Some (2, 9)) block_one_line scan_start
    = Ok scan_start
  /\ process_line (RT := reference_runtime) None block_one_line scan_start
    = Ok {| build_times := [12.5%float]; explicit_state_root_times := [];
            block_added_times := []; payload_to_received_times := [];
            built_payload_times := ∅ |}
  /\ built_payload_times (RT := reference_runtime) scan_start = ∅.
Proof.
  assert (H1 : process_line (RT := reference_runtime) (Some (2, 9)) block_one_line
                 scan_start = Ok scan_start) by reflexivity.
  assert (H2 : process_line (RT := reference_runtime) None block_one_line scan_start
               = Ok {| build_times := [12.5%float]; explicit_state_root_times := [];
                       block_added_times := []; payload_to_received_times := [];
                       built_payload_times := ∅ |}) by reflexivity.
  split; [exact H1|split; [exact H2|]].
  apply (built_payload_of_block_one (RT := reference_runtime) (Some (2, 9))
           block_one_line scan_start scan_start [text "0"]);
    [vm_compute; reflexivity|vm_compute; reflexivity|vm_compute; reflexivity|exact H1].
Defined.

Lemma parse_time_to_ms_units_run :
  py_float (RT := reference_runtime) (text "180.5") = Ok 180.5%float
  /\ parse_time_to_ms (RT := reference_runtime) (text "180.5" ++ text "s")
     = Ok (Some (180.5 * 1000)%float).
Proof.
  assert (H : py_float (RT := reference_runtime) (text "180.5") = Ok 180.5%float)
    by (vm_compute; reflexivity).
  split; [exact H|].
  apply (proj1 (parse_time_to_ms_units (RT := reference_runtime)) (text "180.5") _ H).
Defined.

Lemma strip_ansi_codes_twice_run :
  strip_ansi_codes (RT := reference_runtime) coloured = text " INFO Built payload"
  /\ strip_ansi_codes (RT := reference_runtime)
       (strip_ansi_codes (RT := reference_runtime) coloured)
     = strip_ansi_codes (RT := reference_runtime) coloured.
Proof.
  split; [vm_compute; reflexivity|].
  apply (proj1 (strip_ansi_codes_twice (RT := reference_runtime)) coloured).
  vm_compute. intros H. repeat (apply elem_of_cons in H as [H|H]; [discriminate H|]).
  inversion H.
Defined.

(** A lone ESC in front of an escape sequence survives the first pass and
    starts a new sequence with the text behind it. *)
Lemma strip_ansi_codes_not_idempotent :
  strip_ansi_codes (RT := reference_runtime) (ESC :: ESC :: text "[0mA") = ESC :: text "A"
  /\ strip_ansi_codes (RT := reference_runtime)
       (strip_ansi_codes (RT := reference_runtime) (ESC :: ESC :: text "[0mA")) = [].
Proof. split; vm_compute; reflexivity. Qed.

Lemma gas_threshold_run :
  exists gas_used,
    (group [text "21.5"; text "M"] 2 = [] /\ gas_used = 21.5%float
     \/ group [text "21.5"; text "M"] 2 = text "K" /\ gas_used = (21.5 * 1000)%float
     \/ group [text "21.5"; text "M"] 2 = text "M" /\ gas_used = (21.5 * 1000000)%float
     \/ group [text "21.5"; text "M"] 2 = text "G"
        /\ gas_used = (21.5 * 1000000000)%float)
    /\ note_block (RT := reference_runtime) 1000
         (text "Block added to canonical chain number=12 gas_used=21.5Mgas") [11]
       = Ok (if (1000 <? gas_used)%float then [11] ++ [12] else [11]).
Proof.
  apply (proj1 (gas_threshold (RT := reference_runtime))
           (text "Block added to canonical chain number=12 gas_used=21.5Mgas")
           [11] [text "12"] [text "21.5"; text "M"] 12 21.5%float);
    vm_compute; reflexivity.
Defined.

Lemma compute_statistics_summary_run :
  exists s, compute_statistics (RT := reference_runtime)
              [1%float; 2%float; 3%float; 4%float] = Ok (Some s)
    /\ count s = 4%nat
    /\ mean s = 2.5%float
    /\ median s = 2.5%float
    /\ min s = 1%float
    /\ max s = 4%float
    /\ std_dev s = 0x1.4a7e9cb8a3491p+0%float.
Proof.
  destruct (proj1 (proj2 (compute_statistics_summary (RT := reference_runtime)))
              [1%float; 2%float; 3%float; 4%float]
              (map (fun k => k * 2 ^ 1074) [1; 2; 3; 4])
              ltac:(discriminate) ltac:(vm_compute; reflexivity)
              ltac:(right; eexists; vm_compute; reflexivity))
    as (s & Hs & Hcount & _).
  exists s. split; [exact Hs|].
  assert (Hval : Some s = Some {| count := 4; mean := 2.5; median := 2.5; min := 1;
                                  max := 4; std_dev := 0x1.4a7e9cb8a3491p+0 |}).
  { assert (Hok : forall x y : option stats, Ok x = Ok y -> x = y)
      by (intros x y [= ->]; reflexivity).
    apply Hok. rewrite <- Hs. vm_compute. reflexivity. }
  injection Hval as ->. repeat split.
Defined.

(** Two data of which one is [inf], the value that [float] gives an
    elapsed token of 400 digits, and two finite data whose deviation is
    past the largest float: [stdev] raises, and so does
    [compute_statistics]. *)
Lemma compute_statistics_raises :
  parse_time_to_ms (RT := reference_runtime) (repeat 57%N 400 ++ text "ms")
    = Ok (Some infinity)
  /\ compute_statistics (RT := reference_runtime) [infinity; 1%float]
     = Raise AttributeError
  /\ compute_statistics (RT := reference_runtime)
       [0x1.e42d130773b76p+1023%float; (-0x1.e42d130773b76p+1023)%float]
     = Raise OverflowError.
Proof. split; [|split]; vm_compute; reflexivity. Qed.

Lemma explicit_state_root_times_ignore_range_run :
  parse_log_file (RT := reference_runtime) mixed_log None
    = Ok ([], [5%float; 0.25%float], [], [1%float])
  /\ exists build' received' added',
       parse_log_file (RT := reference_runtime) mixed_log (Some (11, 12))
       = Ok (build', [5%float; 0.25%float], received', added').
Proof.
  assert (H : parse_log_file (RT := reference_runtime) mixed_log None
              = Ok ([], [5%float; 0.25%float], [], [1%float])) by (vm_compute; reflexivity).
  split; [exact H|].
  exact (proj1 (explicit_state_root_times_ignore_range (RT := reference_runtime)
                  (Some (11, 12))) mixed_log _ _ _ _ H).
Defined.

(** The range (10, 20) leaves out block 5, whose elapsed token "1.2.3ms"
    is then never converted; without a range [float] raises on it. *)
Lemma range_hides_a_malformed_duration :
  parse_log_file (RT := reference_runtime) skewed_log (Some (10, 20))
    = Ok ([], [5%float], [], [])
  /\ parse_log_file (RT := reference_runtime) skewed_log None = Raise ValueError.
Proof. split; vm_compute; reflexivity. Qed.

Lemma inverted_range_yields_nothing_run :
  parse_log_file (RT := reference_runtime) repeated_log (Some (8, 6)) = Ok ([], [], [], [])
  /\ parse_log_file (RT := reference_runtime) repeated_log None
     = Ok ([], [], [], [1%float; 1%float; 1%float])
  /\ find_block_range (RT := reference_runtime) repeated_log
     = Ok (Some (7 + 1), Some (7 - 1))
  /\ (forall n, in_range (Some (7 + 1, 7 - 1)) n = false)
  /\ (forall log build explicit received added,
        parse_log_file (RT := reference_runtime) log (Some (7 + 1, 7 - 1))
          = Ok (build, explicit, received, added) ->
        build = [] /\ received = [] /\ added = []).
Proof.
  split; [vm_compute; reflexivity|]. split; [vm_compute; reflexivity|].
  apply (inverted_range_yields_nothing (RT := reference_runtime)
           repeated_log [7; 7; 7] 7 7);
    [vm_compute; reflexivity|simpl; lia|reflexivity|reflexivity|lia].
Defined.

(** Four data: the standard deviation divides by n - 1 = 3; it is the float
    written 1.2909944487358056. *)
Theorem compute_statistics_of_four :
  exists s,
    compute_statistics (RT := reference_runtime)
      [1%float; 2%float; 3%float; 4%float] = Ok (Some s)
    /\ count s = 4%nat /\ mean s = 2.5%float /\ median s = 2.5%float
    /\ min s = 1%float /\ max s = 4%float
    /\ py_float (RT := reference_runtime) (text "1.2909944487358056") = Ok (std_dev s).
Proof.
  exists {| count := 4; mean := 2.5; median := 2.5; min := 1; max := 4;
            std_dev := 0x1.4a7e9cb8a3491p+0 |}.
  split; [vm_compute; reflexivity|].
  do 5 (split; [reflexivity|]).
  vm_compute. reflexivity.
Qed.

Lemma captured_number_is_int_run :
  exists n, py_int (RT := reference_runtime) (group [text "6"] 1) = Ok n.
Proof.
  apply (captured_number_is_int (RT := reference_runtime)
           (text "Received block from consensus engine number=6") [text "6"]).
  - left. vm_compute. reflexivity.
  - simpl. lia.
Defined.

Lemma received_block_is_consumed_run :
  on_received_block (RT := reference_runtime) None (Some 63894781357200000)
    (text "Received block from consensus engine number=6") pending_six
  = Ok {| build_times := [12.5%float]; explicit_state_root_times := [];
          block_added_times := []; payload_to_received_times := [100%float];
          built_payload_times := delete 6 (built_payload_times pending_six) |}
  /\ on_received_block (RT := reference_runtime) None (Some 63894781357300000)
       (text "Received block from consensus engine number=6")
       {| build_times := [12.5%float]; explicit_state_root_times := [];
          block_added_times := []; payload_to_received_times := [100%float];
          built_payload_times := delete 6 (built_payload_times pending_six) |}
     = Ok {| build_times := [12.5%float]; explicit_state_root_times := [];
             block_added_times := []; payload_to_received_times := [100%float];
             built_payload_times := delete 6 (built_payload_times pending_six) |}.
Proof.
  assert (H : on_received_block (RT := reference_runtime) None (Some 63894781357200000)
                (text "Received block from consensus engine number=6") pending_six
              = Ok {| build_times := [12.5%float]; explicit_state_root_times := [];
                      block_added_times := []; payload_to_received_times := [100%float];
                      built_payload_times := delete 6 (built_payload_times pending_six) |})
    by reflexivity.
  split; [exact H|].
  destruct (received_block_is_consumed (RT := reference_runtime) None
              (Some 63894781357200000) (Some 63894781357300000) _ _ _ H)
    as [Hsame|(n & start_time & elapsed_ms & _ & _ & _ & Hagain)].
  - discriminate Hsame.
  - exact Hagain.
Defined.


Lemma built_then_received_run :
  exists st2,
    process_line (RT := reference_runtime) None
      (text "2025-09-29T22:22:37.200000Z Received block from consensus engine number=6")
      pending_six = Ok st2
    /\ payload_to_received_times st2
       = payload_to_received_times scan_start
         ++ [elapsed_ms_between (RT := reference_runtime)
               63894781357200000 63894781357100000]
    /\ built_payload_times st2 !! (5 + 1) = None
    /\ build_times st2 = build_times pending_six
    /\ explicit_state_root_times st2 = explicit_state_root_times scan_start
    /\ block_added_times st2 = block_added_times scan_start.
Proof.
  apply (built_then_received (RT := reference_runtime) None
           (text "2025-09-29T22:22:37.100000Z Built payload{parent_number=5} elapsed=12.5ms")
           (text "2025-09-29T22:22:37.200000Z Received block from consensus engine number=6")
           scan_start pending_six 63894781357100000 63894781357200000
           [text "5"] [text "6"] 5).
  - vm_compute; reflexivity.
  - vm_compute; reflexivity.
  - vm_compute; reflexivity.
  - vm_compute; reflexivity.
  - discriminate.
  - reflexivity.
  - vm_compute; reflexivity.
  - vm_compute; reflexivity.
  - vm_compute; reflexivity.
  - vm_compute; reflexivity.
  - vm_compute; reflexivity.
  - reflexivity.
Defined.

Lemma one_datum_per_line_run :
  (length [12.5%float] + length [5%float] + length [100%float] + length [1%float]
   <= length session_log)%nat.
Proof.
  apply (one_datum_per_line (RT := reference_runtime) session_log None).
  vm_compute; reflexivity.
Defined.

Lemma series_bounded_by_marked_lines_run :
  (length [12.5%float] <= lines_with (RT := reference_runtime) built_marker session_log)%nat
  /\ (length [5%float]
      <= lines_with (RT := reference_runtime) state_root_marker session_log)%nat
  /\ (length [1%float]
      <= lines_with (RT := reference_runtime) block_added_marker session_log)%nat
  /\ (length [100%float]
      <= lines_with (RT := reference_runtime) received_marker session_log)%nat
  /\ (length [100%float]
      <= lines_with (RT := reference_runtime) built_marker session_log)%nat.
Proof.
  apply (series_bounded_by_marked_lines (RT := reference_runtime) session_log None).
  vm_compute; reflexivity.
Defined.

Lemma parse_log_file_app_run :
  exists build1 explicit1 received1 added1 build2 explicit2 received2 added2 later,
    parse_log_file (RT := reference_runtime) (take 2 session_log) None
    = Ok (build1, explicit1, received1, added1)
    /\ parse_log_file (RT := reference_runtime) (drop 2 session_log) None
       = Ok (build2, explicit2, received2, added2)
    /\ [12.5%float] = build1 ++ build2
    /\ [5%float] = explicit1 ++ explicit2
    /\ [1%float] = added1 ++ added2
    /\ [100%float] = received1 ++ later.
Proof.
  apply (parse_log_file_app (RT := reference_runtime)
           (take 2 session_log) (drop 2 session_log) None).
  vm_compute; reflexivity.
Defined.

Lemma block_range_only_removes_run :
  exists build' received' added',
    parse_log_file (RT := reference_runtime) session_log (Some (7, 9))
    = Ok (build', [5%float], received', added')
    /\ sublist build' [12.5%float] /\ sublist received' [100%float]
    /\ sublist added' [1%float].
Proof.
  apply (block_range_only_removes (RT := reference_runtime) session_log (Some (7, 9))).
  vm_compute; reflexivity.
Defined.

Lemma unmarked_lines_add_nothing_run :
  parse_log_file (RT := reference_runtime)
    (filter (fun line => has_marker (RT := reference_runtime) line = true) session_log)
    None
  = Ok ([12.5%float], [5%float], [100%float], [1%float]).
Proof.
  apply (unmarked_lines_add_nothing (RT := reference_runtime) session_log None).
  vm_compute; reflexivity.
Defined.

Lemma block_one_is_never_pending_run :
  (forall k, k <= 1 -> built_payload_times pending_six !! k = None)
  /\ (forall n,
        negb (n =? 1) && bool_decide (is_Some (built_payload_times pending_six !! n))
        = bool_decide (is_Some (built_payload_times pending_six !! n))).
Proof.
  apply (block_one_is_never_pending (RT := reference_runtime) (take 1 session_log) None).
  reflexivity.
Defined.

Lemma elapsed_token_is_a_duration_run :
  exists num unit,
    group [text "12.5ms"] 1 = num ++ unit
    /\ (unit = text "s" \/ unit = text "ms" \/ unit = text "µs")
    /\ parse_time_to_ms (RT := reference_runtime) (group [text "12.5ms"] 1)
       = (try! value := py_float (RT := reference_runtime) num in
          Ok (Some (unit_scale unit value)))
    /\ parse_time_to_ms (RT := reference_runtime) (group [text "12.5ms"] 1) <> Ok None.
Proof.
  apply (elapsed_token_is_a_duration (RT := reference_runtime)
           (text "Built payload{parent_number=5} elapsed=12.5ms")).
  vm_compute; reflexivity.
Defined.

Lemma parse_time_to_ms_reads_a_prefix_run :
  parse_time_to_ms (RT := reference_runtime) (text "  2.5ms ")
  = parse_time_to_ms (RT := reference_runtime) (text "2.5ms")
  /\ parse_time_to_ms (RT := reference_runtime) (text "5sec") = Ok (Some 5000%float).
Proof.
  split.
  - apply (proj1 (parse_time_to_ms_reads_a_prefix (RT := reference_runtime))
             (text "  ") (text "2.5ms") (text " "));
      repeat constructor.
  - apply (proj2 (parse_time_to_ms_reads_a_prefix (RT := reference_runtime))
             (text "5") (text "s") (text "e") 99%N 5%float).
    + vm_compute; reflexivity.
    + left; reflexivity.
    + reflexivity.
Defined.

Lemma find_block_range_reads_block_added_lines_run :
  find_block_range (RT := reference_runtime) (take 2 session_log) = Ok (None, None).
Proof.
  apply (proj2 (find_block_range_reads_block_added_lines (RT := reference_runtime)
                  (take 2 session_log))).
  vm_compute; reflexivity.
Defined.

Lemma collect_blocks_of_two_parts_run :
  exists blocks1 blocks2,
    collect_blocks (RT := reference_runtime) 1000 (take 2 steady_log) [] = Ok blocks1
    /\ collect_blocks (RT := reference_runtime) 1000 (drop 2 steady_log) [] = Ok blocks2
    /\ [10; 11; 12; 13] = blocks1 ++ blocks2.
Proof.
  apply (proj1 (collect_blocks_of_two_parts (RT := reference_runtime) 1000
                  (take 2 steady_log) (drop 2 steady_log) [10; 11; 12; 13])).
  vm_compute; reflexivity.
Defined.

Lemma find_block_range_shape_run :
  ((Some 11, Some 12) = (None, None) /\ main_block_range (Some 11, Some 12) = None)
  \/ (exists first_block last_block,
        (Some 11, Some 12) = (Some first_block, Some last_block)
        /\ main_block_range (Some 11, Some 12) = Some (first_block, last_block)
        /\ 0 <= first_block /\ -1 <= last_block).
Proof.
  apply (find_block_range_shape (RT := reference_runtime) steady_log).
  vm_compute; reflexivity.
Defined.

Lemma strip_ansi_codes_removes_sequences_run :
  strip_ansi_codes (RT := reference_runtime) coloured
  = [] ++ strip_ansi_codes (RT := reference_runtime)
            (text " INFO" ++ ESC :: text "[0m Built payload").
Proof.
  apply (proj1 (strip_ansi_codes_removes_sequences (RT := reference_runtime) []
                  (text " INFO" ++ ESC :: text "[0m Built payload")
                  (not_elem_of_nil ESC))
           (text "32") [] 109%N).
  - repeat constructor; vm_compute; discriminate.
  - constructor.
  - split; vm_compute; discriminate.
Defined.

Lemma strip_ansi_codes_only_deletes_run :
  (length (strip_ansi_codes (RT := reference_runtime) coloured) <= length coloured)%nat.
Proof.
  exact (proj1 (proj2 (strip_ansi_codes_only_deletes (RT := reference_runtime) coloured))).
Defined.

Lemma colour_is_invisible_run :
  parse_timestamp (RT := reference_runtime)
    (text "2025-09-29T22:22:37.250000Z " ++ ESC :: 91%N :: text "32" ++ [] ++ 109%N
       :: text "State root task finished elapsed=5ms")
  = parse_timestamp (RT := reference_runtime)
      (text "2025-09-29T22:22:37.250000Z "
       ++ text "State root task finished elapsed=5ms").
Proof.
  apply (colour_is_invisible (RT := reference_runtime)
           (text "2025-09-29T22:22:37.250000Z ") (text "32") [] 109%N
           (text "State root task finished elapsed=5ms")).
  - vm_compute. intros H. repeat (apply elem_of_cons in H as [H|H]; [discriminate H|]).
    apply elem_of_nil in H. exact H.
  - repeat constructor; vm_compute; discriminate.
  - constructor.
  - split; vm_compute; discriminate.
Defined.

Lemma parse_timestamp_normalises_run :
  exists stamp rest,
    strip_ansi_codes (RT := reference_runtime) block_one_line = stamp ++ 90%N :: rest
    /\ (90%N ∉ stamp)
    /\ parse_timestamp (RT := reference_runtime) block_one_line
       = (try! t := fromisoformat (stamp ++ text "+00:00") in Ok (Some t)).
Proof.
  apply (proj2 (parse_timestamp_normalises (RT := reference_runtime) block_one_line)
           [text "2025-09-29T22:22:37.100000Z"]).
  vm_compute; reflexivity.
Defined.

Lemma compute_statistics_extremes_run :
  In 1%float [1%float; 2%float; 3%float; 4%float]
  /\ In 4%float [1%float; 2%float; 3%float; 4%float]
  /\ (1 <= 4)%nat.
Proof.
  apply (compute_statistics_extremes (RT := reference_runtime)
           [1%float; 2%float; 3%float; 4%float]
           {| count := 4; mean := 2.5; median := 2.5; min := 1; max := 4;
              std_dev := 0x1.4a7e9cb8a3491p+0 |}).
  vm_compute; reflexivity.
Defined.

Lemma main_summary_run :
  exists found build explicit received added m1 m2 m3 m4,
    find_block_range (RT := reference_runtime) session_log = Ok found
    /\ parse_log_file (RT := reference_runtime) session_log (main_block_range found)
       = Ok (build, explicit, received, added)
    /\ compute_statistics (RT := reference_runtime) build = Ok m1
    /\ compute_statistics (RT := reference_runtime) received = Ok m2
    /\ compute_statistics (RT := reference_runtime) explicit = Ok m3
    /\ compute_statistics (RT := reference_runtime) added = Ok m4
    /\ Some session_summary
       = Some {| summary_label := label loud_args;
                 summary_log_file := str_path (log loud_args);
                 summary_block_range := main_block_range found;
                 summary_metrics :=
                   [ (text "Build Payload Time", m1);
                     (text "State Root Computation", m2);
                     (text "Explicit State Root Task", m3);
                     (text "Block Added to Canonical Chain", m4) ] |}
    /\ (m1 = None <-> build = [])
    /\ (m2 = None <-> received = [])
    /\ (m3 = None <-> explicit = [])
    /\ (m4 = None <-> added = [])
    /\ (forall st, m1 = Some st -> count st = length build)
    /\ (forall st, m2 = Some st -> count st = length received)
    /\ (forall st, m3 = Some st -> count st = length explicit)
    /\ (forall st, m4 = Some st -> count st = length added).
Proof.
  apply (main_summary (RT := reference_runtime) (CO := reference_console)
           loud_args session_log
           (main (RT := reference_runtime) loud_args (Some session_log)).1).
  transitivity ((main (RT := reference_runtime) loud_args (Some session_log)).1,
                (main (RT := reference_runtime) loud_args (Some session_log)).2);
    [apply surjective_pairing|].
  f_equal; vm_compute; reflexivity.
Defined.

Lemma main_metrics_count_marked_lines_run :
  exists m1 m2 m3 m4,
    summary_metrics session_summary
    = [ (text "Build Payload Time", m1);
        (text "State Root Computation", m2);
        (text "Explicit State Root Task", m3);
        (text "Block Added to Canonical Chain", m4) ]
    /\ (forall st, m1 = Some st ->
          (1 <= count st <= lines_with (RT := reference_runtime) built_marker session_log)%nat)
    /\ (forall st, m2 = Some st ->
          (1 <= count st
           <= lines_with (RT := reference_runtime) received_marker session_log)%nat
          /\ (count st <= lines_with (RT := reference_runtime) built_marker session_log)%nat)
    /\ (forall st, m3 = Some st ->
          (1 <= count st
           <= lines_with (RT := reference_runtime) state_root_marker session_log)%nat)
    /\ (forall st, m4 = Some st ->
          (1 <= count st
           <= lines_with (RT := reference_runtime) block_added_marker session_log)%nat).
Proof.
  apply (main_metrics_count_marked_lines (RT := reference_runtime) (CO := reference_console)
           loud_args session_log
           (main (RT := reference_runtime) loud_args (Some session_log)).1).
  transitivity ((main (RT := reference_runtime) loud_args (Some session_log)).1,
                (main (RT := reference_runtime) loud_args (Some session_log)).2);
    [apply surjective_pairing|].
  f_equal; vm_compute; reflexivity.
Defined.

Lemma quiet_only_silences_run :
  main (RT := reference_runtime) (quietly loud_args) (Some session_log)
  = ([MadeDirs (text "out"); WroteJson (text "out/summary.json") session_summary],
     Ok (Some session_summary)).
Proof.
  destruct (quiet_only_silences (RT := reference_runtime) (CO := reference_console)
              loud_args session_log
              (main (RT := reference_runtime) loud_args (Some session_log)).1
              (Some session_summary))
    as [Hquiet (s & Hs & Hfilter)].
  - transitivity ((main (RT := reference_runtime) loud_args (Some session_log)).1,
                  (main (RT := reference_runtime) loud_args (Some session_log)).2);
      [apply surjective_pairing|].
    f_equal; vm_compute; reflexivity.
  - rewrite Hquiet, Hfilter. injection Hs as <-. reflexivity.
Defined.

Lemma main_writes_json_last_run :
  exists prints, Forall (fun e => is_print e = true) prints
    /\ (((main (RT := reference_runtime) loud_args (Some session_log)).1 = prints
         /\ (Some session_log = None \/ json loud_args = None
             \/ exists e, Ok (Some session_summary) = Raise e))
        \/ (exists target s e, json loud_args = Some target
              /\ json_dumps s = Raise e
              /\ Ok (Some session_summary) = Raise e
              /\ (main (RT := reference_runtime) loud_args (Some session_log)).1
                 = prints ++ [MadeDirs (parent target)])
        \/ (exists target s, json loud_args = Some target
              /\ Ok (Some session_summary) = Ok (Some s)
              /\ json_dumps s = Ok tt
              /\ (main (RT := reference_runtime) loud_args (Some session_log)).1
                 = prints ++ [MadeDirs (parent target); WroteJson target s])).
Proof.
  apply (main_writes_json_last (RT := reference_runtime) (CO := reference_console)
           loud_args (Some session_log)).
  transitivity ((main (RT := reference_runtime) loud_args (Some session_log)).1,
                (main (RT := reference_runtime) loud_args (Some session_log)).2);
    [apply surjective_pairing|].
  f_equal; vm_compute; reflexivity.
Defined.
